(** * Report parsers of the Gaussian tool server (gaussian_v1.py)

    A shallow embedding of the four text parsers of [gaussian_v1.py]:
    [parse_xyz_content], [extract_optimized_structure],
    [extract_fchk_data] and [parse_multiwfn_surface_analysis], and of the
    writer of input decks [xyz_to_gaussian_opt], together with the pieces
    of the Python runtime they rely on ([str.strip], [str.split],
    [str.isdigit], [str.isalnum], [int], [float], list indexing and the
    fragment of [re] that the patterns of the file use).  The functions
    that run other programs ([gaussian_exec], [formchk],
    [analyze_esp_surface]) and the start of the server are not modelled.

    Conventions.
    - A Python [str] is a [list ascii]; a character is a code point below
      256.  The character classes follow CPython on that range.
    - A Python [float] is a value of an abstract type [pyfloat]: the syntax
      accepted by [float(...)] is modelled in full, the rounding of the
      decimal literal to binary64 is the section variable
      [float_of_literal].
    - [int(...)] and the text of an integer follow CPython's default
      limit on the conversion between [int] and [str]: more than 4300
      decimal digits is a [ValueError].
    - Running a block of Python code gives an [outcome]: a value or a
      raised exception; [try]/[except] is a match on the outcome.
    - A file is the text that reading it returns, given by a function from
      names to texts.
    - The fixed-point text of a float with six decimals,
      [format(x, ".6f")], is a function [fixed6] given to the writer.
    - [print] calls write to standard output only and are left out. *)

From Stdlib Require Import ZArith Ascii String List Bool Lia DecimalString.
From stdpp Require Import base option list gmap strings.
Import ListNotations.

#[local] Open Scope Z_scope.

(** The text type of the embedding. *)
Abbreviation str := (list ascii).

(** A string literal of the source, as a [str]. *)
Definition lit (s : string) : str := list_ascii_of_string s.
Arguments lit : simpl never.

(* ===================================================================== *)
(** ** Characters *)
(* ===================================================================== *)

Module Char.

Definition code (c : ascii) : N := N_of_ascii c.

(** [str.isspace] on one character (also the class [\s] of [re] and the
    separators of [str.split()] and [str.strip()]): U+0009..U+000D,
    U+001C..U+0020, U+0085, U+00A0. *)
Definition isspace (c : ascii) : bool :=
  let n := code c in
  ((9 <=? n) && (n <=? 13) || (28 <=? n) && (n <=? 32)
   || (n =? 133) || (n =? 160))%N.

(** A decimal digit (class [\d] of [re]; the digits of [int] and [float]). *)
Definition isdecimal (c : ascii) : bool :=
  let n := code c in ((48 <=? n) && (n <=? 57))%N.

(** [str.isdigit] on one character: the decimal digits and the three
    superscript digits of Latin-1 (U+00B2, U+00B3, U+00B9). *)
Definition isdigit (c : ascii) : bool :=
  let n := code c in
  (isdecimal c || (n =? 178) || (n =? 179) || (n =? 185))%N.

Definition digit_value (c : ascii) : N := (code c - 48)%N.

Definition eqb (a b : ascii) : bool := Ascii.eqb a b.

(** ASCII lower-casing, for the case-insensitive words of [float]. *)
Definition lower (c : ascii) : ascii :=
  let n := code c in
  if ((65 <=? n) && (n <=? 90))%N then ascii_of_N (n + 32) else c.

Definition newline : ascii := ascii_of_N 10.

(** [str.isalnum] on one character: the letters, the digits and the
    numeric characters of Latin-1. *)
Definition isalnum (c : ascii) : bool :=
  let n := code c in
  ((48 <=? n) && (n <=? 57) || (65 <=? n) && (n <=? 90)
   || (97 <=? n) && (n <=? 122) || (n =? 170) || (178 <=? n) && (n <=? 179)
   || (n =? 181) || (185 <=? n) && (n <=? 186)
   || (188 <=? n) && (n <=? 190) || (192 <=? n) && (n <=? 214)
   || (216 <=? n) && (n <=? 246) || (248 <=? n) && (n <=? 255))%N.

End Char.

(* ===================================================================== *)
(** ** String operations of the Python runtime *)
(* ===================================================================== *)

Module PyStr.

(** [s.lstrip()] *)
Fixpoint lstrip (s : str) : str :=
  match s with
  | c :: s' => if Char.isspace c then lstrip s' else s
  | [] => []
  end.

(** [s.rstrip()] *)
Fixpoint rstrip (s : str) : str :=
  match s with
  | [] => []
  | c :: s' =>
      match rstrip s' with
      | [] => if Char.isspace c then [] else [c]
      | r => c :: r
      end
  end.

(** [s.strip()] *)
Definition strip (s : str) : str := lstrip (rstrip s).

(** [s.split(sep)] for a one-character separator: never empty. *)
Fixpoint split_char (sep : ascii) (s : str) : list str :=
  match s with
  | [] => [[]]
  | c :: s' =>
      if Char.eqb c sep then [] :: split_char sep s'
      else match split_char sep s' with
           | l :: ls => (c :: l) :: ls
           | [] => [[c]]
           end
  end.

(** [s.split()]: the maximal runs of non-whitespace characters. *)
Fixpoint split (s : str) : list str :=
  match s with
  | [] => []
  | c :: s' =>
      if Char.isspace c then split s'
      else match s' with
           | [] => [[c]]
           | c' :: _ =>
               if Char.isspace c' then [c] :: split s'
               else match split s' with
                    | w :: ws => (c :: w) :: ws
                    | [] => [[c]]
                    end
           end
  end.

(** [s.isdigit()]: non-empty and made of digits. *)
Definition isdigit (s : str) : bool :=
  match s with
  | [] => false
  | _ => forallb Char.isdigit s
  end.

Fixpoint starts_with (p s : str) : bool :=
  match p, s with
  | [], _ => true
  | a :: p', b :: s' => Char.eqb a b && starts_with p' s'
  | _ :: _, [] => false
  end.

(** [a == b] *)
Fixpoint eqb (a b : str) : bool :=
  match a, b with
  | [], [] => true
  | x :: a', y :: b' => Char.eqb x y && eqb a' b'
  | _, _ => false
  end.

(** [needle in hay] *)
Fixpoint contains (needle hay : str) : bool :=
  starts_with needle hay ||
  match hay with
  | [] => false
  | _ :: hay' => contains needle hay'
  end.

(** [f.readlines()] on the decoded text of a file: every line keeps its
    terminating newline; a last line without one is kept as it is. *)
Fixpoint readlines (s : str) : list str :=
  match s with
  | [] => []
  | c :: s' =>
      if Char.eqb c Char.newline then [c] :: readlines s'
      else match readlines s' with
           | l :: ls => (c :: l) :: ls
           | [] => [[c]]
           end
  end.

(** [s.rjust(width)], which is also the format [f"{s:>width}"]: spaces on
    the left up to [width] characters. *)
Definition rjust (width : nat) (s : str) : str :=
  repeat " "%char (width - length s) ++ s.

End PyStr.

(* ===================================================================== *)
(** ** Sequences: indexing and slicing *)
(* ===================================================================== *)

Module PySeq.

(** [l[i]] with Python's negative indices; [None] is [IndexError]. *)
Definition index {A} (l : list A) (i : Z) : option A :=
  let n := Z.of_nat (length l) in
  if (0 <=? i) && (i <? n) then nth_error l (Z.to_nat i)
  else if (- n <=? i) && (i <? 0) then nth_error l (Z.to_nat (n + i))
  else None.

(** The bounds of a slice are clamped, never an error. *)
Definition clamp (n i : Z) : nat :=
  Z.to_nat (Z.max 0 (Z.min n (if i <? 0 then n + i else i))).

(** [l[i:]] *)
Definition slice_from {A} (l : list A) (i : Z) : list A :=
  skipn (clamp (Z.of_nat (length l)) i) l.

(** [l[:j]] *)
Definition slice_to {A} (l : list A) (j : Z) : list A :=
  firstn (clamp (Z.of_nat (length l)) j) l.

(** [l[i:j]] *)
Definition slice {A} (l : list A) (i j : Z) : list A :=
  let n := Z.of_nat (length l) in
  firstn (clamp n j - clamp n i) (skipn (clamp n i) l).

End PySeq.

(* ===================================================================== *)
(** ** Number syntax: [int(s)] and [float(s)] *)
(* ===================================================================== *)

(** What a float literal denotes before it is rounded to binary64:
    [mantissa * 10 ^ exp10] with a sign, an infinity or a NaN. *)
Inductive float_literal : Type :=
  | LitDec (neg : bool) (mantissa : N) (exp10 : Z)
  | LitInf (neg : bool)
  | LitNan (neg : bool).

Module PyNum.

Definition push_digit (acc : N) (c : ascii) : N :=
  (10 * acc + Char.digit_value c)%N.

(** The rest of a [digitpart] once one digit was read: digits, each
    optionally preceded by one underscore.  Returns the value, the number
    of digits read and the unread text. *)
Fixpoint digits_tail (s : str) (acc : N) (cnt : nat) : N * nat * str :=
  match s with
  | c :: s' =>
      if Char.isdecimal c then digits_tail s' (push_digit acc c) (S cnt)
      else if Char.eqb c "_" then
        match s' with
        | c2 :: s'' =>
            if Char.isdecimal c2
            then digits_tail s'' (push_digit acc c2) (S cnt)
            else (acc, cnt, s)
        | [] => (acc, cnt, s)
        end
      else (acc, cnt, s)
  | [] => (acc, cnt, [])
  end.

(** [digitpart ::= digit (["_"] digit)*], continuing the value [acc]. *)
Definition digitpart (s : str) (acc : N) : option (N * nat * str) :=
  match s with
  | c :: s' =>
      if Char.isdecimal c then Some (digits_tail s' (push_digit acc c) 1%nat)
      else None
  | [] => None
  end.

(** An optional sign: [true] for a minus. *)
Definition sign (s : str) : bool * str :=
  match s with
  | c :: s' =>
      if Char.eqb c "-" then (true, s')
      else if Char.eqb c "+" then (false, s')
      else (false, s)
  | [] => (false, [])
  end.

(** [sys.get_int_max_str_digits()]: the largest number of decimal digits
    that CPython converts between [str] and [int]; 4300 unless the
    interpreter is configured otherwise. *)
Definition max_str_digits : Z := 4300.

(** [int(s)] in base 10; [None] is [ValueError].  The digits are counted
    without the sign, the surrounding whitespace and the underscores,
    leading zeros included; more than [max_str_digits] of them is a
    [ValueError]. *)
Definition int (s : str) : option Z :=
  let '(neg, s1) := sign (PyStr.strip s) in
  match digitpart s1 0%N with
  | Some (n, cnt, []) =>
      if Z.of_nat cnt <=? max_str_digits
      then Some (if neg then - Z.of_N n else Z.of_N n)
      else None
  | _ => None
  end.

(** [exponent ::= ("e" | "E") [sign] digitpart]; no exponent is 0. *)
Definition exponent (s : str) : option (Z * str) :=
  match s with
  | [] => Some (0, [])
  | c :: s' =>
      if Char.eqb (Char.lower c) "e" then
        let '(neg, s1) := sign s' in
        match digitpart s1 0%N with
        | Some (n, _, rest) =>
            Some (if neg then - Z.of_N n else Z.of_N n, rest)
        | None => None
        end
      else Some (0, s)
  end.

(** [number ::= [digitpart] "." digitpart | digitpart ["."]]: the
    mantissa, the number of fraction digits and the unread text. *)
Definition number (s : str) : option (N * nat * str) :=
  let '(ip, icnt, s1) :=
    match digitpart s 0%N with
    | Some r => r
    | None => (0%N, 0%nat, s)
    end in
  match s1 with
  | c :: s2 =>
      if Char.eqb c "." then
        match digitpart s2 ip with
        | Some (m, fcnt, s3) => Some (m, fcnt, s3)
        | None => if Nat.eqb icnt 0 then None else Some (ip, 0%nat, s2)
        end
      else if Nat.eqb icnt 0 then None else Some (ip, 0%nat, s1)
  | [] => if Nat.eqb icnt 0 then None else Some (ip, 0%nat, [])
  end.

(** The literal read by [float(s)]; [None] is [ValueError]. *)
Definition float_syntax (s : str) : option float_literal :=
  let '(neg, s1) := sign (PyStr.strip s) in
  let low := map Char.lower s1 in
  if PyStr.eqb low (lit "inf") then Some (LitInf neg)
  else if PyStr.eqb low (lit "infinity") then Some (LitInf neg)
  else if PyStr.eqb low (lit "nan") then Some (LitNan neg)
  else
    match number s1 with
    | Some (m, fcnt, s2) =>
        match exponent s2 with
        | Some (e, []) => Some (LitDec neg m (e - Z.of_nat fcnt))
        | _ => None
        end
    | None => None
    end.

(** The decimal digits of a natural number. *)
Definition decimal_digits (n : N) : str :=
  list_ascii_of_string (NilZero.string_of_uint (N.to_uint n)).

(** [str(n)] and [f"{n}"] for an integer: its decimal digits, after a
    minus sign when it is negative; [None] is the [ValueError] raised
    when there are more than [max_str_digits] digits. *)
Definition str_of_int (n : Z) : option str :=
  let digits := decimal_digits (Z.abs_N n) in
  if Z.of_nat (length digits) <=? max_str_digits
  then Some (if n <? 0 then "-"%char :: digits else digits)
  else None.

End PyNum.

(* ===================================================================== *)
(** ** The fragment of [re] used by the patterns of the file *)
(* ===================================================================== *)

(** The patterns of [gaussian_v1.py] are built from literal characters,
    escapes, [.], the classes [\s], [\S], [\d], bracketed sets, the greedy
    [+], the lazy [*?] and capturing groups that are neither nested nor
    quantified.  [compile] reads exactly this fragment from the pattern
    text; [search] is the backtracking matcher of [re.search], which
    returns the captured groups of the leftmost match, the alternatives of
    each quantifier being tried in [re]'s priority order. *)

Module Re.

Inductive set_item : Type :=
  | SDigit                 (* \d *)
  | SSpace                 (* \s *)
  | SNonSpace              (* \S *)
  | SChar (c : ascii).

Inductive atom : Type :=
  | Chr (c : ascii)
  | Any                    (* . : every character but the newline *)
  | Set_ (items : list set_item).

Inductive quant : Type :=
  | Once
  | PlusGreedy             (* + *)
  | StarLazy.              (* *? *)

Inductive item : Type :=
  | Atom (a : atom) (q : quant)
  | Open                   (* ( *)
  | Close.                 (* ) *)

Definition in_item (i : set_item) (c : ascii) : bool :=
  match i with
  | SDigit => Char.isdecimal c
  | SSpace => Char.isspace c
  | SNonSpace => negb (Char.isspace c)
  | SChar x => Char.eqb x c
  end.

Definition accepts (a : atom) (c : ascii) : bool :=
  match a with
  | Chr x => Char.eqb x c
  | Any => negb (Char.eqb c Char.newline)
  | Set_ items => existsb (fun i => in_item i c) items
  end.

(** *** Reading a pattern *)

(** The escapes [\d], [\s], [\S] and the escape of a punctuation
    character, which stands for that character; the other escapes of a
    letter or of a digit are outside the fragment. *)
Definition escape (c : ascii) : option set_item :=
  let n := Char.code c in
  if Char.eqb c "d" then Some SDigit
  else if Char.eqb c "s" then Some SSpace
  else if Char.eqb c "S" then Some SNonSpace
  else if ((48 <=? n) && (n <=? 57) || (65 <=? n) && (n <=? 90)
           || (97 <=? n) && (n <=? 122))%N then None
  else Some (SChar c).

(** The body of a bracketed set, up to the closing bracket.  A negated
    set and a range of characters are outside the fragment. *)
Fixpoint set_body (s : str) (acc : list set_item)
  : option (list set_item * str) :=
  match s with
  | [] => None
  | c :: s' =>
      if Char.eqb c "]" then Some (acc, s')
      else if Char.eqb c "\" then
        match s' with
        | e :: s'' =>
            match escape e with
            | Some i => set_body s'' (acc ++ [i])
            | None => None
            end
        | [] => None
        end
      else if Char.eqb c "^" && Nat.eqb (length acc) 0 then None
      else if Char.eqb c "-" && negb (PyStr.starts_with (lit "]") s')
              && negb (Nat.eqb (length acc) 0) then None
      else set_body s' (acc ++ [SChar c])
  end.

Definition is_special (c : ascii) : bool :=
  existsb (Char.eqb c) (lit "*+?{}|^$").

(** One atom of the pattern and the unread text. *)
Definition read_atom (s : str) : option (atom * str) :=
  match s with
  | [] => None
  | c :: s' =>
      if Char.eqb c "\" then
        match s' with
        | e :: s'' =>
            match escape e with
            | Some (SChar x) => Some (Chr x, s'')
            | Some i => Some (Set_ [i], s'')
            | None => None
            end
        | [] => None
        end
      else if Char.eqb c "." then Some (Any, s')
      else if Char.eqb c "[" then
        match set_body s' [] with
        | Some (items, rest) => Some (Set_ items, rest)
        | None => None
        end
      else if is_special c then None
      else Some (Chr c, s')
  end.

(** The quantifier that follows an atom, if any. *)
Definition read_quant (s : str) : option (quant * str) :=
  match s with
  | c :: s' =>
      if Char.eqb c "+" then
        match s' with
        | c2 :: _ => if is_special c2 then None else Some (PlusGreedy, s')
        | [] => Some (PlusGreedy, s')
        end
      else if Char.eqb c "*" then
        match s' with
        | c2 :: s'' =>
            if Char.eqb c2 "?" then
              match s'' with
              | c3 :: _ => if is_special c3 then None else Some (StarLazy, s'')
              | [] => Some (StarLazy, s'')
              end
            else None
        | [] => None
        end
      else if is_special c then None
      else Some (Once, s)
  | [] => Some (Once, [])
  end.

(** [None] is a pattern outside the fragment.  [depth] counts the groups
    that are open; the fuel is the length of the pattern. *)
Fixpoint compile_from (fuel : nat) (s : str) (depth : nat)
  : option (list item) :=
  match fuel with
  | O => match s with [] => if Nat.eqb depth 0 then Some [] else None
                 | _ => None end
  | S fuel' =>
      match s with
      | [] => if Nat.eqb depth 0 then Some [] else None
      | c :: s' =>
          if Char.eqb c "(" then
            if Nat.eqb depth 0
            then option_map (cons Open) (compile_from fuel' s' 1%nat)
            else None
          else if Char.eqb c ")" then
            if Nat.eqb depth 1
            then match s' with
                 | c2 :: _ =>
                     if is_special c2 then None
                     else option_map (cons Close) (compile_from fuel' s' 0%nat)
                 | [] => Some [Close]
                 end
            else None
          else
            match read_atom s with
            | Some (a, s1) =>
                match read_quant s1 with
                | Some (q, s2) =>
                    option_map (cons (Atom a q)) (compile_from fuel' s2 depth)
                | None => None
                end
            | None => None
            end
      end
  end.

Definition compile (pattern : string) : option (list item) :=
  compile_from (String.length pattern) (lit pattern) 0%nat.

(** *** Matching *)

Section Matcher.
Context {A : Type}.

(** Greedy repetition of [a] (zero or more), the longest first; the
    continuation [k] matches the rest of the pattern on the unread text. *)
Fixpoint greedy (a : atom) (k : str -> option A) (s : str) : option A :=
  match s with
  | c :: s' =>
      if accepts a c then
        match greedy a k s' with
        | Some r => Some r
        | None => k s
        end
      else k s
  | [] => k []
  end.

(** Lazy repetition of [a] (zero or more), the shortest first. *)
Fixpoint lazy (a : atom) (k : str -> option A) (s : str) : option A :=
  match k s with
  | Some r => Some r
  | None =>
      match s with
      | c :: s' => if accepts a c then lazy a k s' else None
      | [] => None
      end
  end.

Definition one (a : atom) (k : str -> option A) (s : str) : option A :=
  match s with
  | c :: s' => if accepts a c then k s' else None
  | [] => None
  end.

Definition quantified (a : atom) (q : quant) (k : str -> option A)
  : str -> option A :=
  match q with
  | Once => one a k
  | PlusGreedy => one a (greedy a k)
  | StarLazy => lazy a k
  end.
End Matcher.

(** The text between the start of a group and the current position. *)
Definition consumed (start cur : str) : str :=
  firstn (length start - length cur) start.

(** A match of [p] at the head of [s]: the captured groups, in order.
    [opened] is the text at the last [Open]; [caps] the groups closed so
    far. *)
Fixpoint match_here (p : list item) (opened : str) (caps : list str)
  (s : str) {struct p} : option (list str) :=
  match p with
  | [] => Some caps
  | Atom a q :: p' => quantified a q (match_here p' opened caps) s
  | Open :: p' => match_here p' s caps s
  | Close :: p' => match_here p' opened (caps ++ [consumed opened s]) s
  end.

(** The leftmost match. *)
Fixpoint search_items (p : list item) (s : str) : option (list str) :=
  match match_here p [] [] s with
  | Some caps => Some caps
  | None =>
      match s with
      | _ :: s' => search_items p s'
      | [] => None
      end
  end.

(** [re.search(pattern, text)]: [None] when there is no match, else the
    groups 1, 2, ... of the match. *)
Definition search (pattern : string) (text : str) : option (list str) :=
  match compile pattern with
  | Some p => search_items p text
  | None => None
  end.

(** [m.group(i)] for [i >= 1]. *)
Definition group (m : list str) (i : nat) : option str :=
  nth_error m (i - 1).

End Re.

(* ===================================================================== *)
(** ** Exceptions *)
(* ===================================================================== *)

Inductive exn : Type :=
  | ValueError | IndexError | KeyError | TypeError | OSError.

(** The outcome of running a block of Python code. *)
Inductive outcome (A : Type) : Type :=
  | Return (a : A)
  | Raise (e : exn).
Arguments Return {A} a.
Arguments Raise {A} e.

#[global] Instance outcome_ret : MRet outcome := fun _ a => Return a.
#[global] Instance outcome_bind : MBind outcome := fun _ _ f m =>
  match m with
  | Return a => f a
  | Raise e => Raise e
  end.

(** An [option] read as an outcome, [None] raising [e]. *)
Definition orelse {A} (e : exn) (o : option A) : outcome A :=
  match o with
  | Some a => Return a
  | None => Raise e
  end.

Definition returns {A} (m : outcome A) : bool :=
  match m with Return _ => true | Raise _ => false end.

(** A [for] loop whose body may raise. *)
Fixpoint for_each {A S} (body : S -> A -> outcome S) (l : list A) (s : S)
  : outcome S :=
  match l with
  | [] => Return s
  | a :: l' => s' ← body s a; for_each body l' s'
  end.

(** [l[i]], raising [IndexError]. *)
Definition item_at {A} (l : list A) (i : Z) : outcome A :=
  orelse IndexError (PySeq.index l i).

(** [int(s)], raising [ValueError]. *)
Definition int (s : str) : outcome Z := orelse ValueError (PyNum.int s).

(** [re.search(pattern, text)] seen as a truth value. *)
Definition matches (pattern : string) (text : str) : bool :=
  match Re.search pattern text with Some _ => true | None => false end.

(** [m.group(i)], raising [IndexError] when the pattern has no group [i]. *)
Definition group (m : list str) (i : nat) : outcome str :=
  orelse IndexError (Re.group m i).

(* ===================================================================== *)
(** ** Sample inputs *)
(* ===================================================================== *)

(** Texts on which the parsers are run further down. *)

Module Examples.

Definition nl : string := String Char.newline EmptyString.

(** The listing of the specification. *)
Definition listing : str :=
  lit ("2" ++ nl ++ "comment" ++ nl ++ "C 0.0 0.0 0.0" ++ nl
       ++ "O 0.0 0.0 1.2" ++ nl).

Definition zero : float_literal := LitDec false 0 (-1).

(** A log with two geometry blocks, the second one after convergence. *)
Definition log : str :=
  lit (" Standard orientation:" ++ nl ++
       " ---------------------------------------------------------" ++ nl ++
       " Center     Atomic     Atomic       Coordinates (Angstroms)" ++ nl ++
       " Number     Number      Type          X         Y         Z" ++ nl ++
       " ---------------------------------------------------------" ++ nl ++
       "    1          6         0        0.000000  0.000000  0.100000" ++ nl ++
       " ---------------------------------------------------------" ++ nl ++
       " Optimization completed." ++ nl ++
       " Standard orientation:" ++ nl ++
       " ---------------------------------------------------------" ++ nl ++
       " Center     Atomic     Atomic       Coordinates (Angstroms)" ++ nl ++
       " Number     Number      Type          X         Y         Z" ++ nl ++
       " ---------------------------------------------------------" ++ nl ++
       "    1          6         0        0.000000  0.000000  0.000000" ++ nl ++
       "    2          8         0        0.000000  0.000000  1.200000" ++ nl ++
       " ---------------------------------------------------------" ++ nl ++
       " Normal termination of Gaussian 16").

(** The same log, its second record having a symbol for atomic number. *)
Definition bad_log : str :=
  lit (" Optimization completed." ++ nl ++
       " Standard orientation:" ++ nl ++
       " -----" ++ nl ++ " Center" ++ nl ++ " Number" ++ nl ++ " -----" ++ nl ++
       "    1          6         0        0.000000  0.000000  0.000000" ++ nl ++
       "    2          O         0        0.000000  0.000000  1.200000" ++ nl ++
       " ---------------------------------------------------------" ++ nl ++
       " Normal termination of Gaussian 16").

(** A log whose only record has three fields. *)
Definition short_log : str :=
  lit (" Optimization completed." ++ nl ++
       " Standard orientation:" ++ nl ++
       " -----" ++ nl ++ " Center" ++ nl ++ " Number" ++ nl ++ " -----" ++ nl ++
       "1 6 0.5" ++ nl ++
       " ---------------------------------------------------------" ++ nl ++
       " Normal termination of Gaussian 16").

(** A directory in which every name holds the text [content]. *)
Definition only (content : str) : str -> option str := fun _ => Some content.

(** A summary with ten electrons and seven orbital energies. *)
Definition fchk : str :=
  lit ("Number of electrons                        I               10" ++ nl ++
       "Total Energy                               R     -7.6E+01" ++ nl ++
       "Alpha Orbital Energies                     R   N=           7" ++ nl ++
       " -2.0E+01 -1.3E+00 -7.0E-01 -5.6E-01 -5.0E-01" ++ nl ++
       "  2.0E-01  3.0E-01" ++ nl ++
       "Total SCF Density                          R   N=          28" ++ nl).

(** A report with a volume, a density, the minimal value of the ESP
    alone, one skewness and the global minimum. *)
Definition report : str :=
  lit (" Volume:   1234.5 Bohr^3  (  182.9 Angstrom^3)" ++ nl ++
       " Estimated density according to mass and volume (M/V):    1.2345 g/cm^3"
       ++ nl ++
       " Minimal value:  -1.5 kcal/mol" ++ nl ++
       " Overall skewness: 0.5" ++ nl ++
       " Global surface minimum: -0.027510 a.u. at  -0.225417   0.366873  -1.831106 Ang").

(** A six-decimal formatting for the floats of the listing: 1.2 and the
    zero that stands for every other float. *)
Definition six_decimals (x : float_literal) : str :=
  match x with
  | LitDec false m e =>
      if ((m =? 12)%N && (e =? -1))%bool then lit "1.200000"
      else lit "0.000000"
  | _ => lit "0.000000"
  end.

(** A log without a header after the marker of convergence. *)
Definition bare_log : str :=
  lit (" Optimization completed." ++ nl ++
       " Rotational constants" ++ nl ++ " one" ++ nl ++ " two" ++ nl ++
       " three" ++ nl ++
       "    1          6         0        0.000000  0.000000  0.000000" ++ nl ++
       " ---------------------------------------------------------" ++ nl ++
       " Normal termination of Gaussian 16").

(** A summary without the electron count. *)
Definition fchk_no_count : str :=
  lit ("Total Energy                               R     -7.6E+01" ++ nl ++
       "Alpha Orbital Energies                     R   N=           2" ++ nl ++
       " -2.0E+01  2.0E-01" ++ nl).

(** A summary in the order of a checkpoint file: the total energy comes
    after the orbital energies. *)
Definition fchk_energy_last : str :=
  lit ("Number of electrons                        I               2" ++ nl ++
       "Alpha Orbital Energies                     R   N=           2" ++ nl ++
       " -5.0E-01  2.0E-01" ++ nl ++
       "Total Energy                               R     -1.1E+00" ++ nl).

(** A summary with no electron and two orbital energies. *)
Definition fchk_no_electrons : str :=
  lit ("Number of electrons                        I               0" ++ nl ++
       "Alpha Orbital Energies                     R   N=           2" ++ nl ++
       " -5.0E-01  2.0E-01" ++ nl).

(** A summary with one electron and two orbital energies. *)
Definition fchk_one_electron : str :=
  lit ("Number of electrons                        I               1" ++ nl ++
       "Alpha Orbital Energies                     R   N=           2" ++ nl ++
       " -5.0E-01  2.0E-01" ++ nl).

(** A summary that declares no orbital energy. *)
Definition fchk_no_energies : str :=
  lit ("Number of electrons                        I               10" ++ nl ++
       "Alpha Orbital Energies                     R   N=           0" ++ nl).

(** A report whose skewness is a lone minus sign. *)
Definition bad_report : str := lit " Overall skewness: -".

End Examples.

(* ===================================================================== *)
(** ** The parsers *)
(* ===================================================================== *)

#[local] Set Warnings "-register-all,-clear-no-such-hyp".

Section Parsers.

(** The floats of Python and the rounding of a decimal literal. *)
Variable pyfloat : Type.
Variable float_of_literal : float_literal -> pyfloat.

(** [float(s)], raising [ValueError]. *)
Definition float (s : str) : outcome pyfloat :=
  orelse ValueError (option_map float_of_literal (PyNum.float_syntax s)).

(** [[float(x) for x in parts]] and [list(map(float, parts))]. *)
Fixpoint floats (parts : list str) : outcome (list pyfloat) :=
  match parts with
  | [] => Return []
  | p :: ps => x ← float p; xs ← floats ps; Return (x :: xs)
  end.

(** The values the parsers build: numbers, lists and dictionaries with
    string keys. *)
Inductive pyval : Type :=
  | PNone
  | PInt (n : Z)
  | PFloat (x : pyfloat)
  | PList (l : list pyval)
  | PDict (d : gmap string pyval).

(* --------------------------------------------------------------------- *)
(** *** [parse_xyz_content] *)
(* --------------------------------------------------------------------- *)

(** An element of the result: [(atom_symbol, coords)]. *)
Definition xyz_atom : Type := str * list pyfloat.

(** The body of the loop over the lines: the atoms after the line. *)
Definition xyz_line (atoms : list xyz_atom) (line : str)
  : outcome (list xyz_atom) :=
  match PyStr.strip line with
  | [] => Return atoms                           (* continue *)
  | _ =>
      let parts := PyStr.split line in
      if (4 <=? length parts)%nat then
        atom_symbol ← item_at parts 0;
        match floats (PySeq.slice parts 1 4) with
        | Return coords => Return (atoms ++ [(atom_symbol, coords)])
        | Raise ValueError => Return atoms       (* continue *)
        | Raise e => Raise e
        end
      else Return atoms
  end.

Definition parse_xyz_content (content : str) : outcome (list xyz_atom) :=
  let lines := PyStr.split_char Char.newline (PyStr.strip content) in
  start_index ←
    (if (0 <? length lines)%nat then
       first ← item_at lines 0;
       Return (if PyStr.isdigit first then 2 else 0)
     else Return 0);
  for_each xyz_line (PySeq.slice_from lines start_index) [].

(* --------------------------------------------------------------------- *)
(** *** [extract_optimized_structure] *)
(* --------------------------------------------------------------------- *)

(** The table of the source, from atomic number to element symbol. *)
Definition atomic_num_to_symbol : gmap Z string :=
  list_to_map
    [(1, "H"); (2, "He"); (3, "Li"); (4, "Be"); (5, "B"); (6, "C");
     (7, "N"); (8, "O"); (9, "F"); (10, "Ne"); (11, "Na"); (12, "Mg");
     (13, "Al"); (14, "Si"); (15, "P"); (16, "S"); (17, "Cl"); (18, "Ar");
     (19, "K"); (20, "Ca")]%string.

(** [for i, line in enumerate(lines): if re.search(pattern, line): ...
    break]: the index at which the loop breaks, counted from [i]. *)
Fixpoint first_match (pattern : string) (lines : list str) (i : nat)
  : option nat :=
  match lines with
  | [] => None
  | line :: rest =>
      if matches pattern line then Some i
      else first_match pattern rest (S i)
  end.

(** The two loops that set [iline]. *)
Definition locate_block (log_lines : list str) : nat :=
  let iline := 0%nat in
  let iline :=
    match first_match "Optimization completed." log_lines 0 with
    | Some i => i
    | None => iline
    end in
  match first_match "Standard orientation"
          (PySeq.slice_from log_lines (Z.of_nat iline)) 0 with
  | Some i => (iline + i)%nat
  | None => iline
  end.

(** One record of the block: [[symbol, x, y, z]]. *)
Definition read_record (line : str) : outcome pyval :=
  let tmp := PyStr.split line in
  f ← item_at tmp 1; symbol ← int f;
  f ← item_at tmp (-3); x ← float f;
  f ← item_at tmp (-2); y ← float f;
  f ← item_at tmp (-1); z ← float f;
  Return (PList [PInt symbol; PFloat x; PFloat y; PFloat z]).

(** The loop over [log_lines[iline+5:]]. *)
Fixpoint read_block (lines : list str) (atoms : list pyval)
  : outcome (list pyval) :=
  match lines with
  | [] => Return atoms
  | line :: rest =>
      if matches "-------" line then Return atoms        (* break *)
      else a ← read_record line; read_block rest (atoms ++ [a])
  end.

(** What follows the reading of the log file, inside the [try]. *)
Definition extract_from_log (log_content : str)
  : outcome (option (list pyval)) :=
  if negb (PyStr.contains (lit "Normal termination") log_content) then
    Return None
  else if negb (PyStr.contains (lit "Optimization completed.") log_content)
  then Return None
  else
    let log_lines := PyStr.split_char Char.newline log_content in
    let iline := locate_block log_lines in
    atoms ← read_block (PySeq.slice_from log_lines (Z.of_nat iline + 5)) [];
    Return (match atoms with [] => None | _ => Some atoms end).

(** The name of the log file that is opened. *)
Definition log_path (filename path : str) : outcome str :=
  let suffix := PySeq.slice_from filename (-4) in
  let filename :=
    if negb (PyStr.eqb suffix (lit ".com") || PyStr.eqb suffix (lit ".gjf"))
    then filename ++ lit ".com" else filename in
  let log_name := PySeq.slice_to filename (-4) ++ lit ".log" in
  last ← item_at path (-1);
  let path := if negb (Char.eqb last "/") then path ++ lit "/" else path in
  Return (path ++ log_name).

(** [open_read name] is the text that [open(name, 'r').read()] returns,
    [None] when the file cannot be opened or decoded.  The result [None]
    is Python's [None]; the [except Exception] clause turns every
    exception into it. *)
Definition extract_optimized_structure (open_read : str -> option str)
  (filename path : str) : option (list pyval) :=
  let body :=
    name ← log_path filename path;
    log_content ← orelse OSError (open_read name);
    extract_from_log log_content in
  match body with
  | Return r => r
  | Raise _ => None
  end.

(* --------------------------------------------------------------------- *)
(** *** [extract_fchk_data] *)
(* --------------------------------------------------------------------- *)

(** [line.split()[-1]] *)
Definition last_token (line : str) : outcome str :=
  item_at (PyStr.split line) (-1).

(** The loop over [enumerate(lines)], from index [i]: the dictionary
    [data] and the value of [iline] when the loop ends. *)
Fixpoint scan_header (lines : list str) (i : nat)
  (data : gmap string pyval) (iline : nat)
  : outcome (gmap string pyval * nat) :=
  match lines with
  | [] => Return (data, iline)
  | line :: rest =>
      data ←
        (if PyStr.contains (lit "Total Energy") line then
           t ← last_token line; e ← float t;
           Return (<["Energy" := PFloat e]> data)
         else Return data);
      if PyStr.contains (lit "Number of electrons") line then
        t ← last_token line; n ← int t;
        scan_header rest (S i) (<["Ne" := PInt n]> data) iline
      else if PyStr.contains (lit "Alpha Orbital Energies") line then
        Return (data, i)                                   (* break *)
      else scan_header rest (S i) data iline
  end.

(** The number of lines of orbital energies for [nbasis] values. *)
Definition nline (nbasis : Z) : Z :=
  if nbasis mod 5 =? 0 then nbasis / 5 else nbasis / 5 + 1.

(** [range(n)] *)
Definition range (n : Z) : list nat := seq 0 (Z.to_nat n).

(** The loop [for i in range(nline)], over the values [is_] of [i]. *)
Fixpoint read_orbitals (lines : list str) (iline : nat) (is_ : list nat)
  (orb_energies : list pyfloat) : outcome (list pyfloat) :=
  match is_ with
  | [] => Return orb_energies
  | i :: rest =>
      line ← item_at lines (Z.of_nat i + Z.of_nat iline + 1);
      vals ← floats (PyStr.split line);
      read_orbitals lines iline rest (orb_energies ++ vals)
  end.

(** [data["Ne"]//2], the operand being the integer stored by the scan. *)
Definition half_ne (data : gmap string pyval) : outcome Z :=
  match data !! "Ne" with
  | Some (PInt ne) => Return (ne / 2)
  | Some _ => Raise TypeError
  | None => Raise KeyError
  end.

(** [{"Energy": None, "HOMO": None, "LUMO": None}] *)
Definition initial_data : gmap string pyval :=
  <["Energy" := PNone]> (<["HOMO" := PNone]> (<["LUMO" := PNone]> ∅)).

(** The function on the lines of the file. *)
Definition fchk_of_lines (lines : list str) : outcome (gmap string pyval) :=
  let data := initial_data in
  '(data, iline) ← scan_header lines 0 data 0;
  line ← item_at lines (Z.of_nat iline);
  t ← last_token line; nbasis ← int t;
  orb_energies ← read_orbitals lines iline (range (nline nbasis)) [];
  h ← half_ne data; homo ← item_at orb_energies (h - 1);
  let data := <["HOMO" := PFloat homo]> data in
  h ← half_ne data; lumo ← item_at orb_energies h;
  let data := <["LUMO" := PFloat lumo]> data in
  Return data.

(** [open_read_in path name] is the text of the file that [open(name)]
    reads once the working directory is [path]; [None] when that fails.
    No exception is caught here. *)
Definition extract_fchk_data (open_read_in : str -> str -> option str)
  (fchk_name path : str) : outcome (gmap string pyval) :=
  content ← orelse OSError (open_read_in path fchk_name);
  fchk_of_lines (PyStr.readlines content).

(* --------------------------------------------------------------------- *)
(** *** [parse_multiwfn_surface_analysis] *)
(* --------------------------------------------------------------------- *)

Definition vol_pattern : string :=
  "Volume:\s+([\d.]+)\s+Bohr\^3\s+\(\s+([\d.]+)\s+Angstrom\^3\)".
Definition density_pattern : string :=
  "Estimated density.*?([\d.]+)\s+g/cm\^3".
Definition esp_min_pattern : string :=
  "Minimal value:\s+([\d.-]+)\s+kcal/mol".
Definition esp_max_pattern : string :=
  "Maximal value:\s+([\d.-]+)\s+kcal/mol".

Definition area_patterns : list (string * string) :=
  [("total",
    "Overall surface area:\s+(\S+)\s+Bohr\^2\s+\(\s+(\S+)\s+Angstrom\^2\)");
   ("positive",
    "Positive surface area:\s+([\d.]+)\s+Bohr\^2\s+\(\s+([\d.]+)\s+Angstrom\^2\)");
   ("negative",
    "Negative surface area:\s+([\d.]+)\s+Bohr\^2\s+\(\s+([\d.]+)\s+Angstrom\^2\)")
  ]%string.

Definition stats_patterns : list (string * string) :=
  [("overall_avg", "Overall average value:\s+([\d.-]+)\s+a\.u\.");
   ("positive_avg", "Positive average value:\s+([\d.-]+)\s+a\.u\.");
   ("negative_avg", "Negative average value:\s+([\d.-]+)\s+a\.u\.");
   ("total_variance", "Overall variance.*?:\s+([\d.]+)\s+a\.u\.\^2");
   ("positive_variance", "Positive variance:\s+([\d.]+)\s+a\.u\.\^2");
   ("negative_variance", "Negative variance:\s+([\d.]+)\s+a\.u\.\^2");
   ("charge_balance", "Balance of charges \(nu\):\s+([\d.-]+)");
   ("internal_separation",
    "Internal charge separation \(Pi\):\s+([\d.-]+)\s+a\.u\.");
   ("molecular_polarity",
    "Molecular polarity index \(MPI\):\s+([\d.]+)\s+eV")]%string.

Definition polarity_pattern : string :=
  "Nonpolar surface area.*?([\d.]+)\s+Angstrom\^2\s+\(\s+([\d.]+)\s+\%\)\s+"
  ++ "Polar surface area.*?([\d.]+)\s+Angstrom\^2\s+\(\s+([\d.]+)\s+".

Definition skew_patterns : list (string * string) :=
  [("overall", "Overall skewness:\s+([\d.-]+)");
   ("positive", "Positive skewness:\s+([\d.-]+)");
   ("negative", "Negative skewness:\s+([\d.-]+)")]%string.

Definition minima_pattern : string :=
  "Global surface minimum:\s+[\S]+ a.u. at\s+(\S+)\s+(\S+)\s+(\S+) Ang".

(** [float(m.group(i))] *)
Definition float_group (m : list str) (i : nat) : outcome pyfloat :=
  g ← group m i; float g.

(** [results[name][key] = v] *)
Definition set_nested (name key : string) (v : pyval)
  (results : gmap string pyval) : outcome (gmap string pyval) :=
  match results !! name with
  | Some (PDict d) => Return (<[name := PDict (<[key := v]> d)]> results)
  | Some _ => Raise TypeError
  | None => Raise KeyError
  end.

(** The body of the loop of section 3, for one [(key, pattern)]. *)
Definition area_step (log_text : str) (results : gmap string pyval)
  (kp : string * string) : outcome (gmap string pyval) :=
  match Re.search kp.2 log_text with
  | Some m =>
      b ← float_group m 1; a ← float_group m 2;
      set_nested "surface_area" kp.1
        (PDict (<["Angstrom^2" := PFloat a]> (<["Bohr^2" := PFloat b]> ∅)))
        results
  | None => Return results
  end.

(** The body of the loops of sections 4 and 6, which store one float
    under [results[name][key]]. *)
Definition scalar_step (name : string) (log_text : str)
  (results : gmap string pyval) (kp : string * string)
  : outcome (gmap string pyval) :=
  match Re.search kp.2 log_text with
  | Some m => x ← float_group m 1; set_nested name kp.1 (PFloat x) results
  | None => Return results
  end.

Definition initial_results : gmap string pyval :=
  <["volume" := PDict ∅]> (<["density" := PNone]> (
  <["esp_range" := PDict ∅]> (<["surface_area" := PDict ∅]> (
  <["esp_stats" := PDict ∅]> (<["polarity" := PDict ∅]> (
  <["skewness" := PDict ∅]> (<["minima" := PNone]> ∅))))))).

Definition volume_step (log_text : str) (results : gmap string pyval)
  : outcome (gmap string pyval) :=
  match Re.search vol_pattern log_text with
  | Some vol_match =>
      b ← float_group vol_match 1; a ← float_group vol_match 2;
      Return (<["volume" :=
                 PDict (<["Angstrom^3" := PFloat a]>
                          (<["Bohr^3" := PFloat b]> ∅))]> results)
  | None => Return results
  end.

Definition density_step (log_text : str) (results : gmap string pyval)
  : outcome (gmap string pyval) :=
  match Re.search density_pattern log_text with
  | Some density_match =>
      d ← float_group density_match 1;
      Return (<["density" := PFloat d]> results)
  | None => Return results
  end.

Definition esp_range_step (log_text : str) (results : gmap string pyval)
  : outcome (gmap string pyval) :=
  let esp_min := Re.search esp_min_pattern log_text in
  let esp_max := Re.search esp_max_pattern log_text in
  match esp_min, esp_max with
  | Some esp_min, Some esp_max =>
      lo ← float_group esp_min 1; hi ← float_group esp_max 1;
      Return (<["esp_range" :=
                 PDict (<["max_kcal/mol" := PFloat hi]>
                          (<["min_kcal/mol" := PFloat lo]> ∅))]> results)
  | _, _ => Return results
  end.

Definition polarity_step (log_text : str) (results : gmap string pyval)
  : outcome (gmap string pyval) :=
  match Re.search polarity_pattern log_text with
  | Some polarity_match =>
      na ← float_group polarity_match 1; np ← float_group polarity_match 2;
      pa ← float_group polarity_match 3; pp ← float_group polarity_match 4;
      Return (<["polarity" :=
                 PDict (<["polar_percent" := PFloat pp]>
                       (<["polar_area" := PFloat pa]>
                       (<["nonpolar_percent" := PFloat np]>
                       (<["nonpolar_area" := PFloat na]> ∅))))]> results)
  | None => Return results
  end.

Definition minima_step (log_text : str) (results : gmap string pyval)
  : outcome (gmap string pyval) :=
  match Re.search minima_pattern log_text with
  | Some m =>
      x ← float_group m 1; y ← float_group m 2; z ← float_group m 3;
      Return (<["minima" := PList [PFloat x; PFloat y; PFloat z]]> results)
  | None => Return results
  end.

Definition parse_multiwfn_surface_analysis (log_text : str)
  : outcome (gmap string pyval) :=
  let results := initial_results in
  results ← volume_step log_text results;
  results ← density_step log_text results;
  results ← esp_range_step log_text results;
  results ← for_each (area_step log_text) area_patterns results;
  results ← for_each (scalar_step "esp_stats" log_text) stats_patterns results;
  results ← polarity_step log_text results;
  results ← for_each (scalar_step "skewness" log_text) skew_patterns results;
  minima_step log_text results.

(* --------------------------------------------------------------------- *)
(** *** [xyz_to_gaussian_opt] *)
(* --------------------------------------------------------------------- *)

(** [''.join(c if c.isalnum() or c in ' -_' else '_' for c in title)] *)
Definition clean_title (title : str) : str :=
  map (fun c =>
         if Char.isalnum c || PyStr.contains [c] (lit " -_") then c
         else "_"%char)
      title.

(** The body of the loop over the atoms: [input_string] after the line
    of the atom.  [fixed6 x] is [format(x, ".6f")], the fixed-point text
    of a float with six decimals, so that [f"{x:>12.6f}"] is that text
    right-justified to twelve characters.  Unpacking [coords] into
    [x, y, z] raises [ValueError] when it has not three elements. *)
Definition atom_line (fixed6 : pyfloat -> str) (input_string : str)
  (atom : xyz_atom) : outcome str :=
  match atom.2 with
  | [x; y; z] =>
      Return (input_string
              ++ PyStr.rjust 2 atom.1 ++ lit " "
              ++ PyStr.rjust 12 (fixed6 x) ++ lit " "
              ++ PyStr.rjust 12 (fixed6 y) ++ lit " "
              ++ PyStr.rjust 12 (fixed6 z) ++ [Char.newline])
  | _ => Raise ValueError
  end.

(** [f"{n}"] for an integer, raising [ValueError]. *)
Definition format_int (n : Z) : outcome str :=
  orelse ValueError (PyNum.str_of_int n).

(** The text written before the coordinates. *)
Definition opt_preamble (jobname method basis mem : str)
  (nproc charge multiplicity : Z) (title : str) : outcome str :=
  let input_string := [] in
  let input_string :=
    input_string ++ lit "%chk=" ++ PyStr.strip jobname ++ lit ".chk"
    ++ [Char.newline] in
  let input_string :=
    input_string ++ lit "%mem=" ++ mem ++ [Char.newline] in
  nproc_text ← format_int nproc;
  let input_string :=
    input_string ++ lit "%nprocshared=" ++ nproc_text
    ++ [Char.newline; Char.newline] in
  let input_string :=
    input_string ++ lit "# opt " ++ method ++ lit "/" ++ basis
    ++ [Char.newline; Char.newline] in
  let input_string :=
    input_string ++ clean_title title ++ [Char.newline; Char.newline] in
  charge_text ← format_int charge;
  multiplicity_text ← format_int multiplicity;
  Return (input_string ++ charge_text ++ lit " " ++ multiplicity_text
          ++ [Char.newline]).

Definition xyz_to_gaussian_opt (fixed6 : pyfloat -> str)
  (xyz_string jobname method basis mem : str)
  (nproc charge multiplicity : Z) (title : str) : outcome str :=
  atoms ← parse_xyz_content xyz_string;
  match atoms with
  | [] => Raise ValueError
  | _ =>
      input_string ←
        opt_preamble jobname method basis mem nproc charge multiplicity
          title;
      input_string ← for_each (atom_line fixed6) atoms input_string;
      Return (input_string ++ [Char.newline; Char.newline; Char.newline])
  end.

(* ===================================================================== *)
(** ** Vocabulary of the specification *)
(* ===================================================================== *)

(** *** Texts and lines *)

(** A text of whitespace, a text without whitespace, a text without a
    newline. *)
Definition blank (s : str) : Prop := Forall (fun c => Char.isspace c = true) s.
Definition solid (s : str) : Prop := Forall (fun c => Char.isspace c = false) s.
Definition one_line (s : str) : Prop := ~ In Char.newline s.

(** [lines] joined by newlines. *)
Fixpoint join_lines (lines : list str) : str :=
  match lines with
  | [] => []
  | [l] => l
  | l :: ls => l ++ Char.newline :: join_lines ls
  end.

(** [x] put in front of the first line. *)
Definition prepend (x : str) (lines : list str) : list str :=
  match lines with
  | l :: ls => (x ++ l) :: ls
  | [] => [x]
  end.

(** The compiled form of a pattern made of ordinary characters only. *)
Definition literal (p : str) : list Re.item :=
  map (fun c => Re.Atom (Re.Chr c) Re.Once) p.

(** *** The coordinate listing *)

(** The atom that a line of a coordinate listing stands for: the first
    field as the symbol, the three fields after it as the coordinates; no
    atom when there are fewer than four fields or when one of the three
    is not a float. *)
Definition line_atoms (line : str) : list xyz_atom :=
  match PyStr.split line with
  | f0 :: f1 :: f2 :: f3 :: _ =>
      match floats [f1; f2; f3] with
      | Return coords => [(f0, coords)]
      | Raise _ => []
      end
  | _ => []
  end.

(** The last three fields of a line. *)
Definition trailing_three (line : str) : list str :=
  let parts := PyStr.split line in skipn (length parts - 3) parts.

(** The atoms of the lines of [s] after the first [k], when [p] stands in
    front of the first line. *)
Definition atoms_after (k : nat) (p s : str) : list xyz_atom :=
  flat_map line_atoms (skipn k (prepend p (PyStr.split_char Char.newline s))).

(** A well-formed atom record: one line that stands for the atom [a]. *)
Definition atom_record (r : str) (a : xyz_atom) : Prop :=
  one_line r /\ line_atoms r = [a].

(** *** The optimized geometry *)

(** [i] is the first position at or after [from] whose line satisfies
    [P]. *)
Definition first_from (P : str -> bool) (lines : list str) (from i : nat)
  : Prop :=
  (from <= i)%nat /\
  (exists l, nth_error lines i = Some l /\ P l = true) /\
  (forall j l, (from <= j < i)%nat -> nth_error lines j = Some l ->
               P l = false).

(** The lines before the first one that contains a run of dashes. *)
Fixpoint until_dashes (lines : list str) : list str :=
  match lines with
  | [] => []
  | l :: ls =>
      if PyStr.contains (lit "-------") l then [] else l :: until_dashes ls
  end.

(** The record that a line of the block stands for: the second field as
    the atomic number, the last three fields as the coordinates. *)
Definition record_of (line : str) : option pyval :=
  let fields := PyStr.split line in
  let n := length fields in
  if (3 <=? n)%nat then
    f ← nth_error fields 1; number ← PyNum.int f;
    f ← nth_error fields (n - 3); x ← PyNum.float_syntax f;
    f ← nth_error fields (n - 2); y ← PyNum.float_syntax f;
    f ← nth_error fields (n - 1); z ← PyNum.float_syntax f;
    Some (PList [PInt number; PFloat (float_of_literal x);
                 PFloat (float_of_literal y); PFloat (float_of_literal z)])
  else None.

(** *** The surface-analysis report *)

(** [v[k1][k2]...] for a path of keys; [None] when a key is missing. *)
Fixpoint lookup_path (v : pyval) (path : list string) : option pyval :=
  match path with
  | [] => Some v
  | k :: rest =>
      match v with
      | PDict d =>
          match d !! k with
          | Some v' => lookup_path v' rest
          | None => None
          end
      | _ => None
      end
  end.

(** The float found in [v] along a path of keys. *)
Definition float_at (v : pyval) (path : list string) : option pyfloat :=
  match lookup_path v path with
  | Some (PFloat x) => Some x
  | _ => None
  end.

(** The field at [path] follows [pattern]: it holds the float of group
    [i] of the first match of the pattern in the text, and it is missing
    when the pattern does not match. *)
Definition follows (v : pyval) (path : list string) (pattern : string)
  (i : nat) (log_text : str) : Prop :=
  match Re.search pattern log_text with
  | Some m => exists x, float_group m i = Return x /\ float_at v path = Some x
  | None => float_at v path = None
  end.

(** The fields that hold one float, with their pattern and group. *)
Definition scalar_fields : list (list string * string * nat) :=
  [ (["volume"; "Bohr^3"], vol_pattern, 1%nat);
    (["volume"; "Angstrom^3"], vol_pattern, 2%nat);
    (["density"], density_pattern, 1%nat) ]%string
  ++ flat_map (fun kp : string * string =>
                 [ (["surface_area"; kp.1; "Bohr^2"], kp.2, 1%nat);
                   (["surface_area"; kp.1; "Angstrom^2"], kp.2, 2%nat)
                 ]%string) area_patterns
  ++ map (fun kp : string * string =>
            (["esp_stats"; kp.1], kp.2, 1%nat)%string) stats_patterns
  ++ [ (["polarity"; "nonpolar_area"], polarity_pattern, 1%nat);
       (["polarity"; "nonpolar_percent"], polarity_pattern, 2%nat);
       (["polarity"; "polar_area"], polarity_pattern, 3%nat);
       (["polarity"; "polar_percent"], polarity_pattern, 4%nat) ]%string
  ++ map (fun kp : string * string =>
            (["skewness"; kp.1], kp.2, 1%nat)%string) skew_patterns.

(** The value that each section of the function computes for its key. *)
Definition volume_value (log_text : str) : outcome pyval :=
  match Re.search vol_pattern log_text with
  | Some m =>
      b ← float_group m 1; a ← float_group m 2;
      Return (PDict (<["Angstrom^3" := PFloat a]>
                       (<["Bohr^3" := PFloat b]> ∅)))
  | None => Return (PDict ∅)
  end.

Definition density_value (log_text : str) : outcome pyval :=
  match Re.search density_pattern log_text with
  | Some m => d ← float_group m 1; Return (PFloat d)
  | None => Return PNone
  end.

Definition esp_range_value (log_text : str) : outcome pyval :=
  match Re.search esp_min_pattern log_text,
        Re.search esp_max_pattern log_text with
  | Some lo_m, Some hi_m =>
      lo ← float_group lo_m 1; hi ← float_group hi_m 1;
      Return (PDict (<["max_kcal/mol" := PFloat hi]>
                       (<["min_kcal/mol" := PFloat lo]> ∅)))
  | _, _ => Return (PDict ∅)
  end.

Definition polarity_value (log_text : str) : outcome pyval :=
  match Re.search polarity_pattern log_text with
  | Some m =>
      na ← float_group m 1; np ← float_group m 2;
      pa ← float_group m 3; pp ← float_group m 4;
      Return (PDict (<["polar_percent" := PFloat pp]>
                    (<["polar_area" := PFloat pa]>
                    (<["nonpolar_percent" := PFloat np]>
                    (<["nonpolar_area" := PFloat na]> ∅)))))
  | None => Return (PDict ∅)
  end.

Definition minima_value (log_text : str) : outcome pyval :=
  match Re.search minima_pattern log_text with
  | Some m =>
      x ← float_group m 1; y ← float_group m 2; z ← float_group m 3;
      Return (PList [PFloat x; PFloat y; PFloat z])
  | None => Return PNone
  end.

(** One turn of a loop, seen on the inner dictionary. *)
Definition area_entry (log_text : str) (d : gmap string pyval)
  (kp : string * string) : outcome (gmap string pyval) :=
  match Re.search kp.2 log_text with
  | Some m =>
      b ← float_group m 1; a ← float_group m 2;
      Return (<[kp.1 := PDict (<["Angstrom^2" := PFloat a]>
                                 (<["Bohr^2" := PFloat b]> ∅))]> d)
  | None => Return d
  end.

Definition scalar_entry (log_text : str) (d : gmap string pyval)
  (kp : string * string) : outcome (gmap string pyval) :=
  match Re.search kp.2 log_text with
  | Some m => x ← float_group m 1; Return (<[kp.1 := PFloat x]> d)
  | None => Return d
  end.

(** The result, from the values of its eight keys. *)
Definition results_of (volume density esp_range surface_area esp_stats
                       polarity skewness minima : pyval)
  : gmap string pyval :=
  <["minima" := minima]> (<["skewness" := skewness]> (
  <["polarity" := polarity]> (<["esp_stats" := esp_stats]> (
  <["surface_area" := surface_area]> (<["esp_range" := esp_range]> (
  <["density" := density]> (<["volume" := volume]> initial_results))))))).

(** The function as one value per key. *)
Definition surface_values (log_text : str) : outcome (gmap string pyval) :=
  volume ← volume_value log_text;
  density ← density_value log_text;
  esp_range ← esp_range_value log_text;
  surface_area ← for_each (area_entry log_text) area_patterns ∅;
  esp_stats ← for_each (scalar_entry log_text) stats_patterns ∅;
  polarity ← polarity_value log_text;
  skewness ← for_each (scalar_entry log_text) skew_patterns ∅;
  minima ← minima_value log_text;
  Return (results_of volume density esp_range (PDict surface_area)
            (PDict esp_stats) polarity (PDict skewness) minima).

(** The dictionary that the function returns, the empty one when it
    raises. *)
Definition results_or_empty (log_text : str) : gmap string pyval :=
  match parse_multiwfn_surface_analysis log_text with
  | Return results => results
  | Raise _ => ∅
  end.

(** The keys of the result. *)
Definition result_keys : gset string :=
  {[ "volume"; "density"; "esp_range"; "surface_area"; "esp_stats";
     "polarity"; "skewness"; "minima" ]}%string.

(** The number of groups of a compiled pattern, and of a pattern. *)
Fixpoint count_close (p : list Re.item) : nat :=
  match p with
  | [] => 0
  | Re.Close :: p' => S (count_close p')
  | _ :: p' => count_close p'
  end.

Definition group_count (pattern : string) : nat :=
  match Re.compile pattern with
  | Some p => count_close p
  | None => 0
  end.

(** The patterns of the function. *)
Definition all_patterns : list string :=
  [vol_pattern; density_pattern; esp_min_pattern; esp_max_pattern]
  ++ map snd area_patterns ++ map snd stats_patterns
  ++ [polarity_pattern] ++ map snd skew_patterns ++ [minima_pattern].

(** Every group captured by a pattern of the function in the text is
    a float literal. *)
Definition captures_are_floats (log_text : str) : Prop :=
  forall pattern m g,
    In pattern all_patterns -> Re.search pattern log_text = Some m ->
    In g m -> PyNum.float_syntax g <> None.

(** None of the patterns of a loop matches. *)
Definition unmatched (pats : list (string * string)) (log_text : str)
  : Prop :=
  forall kp, In kp pats -> Re.search kp.2 log_text = None.

(** *** The input deck *)

(** An integer with more decimal digits than Python writes. *)
Definition long_int (n : Z) : Prop :=
  PyNum.max_str_digits
  < Z.of_nat (length (PyNum.decimal_digits (Z.abs_N n))).

(** The characters that [clean_title] keeps. *)
Definition title_char (c : ascii) : Prop :=
  Char.isalnum c = true \/ c = " "%char \/ c = "-"%char \/ c = "_"%char.

(** The line written for an atom with three coordinates. *)
Definition coordinate_line (fixed6 : pyfloat -> str) (atom : xyz_atom)
  : str :=
  match atom.2 with
  | [x; y; z] =>
      PyStr.rjust 2 atom.1 ++ lit " "
      ++ PyStr.rjust 12 (fixed6 x) ++ lit " "
      ++ PyStr.rjust 12 (fixed6 y) ++ lit " "
      ++ PyStr.rjust 12 (fixed6 z) ++ [Char.newline]
  | _ => []
  end.

(** The six-decimal texts are read back by [float]: they are not empty,
    hold no whitespace and are float literals. *)
Definition reads_back (fixed6 : pyfloat -> str) : Prop :=
  forall x,
    fixed6 x <> [] /\ solid (fixed6 x) /\
    PyNum.float_syntax (fixed6 x) <> None.

(** An atom as it is read back from its line: the same symbol, the
    floats of the six-decimal texts of its coordinates. *)
Definition reread (fixed6 : pyfloat -> str) (atom : xyz_atom) : xyz_atom :=
  match floats (map fixed6 atom.2) with
  | Return coords => (atom.1, coords)
  | Raise _ => atom
  end.

(** The line of an atom without the padding of its symbol and without
    its newline, and that padding. *)
Definition bare_line (fixed6 : pyfloat -> str) (atom : xyz_atom) : str :=
  match atom.2 with
  | [x; y; z] =>
      atom.1 ++ lit " "
      ++ PyStr.rjust 12 (fixed6 x) ++ lit " "
      ++ PyStr.rjust 12 (fixed6 y) ++ lit " "
      ++ PyStr.rjust 12 (fixed6 z)
  | _ => []
  end.

Definition symbol_padding (atom : xyz_atom) : str :=
  repeat " "%char (2 - length atom.1).

(** A record of the optimized geometry: an atomic number and three
    coordinates. *)
Definition geometry_record (v : pyval) : Prop :=
  exists n x y z, v = PList [PInt n; PFloat x; PFloat y; PFloat z].

(** *** The electronic-structure summary *)

(** [l[i]] with zero-based indexing, as the specification has it: the
    element at position [i] counted from zero; there is none for a
    negative [i] or for one beyond the end. *)
Definition zero_based {A} (l : list A) (i : Z) : option A :=
  if i <? 0 then None else nth_error l (Z.to_nat i).

(** The keys of the summary of a checkpoint file. *)
Definition summary_keys : gset string :=
  {[ "Energy"; "HOMO"; "LUMO"; "Ne" ]}%string.

(** A line at which the scan of the checkpoint file stops: it contains
    the label of the orbital energies and not the one of the electron
    count. *)
Definition label_line (line : str) : bool :=
  PyStr.contains (lit "Alpha Orbital Energies") line &&
  negb (PyStr.contains (lit "Number of electrons") line).

(** The lines up to the first label line, that line included. *)
Fixpoint scanned (lines : list str) : list str :=
  match lines with
  | [] => []
  | l :: ls => if label_line l then [l] else l :: scanned ls
  end.

(** A group captured by a pattern of the function in the text is not a
    float literal. *)
Definition bad_capture (log_text : str) : Prop :=
  exists pattern m g,
    In pattern all_patterns /\ Re.search pattern log_text = Some m /\
    In g m /\ PyNum.float_syntax g = None.

(* ===================================================================== *)
(** ** Properties of the runtime operations *)
(* ===================================================================== *)

Lemma char_eqb_eq a b : Char.eqb a b = true <-> a = b.
Proof. apply Ascii.eqb_eq. Qed.

Lemma char_eqb_refl a : Char.eqb a a = true.
Proof. apply Ascii.eqb_refl. Qed.

Lemma isspace_newline : Char.isspace Char.newline = true.
Proof. reflexivity. Qed.

Lemma rstrip_blank s : blank s -> PyStr.rstrip s = [].
Proof.
  induction 1 as [|c s Hc _ IH]; simpl; [reflexivity|].
  now rewrite IH, Hc.
Qed.

Lemma rstrip_nil_blank s : PyStr.rstrip s = [] -> blank s.
Proof.
  induction s as [|c s IH]; simpl; intros H; [constructor|].
  destruct (PyStr.rstrip s) eqn:E.
  - destruct (Char.isspace c) eqn:Ec; [|discriminate].
    constructor; [exact Ec | now apply IH].
  - discriminate.
Qed.

Lemma rstrip_app_solid x y :
  solid x -> PyStr.rstrip (x ++ y) = x ++ PyStr.rstrip y.
Proof.
  induction 1 as [|c x Hc _ IH]; simpl; [reflexivity|].
  rewrite IH, Hc. now destruct (x ++ PyStr.rstrip y).
Qed.

Lemma rstrip_app_keep x y :
  PyStr.rstrip y <> [] -> PyStr.rstrip (x ++ y) = x ++ PyStr.rstrip y.
Proof.
  intros Hy. induction x as [|c x IH]; simpl; [reflexivity|].
  rewrite IH. destruct (x ++ PyStr.rstrip y) eqn:E; [|reflexivity].
  apply app_eq_nil in E. tauto.
Qed.

Lemma lstrip_blank_app x y : blank x -> PyStr.lstrip (x ++ y) = PyStr.lstrip y.
Proof.
  induction 1 as [|c x Hc _ IH]; simpl; [reflexivity|]. now rewrite Hc.
Qed.

Lemma split_blank s : blank s -> PyStr.split s = [].
Proof.
  induction 1 as [|c s Hc _ IH]; simpl; [reflexivity|]. now rewrite Hc.
Qed.

Lemma split_app_blank p ws : blank ws -> PyStr.split (p ++ ws) = PyStr.split p.
Proof.
  intros Hws. induction p as [|c p IH]; simpl.
  - now apply split_blank.
  - destruct (Char.isspace c); [exact IH|].
    destruct p as [|c' p]; simpl in *.
    + destruct Hws as [|w ws Hw Hws]; [reflexivity|].
      rewrite Hw. f_equal. apply (split_blank (w :: ws)). now constructor.
    + destruct (Char.isspace c'); now rewrite IH.
Qed.

Lemma strip_nil_split s : PyStr.strip s = [] -> PyStr.split s = [].
Proof.
  unfold PyStr.strip. intros H. apply split_blank.
  apply rstrip_nil_blank.
  destruct (PyStr.rstrip s) as [|c r] eqn:E; [reflexivity|].
  (* a non-empty right-stripped text ends in a solid character *)
  exfalso. revert c r E H. induction s as [|a s IH]; simpl; [discriminate|].
  intros c r E H. destruct (PyStr.rstrip s) as [|c' r'] eqn:E'.
  - destruct (Char.isspace a) eqn:Ea; [discriminate|].
    injection E as <- <-. simpl in H. now rewrite Ea in H.
  - injection E as <- <-. simpl in H.
    destruct (Char.isspace a); [|discriminate].
    eapply IH; [reflexivity|exact H].
Qed.

Lemma split_char_sep sep y :
  PyStr.split_char sep (sep :: y) = [] :: PyStr.split_char sep y.
Proof. simpl. now rewrite char_eqb_refl. Qed.

Lemma split_char_other sep c y :
  c <> sep ->
  PyStr.split_char sep (c :: y) = prepend [c] (PyStr.split_char sep y).
Proof.
  intros Hc. simpl. destruct (Char.eqb c sep) eqn:E.
  - apply char_eqb_eq in E. contradiction.
  - reflexivity.
Qed.

Lemma prepend_prepend x y lines :
  prepend x (prepend y lines) = prepend (x ++ y) lines.
Proof. destruct lines; simpl; now rewrite <- ?app_assoc. Qed.

Lemma split_char_not_nil sep s : PyStr.split_char sep s <> [].
Proof.
  destruct s as [|c s]; simpl; [discriminate|].
  destruct (Char.eqb c sep); [discriminate|].
  destruct (PyStr.split_char sep s); discriminate.
Qed.

Lemma prepend_nil lines : lines <> [] -> prepend [] lines = lines.
Proof. destruct lines; [contradiction|reflexivity]. Qed.

Lemma split_char_app sep x y :
  ~ In sep x ->
  PyStr.split_char sep (x ++ y) = prepend x (PyStr.split_char sep y).
Proof.
  induction x as [|c x IH]; intros Hx.
  - simpl. symmetry. apply prepend_nil, split_char_not_nil.
  - rewrite <- app_comm_cons, split_char_other, IH, prepend_prepend.
    + reflexivity.
    + intros H. apply Hx. now right.
    + intros ->. apply Hx. now left.
Qed.

Lemma split_char_blank s :
  blank s -> Forall blank (PyStr.split_char Char.newline s).
Proof.
  induction 1 as [|c s Hc Hs IH]; simpl.
  - repeat constructor.
  - destruct (Char.eqb c Char.newline).
    + constructor; [constructor|exact IH].
    + destruct (PyStr.split_char Char.newline s) as [|l ls];
        [repeat constructor; exact Hc|].
      inversion IH; subst. constructor; [now constructor|assumption].
Qed.

(** *** Indexing and slicing at non-negative positions *)

Lemma clamp_nat {A} (l : list A) (i : nat) :
  PySeq.clamp (Z.of_nat (length l)) (Z.of_nat i) = Nat.min (length l) i.
Proof. unfold PySeq.clamp. destruct (Z.ltb_spec (Z.of_nat i) 0); lia. Qed.

Lemma slice_from_nat {A} (l : list A) (i : nat) :
  PySeq.slice_from l (Z.of_nat i) = skipn i l.
Proof.
  unfold PySeq.slice_from. rewrite clamp_nat.
  destruct (Nat.le_ge_cases i (length l)).
  - now rewrite Nat.min_r.
  - rewrite Nat.min_l by assumption.
    now rewrite !skipn_all2 by lia.
Qed.

Lemma slice_nat {A} (l : list A) (i j : nat) :
  PySeq.slice l (Z.of_nat i) (Z.of_nat j) = firstn (j - i) (skipn i l).
Proof.
  unfold PySeq.slice. rewrite !clamp_nat.
  destruct (Nat.le_ge_cases (length l) i).
  - rewrite (Nat.min_l _ i) by assumption.
    now rewrite !skipn_all2, !firstn_nil by lia.
  - rewrite (Nat.min_r _ i) by assumption.
    destruct (Nat.le_ge_cases j (length l)).
    + now rewrite Nat.min_r.
    + rewrite Nat.min_l by assumption.
      rewrite !firstn_all2; [reflexivity| |]; rewrite length_skipn; lia.
Qed.

Lemma item_at_nat {A} (l : list A) (i : nat) :
  item_at l (Z.of_nat i) = orelse IndexError (nth_error l i).
Proof.
  unfold item_at, PySeq.index.
  destruct (Z.leb_spec 0 (Z.of_nat i)); [|lia]. simpl.
  destruct (Z.ltb_spec (Z.of_nat i) (Z.of_nat (length l))).
  - now rewrite Nat2Z.id.
  - destruct (Z.ltb_spec (Z.of_nat i) 0); [lia|].
    rewrite andb_false_r.
    assert (nth_error l i = None) as -> by (apply nth_error_None; lia).
    reflexivity.
Qed.

Lemma item_at_back {A} (l : list A) (k : nat) :
  (0 < k <= length l)%nat ->
  item_at l (- Z.of_nat k) = orelse IndexError (nth_error l (length l - k)).
Proof.
  intros Hk. unfold item_at, PySeq.index.
  destruct (Z.leb_spec 0 (- Z.of_nat k)); [lia|]. simpl.
  destruct (Z.leb_spec (- Z.of_nat (length l)) (- Z.of_nat k)); [|lia].
  destruct (Z.ltb_spec (- Z.of_nat k) 0); [|lia]. simpl.
  do 2 f_equal. lia.
Qed.

Lemma item_at_back_short {A} (l : list A) (k : nat) :
  (length l < k)%nat -> item_at l (- Z.of_nat k) = Raise IndexError.
Proof.
  intros Hk. unfold item_at, PySeq.index.
  destruct (Z.leb_spec 0 (- Z.of_nat k)); [lia|]. simpl.
  destruct (Z.leb_spec (- Z.of_nat (length l)) (- Z.of_nat k)); [lia|].
  reflexivity.
Qed.

(* ===================================================================== *)
(** ** The coordinate listing *)
(* ===================================================================== *)

Lemma floats_ValueError parts e : floats parts = Raise e -> e = ValueError.
Proof.
  induction parts as [|p ps IH]; simpl; [discriminate|].
  unfold float at 1.
  destruct (PyNum.float_syntax p); simpl; [|now intros [= <-]].
  destruct (floats ps); simpl; [discriminate|].
  intros [= <-]. now apply IH.
Qed.

Lemma xyz_line_atoms atoms line :
  xyz_line atoms line = Return (atoms ++ line_atoms line).
Proof.
  unfold xyz_line, line_atoms.
  destruct (PyStr.strip line) eqn:E.
  { rewrite (strip_nil_split _ E). now rewrite app_nil_r. }
  destruct (PyStr.split line) as [|f0 [|f1 [|f2 [|f3 rest]]]];
    try (simpl; now rewrite app_nil_r).
  change (4 <=? length (f0 :: f1 :: f2 :: f3 :: rest))%nat with true.
  cbv iota.
  change 1 with (Z.of_nat 1). change 4 with (Z.of_nat 4).
  change 0 with (Z.of_nat 0).
  rewrite slice_nat, item_at_nat.
  change (firstn (4 - 1) (skipn 1 (f0 :: f1 :: f2 :: f3 :: rest)))
    with [f1; f2; f3].
  destruct (floats [f1; f2; f3]) as [coords|e] eqn:Ef; [reflexivity|].
  rewrite (floats_ValueError _ _ Ef). simpl. now rewrite app_nil_r.
Qed.

Lemma xyz_loop lines : forall atoms,
  for_each xyz_line lines atoms = Return (atoms ++ flat_map line_atoms lines).
Proof.
  induction lines as [|l ls IH]; intros atoms; simpl.
  - now rewrite app_nil_r.
  - rewrite xyz_line_atoms. simpl. rewrite IH. now rewrite app_assoc.
Qed.

(** The parser never raises. *)
Lemma parse_xyz_returns content :
  returns (parse_xyz_content content) = true.
Proof.
  unfold parse_xyz_content.
  destruct (PyStr.split_char Char.newline (PyStr.strip content))
    as [|first rest].
  - cbn [length Nat.ltb Nat.leb andb mbind outcome_bind]. now rewrite xyz_loop.
  - change (0 <? length (first :: rest))%nat with true. cbv iota.
    change 0 with (Z.of_nat 0). rewrite item_at_nat.
    cbn [nth_error orelse mbind outcome_bind]. now rewrite xyz_loop.
Qed.

(** C5 (as amended).  A line of the listing yields an atom exactly when
    it has at least four fields and the three fields after the first one
    (fields 2 to 4, whatever follows them) are floats; the atom then has
    the first field as its symbol and those three floats as coordinates.
    Every other line leaves the atoms as they are, and in both cases the
    loop goes on with the remaining lines and returns. *)
Theorem xyz_line_rule (atoms : list xyz_atom) (line : str) (rest : list str) :
  let parts := PyStr.split line in
  let fields := firstn 3 (skipn 1 parts) in
  ((4 <= length parts)%nat /\ returns (floats fields) = true ->
     exists sym coords,
       nth_error parts 0 = Some sym /\ floats fields = Return coords /\
       for_each xyz_line (line :: rest) atoms
       = for_each xyz_line rest (atoms ++ [(sym, coords)])) /\
  (~ ((4 <= length parts)%nat /\ returns (floats fields) = true) ->
     for_each xyz_line (line :: rest) atoms = for_each xyz_line rest atoms) /\
  returns (for_each xyz_line (line :: rest) atoms) = true.
Proof.
  intros parts fields. subst fields.
  assert (Hstep : for_each xyz_line (line :: rest) atoms
                  = for_each xyz_line rest (atoms ++ line_atoms line)).
  { simpl. now rewrite xyz_line_atoms. }
  split; [|split].
  - intros [Hlen Hret]. rewrite Hstep. unfold line_atoms. fold parts.
    destruct parts as [|f0 [|f1 [|f2 [|f3 more]]]]; simpl in Hlen; try lia.
    change (firstn 3 (skipn 1 (f0 :: f1 :: f2 :: f3 :: more)))
      with [f1; f2; f3] in *.
    destruct (floats [f1; f2; f3]) as [coords|e]; [|discriminate].
    now exists f0, coords.
  - intros Hno. rewrite Hstep. unfold line_atoms. fold parts.
    destruct parts as [|f0 [|f1 [|f2 [|f3 more]]]];
      try now rewrite app_nil_r.
    change (firstn 3 (skipn 1 (f0 :: f1 :: f2 :: f3 :: more)))
      with [f1; f2; f3] in *.
    destruct (floats [f1; f2; f3]) as [coords|e]; [|now rewrite app_nil_r].
    exfalso. apply Hno. split; [simpl; lia|reflexivity].
  - now rewrite xyz_loop.
Qed.

(** *** A listing with a count and a comment *)

Lemma line_atoms_app_blank p ws :
  blank ws -> line_atoms (p ++ ws) = line_atoms p.
Proof. intros H. unfold line_atoms. now rewrite split_app_blank. Qed.

Lemma line_atoms_blank l : blank l -> line_atoms l = [].
Proof. intros H. unfold line_atoms. now rewrite split_blank. Qed.

Lemma flat_map_blank ls : Forall blank ls -> flat_map line_atoms ls = [].
Proof.
  induction 1 as [|l ls Hl _ IH]; simpl; [reflexivity|].
  now rewrite IH, line_atoms_blank.
Qed.

Lemma atoms_after_newline k p x :
  atoms_after k p (Char.newline :: x)
  = match k with
    | O => line_atoms p ++ atoms_after 0 [] x
    | S k' => atoms_after k' [] x
    end.
Proof.
  unfold atoms_after. rewrite split_char_sep. simpl prepend.
  rewrite app_nil_r, (prepend_nil (PyStr.split_char _ x))
    by apply split_char_not_nil.
  now destruct k.
Qed.

Lemma atoms_after_other k p c x :
  c <> Char.newline -> atoms_after k p (c :: x) = atoms_after k (p ++ [c]) x.
Proof.
  intros Hc. unfold atoms_after.
  now rewrite split_char_other, prepend_prepend.
Qed.

Lemma atoms_after_blank k p s :
  blank s -> atoms_after k p s = atoms_after k p [].
Proof.
  intros Hs. unfold atoms_after. simpl PyStr.split_char.
  pose proof (split_char_blank s Hs) as Hb.
  destruct (PyStr.split_char Char.newline s) as [|l0 ls] eqn:E.
  { now apply split_char_not_nil in E. }
  inversion Hb as [|? ? Hl0 Hls]; subst. simpl prepend.
  destruct k as [|k]; simpl.
  - now rewrite (flat_map_blank ls), line_atoms_app_blank, !app_nil_r.
  - rewrite skipn_nil. apply flat_map_blank.
    clear -Hls. revert k. induction Hls; intros [|k]; simpl; auto.
Qed.

Lemma space_not_newline c : Char.isspace c = false -> c <> Char.newline.
Proof. intros H ->. discriminate. Qed.

(** Stripping the text on the right does not change the atoms read. *)
Lemma rstrip_atoms s : forall k p,
  atoms_after k p (PyStr.rstrip s) = atoms_after k p s.
Proof.
  induction s as [|c s IH]; intros k p; [reflexivity|].
  simpl PyStr.rstrip.
  destruct (PyStr.rstrip s) as [|c' r] eqn:E.
  - destruct (Char.isspace c) eqn:Ec.
    + symmetry. apply atoms_after_blank.
      constructor; [exact Ec|now apply rstrip_nil_blank].
    + pose proof (space_not_newline _ Ec) as Hc.
      rewrite !atoms_after_other by assumption. apply IH.
  - destruct (ascii_dec c Char.newline) as [->|Hc].
    + rewrite (atoms_after_newline k p (c' :: r)), (atoms_after_newline k p s).
      destruct k; now rewrite IH.
    + rewrite (atoms_after_other k p c (c' :: r)), (atoms_after_other k p c s)
        by assumption.
      apply IH.
Qed.

Lemma records_atoms trail : blank trail -> forall records atoms,
  records <> [] -> Forall2 atom_record records atoms ->
  atoms_after 0 [] (join_lines records ++ trail) = atoms.
Proof.
  intros Ht. induction records as [|r [|r2 rs] IH]; intros atoms Hne HF.
  - contradiction.
  - inversion HF as [|? a ? atoms' [Hr Ha] HF']; subst.
    inversion HF'; subst. simpl join_lines.
    unfold atoms_after at 1.
    rewrite split_char_app, prepend_prepend by exact Hr. simpl app.
    change (atoms_after 0 r trail = [a]).
    rewrite atoms_after_blank by assumption.
    unfold atoms_after. simpl. now rewrite !app_nil_r.
  - inversion HF as [|? a ? atoms' [Hr Ha] HF']; subst.
    change (join_lines (r :: r2 :: rs))
      with (r ++ Char.newline :: join_lines (r2 :: rs)).
    rewrite <- app_assoc, <- app_comm_cons.
    unfold atoms_after at 1.
    rewrite split_char_app, prepend_prepend by exact Hr. simpl app.
    change (atoms_after 0 r (Char.newline :: join_lines (r2 :: rs) ++ trail)
            = a :: atoms').
    rewrite atoms_after_newline, Ha. simpl. f_equal.
    apply IH; [discriminate|assumption].
Qed.

Lemma atoms_after_app k p x y :
  one_line x -> atoms_after k p (x ++ y) = atoms_after k (p ++ x) y.
Proof.
  intros Hx. unfold atoms_after.
  now rewrite split_char_app, prepend_prepend by exact Hx.
Qed.

Lemma decimal_solid c : Char.isdecimal c = true -> Char.isspace c = false.
Proof. destruct c as [[] [] [] [] [] [] [] []]; vm_compute; congruence. Qed.

Lemma decimal_isdigit c : Char.isdecimal c = true -> Char.isdigit c = true.
Proof. intros H. unfold Char.isdigit. now rewrite H. Qed.

Lemma rstrip_after_newline x :
  exists ls,
    PyStr.split_char Char.newline (PyStr.rstrip (Char.newline :: x)) = [] :: ls.
Proof.
  simpl PyStr.rstrip. destruct (PyStr.rstrip x) as [|c r].
  - now exists [].
  - rewrite split_char_sep. eauto.
Qed.

(** C7.  A listing made of a count line of decimal digits, a comment line
    and one well-formed atom record per line, the count being the number
    of records (blank text may come before and after): the parser returns
    one atom per record, in the order of the lines, so the length of the
    result is the declared count. *)
Theorem xyz_listing_with_count
  (lead count comment trail : str) (records : list str)
  (atoms : list xyz_atom) :
  blank lead -> blank trail ->
  count <> [] -> Forall (fun c => Char.isdecimal c = true) count ->
  one_line comment ->
  Forall2 atom_record records atoms ->
  PyNum.int count = Some (Z.of_nat (length records)) ->
  parse_xyz_content (lead ++ join_lines (count :: comment :: records) ++ trail)
  = Return atoms /\
  PyNum.int count = Some (Z.of_nat (length atoms)).
Proof.
  intros Hlead Htrail Hne Hdec Hcomment Hrec Hcount.
  split; [|pose proof (Forall2_length _ _ _ Hrec) as Hlen; congruence].
  assert (Hsolid : solid count).
  { eapply Forall_impl; [exact Hdec|]. apply decimal_solid. }
  assert (Hline : one_line count).
  { intros Hin. rewrite List.Forall_forall in Hdec.
    specialize (Hdec _ Hin). discriminate. }
  change (join_lines (count :: comment :: records))
    with (count ++ Char.newline :: join_lines (comment :: records)).
  rewrite <- app_assoc, <- app_comm_cons.
  set (T := join_lines (comment :: records) ++ trail).
  unfold parse_xyz_content, PyStr.strip.
  assert (Hr : PyStr.rstrip (lead ++ count ++ Char.newline :: T)
               = lead ++ count ++ PyStr.rstrip (Char.newline :: T)).
  { rewrite rstrip_app_keep; rewrite rstrip_app_solid by assumption;
      [reflexivity|].
    destruct count; [contradiction|discriminate]. }
  rewrite Hr, lstrip_blank_app by assumption.
  assert (Hl : PyStr.lstrip (count ++ PyStr.rstrip (Char.newline :: T))
               = count ++ PyStr.rstrip (Char.newline :: T)).
  { destruct count as [|d count']; [contradiction|].
    inversion Hsolid as [|? ? Hd _]; subst. simpl. now rewrite Hd. }
  rewrite Hl, split_char_app by assumption.
  pose proof (rstrip_atoms (Char.newline :: T) 2 count) as Hatoms.
  unfold atoms_after at 1 in Hatoms.
  destruct (rstrip_after_newline T) as [ls Els].
  rewrite Els in *. simpl prepend in *. rewrite app_nil_r in *.
  change (0 <? length (count :: ls))%nat with true. cbv iota.
  change 0 with (Z.of_nat 0). rewrite item_at_nat. simpl.
  assert (Hdigit : PyStr.isdigit count = true).
  { destruct count as [|d count']; [contradiction|]. unfold PyStr.isdigit.
    apply forallb_forall. intros c Hc. apply decimal_isdigit.
    rewrite List.Forall_forall in Hdec. now apply Hdec. }
  rewrite Hdigit. change 2 with (Z.of_nat 2). rewrite slice_from_nat.
  rewrite xyz_loop. simpl app. f_equal.
  change (skipn 2 (count :: ls)) with (skipn 1 ls).
  simpl skipn in Hatoms. rewrite Hatoms.
  rewrite atoms_after_newline. subst T.
  destruct records as [|r rs].
  - inversion Hrec; subst. simpl join_lines.
    rewrite atoms_after_app, atoms_after_blank by assumption.
    reflexivity.
  - change (join_lines (comment :: r :: rs))
      with (comment ++ Char.newline :: join_lines (r :: rs)).
    rewrite <- app_assoc, <- app_comm_cons.
    rewrite atoms_after_app, atoms_after_newline by assumption.
    apply records_atoms; [assumption|discriminate|assumption].
Qed.

(* ===================================================================== *)
(** ** The optimized geometry of a log *)
(* ===================================================================== *)

(** *** Literal patterns *)

Lemma match_here_literal p : forall opened caps s,
  Re.match_here (literal p) opened caps s
  = if PyStr.starts_with p s then Some caps else None.
Proof.
  induction p as [|c p IH]; intros opened caps s; simpl.
  - now destruct s.
  - destruct s as [|x s]; [reflexivity|]. simpl.
    destruct (Char.eqb c x); simpl; [apply IH|reflexivity].
Qed.

Lemma search_literal p s :
  Re.search_items (literal p) s
  = if PyStr.contains p s then Some [] else None.
Proof.
  induction s as [|x s IH]; simpl; rewrite match_here_literal.
  - destruct p; reflexivity.
  - destruct (PyStr.starts_with p (x :: s)); [reflexivity|]. simpl.
    exact IH.
Qed.

Lemma matches_literal (pattern : string) text :
  Re.compile pattern = Some (literal (lit pattern)) ->
  matches pattern text = PyStr.contains (lit pattern) text.
Proof.
  intros H. unfold matches, Re.search. rewrite H, search_literal.
  now destruct (PyStr.contains (lit pattern) text).
Qed.

Lemma matches_orientation line :
  matches "Standard orientation" line
  = PyStr.contains (lit "Standard orientation") line.
Proof. now apply matches_literal. Qed.

Lemma matches_dashes line :
  matches "-------" line = PyStr.contains (lit "-------") line.
Proof. now apply matches_literal. Qed.

(** *** Substrings *)

Lemma starts_with_iff p s :
  PyStr.starts_with p s = true <-> exists t, s = p ++ t.
Proof.
  revert s. induction p as [|a p IH]; intros s; simpl.
  - split; [eauto|reflexivity].
  - destruct s as [|b s].
    + split; [discriminate|]. now intros (t & H).
    + rewrite andb_true_iff, char_eqb_eq, IH. split.
      * intros (-> & t & ->). eauto.
      * intros (t & [= -> ->]). eauto.
Qed.

(** [needle in hay] holds exactly when [hay] has [needle] as a
    substring. *)
Lemma contains_iff needle hay :
  PyStr.contains needle hay = true <->
  exists pre post, hay = pre ++ needle ++ post.
Proof.
  induction hay as [|c hay IH]; simpl; rewrite orb_true_iff, starts_with_iff.
  - split.
    + intros [(t & H)|H]; [|discriminate]. now exists [], t.
    + intros (pre & post & H). left. symmetry in H.
      apply app_eq_nil in H as [-> H]. eauto.
  - rewrite IH. split.
    + intros [(t & H)|(pre & post & ->)]; [now exists [], t|].
      now exists (c :: pre), post.
    + intros ([|a pre] & post & H); [left; eauto|].
      injection H as -> ->. right. eauto.
Qed.

(** A marker without a newline that is in the text is in one of its
    lines. *)
Lemma contains_line needle post : one_line needle -> forall pre,
  exists i line,
    nth_error (PyStr.split_char Char.newline (pre ++ needle ++ post)) i
    = Some line /\
    PyStr.contains needle line = true.
Proof.
  intros Hn. induction pre as [|c pre (i & line & Hi & Hl)].
  - simpl app. rewrite split_char_app by exact Hn.
    destruct (PyStr.split_char Char.newline post) as [|l0 ls] eqn:E.
    { now apply split_char_not_nil in E. }
    exists 0%nat, (needle ++ l0). split; [reflexivity|].
    apply contains_iff. now exists [], l0.
  - rewrite <- app_comm_cons.
    destruct (ascii_dec c Char.newline) as [->|Hc].
    + rewrite split_char_sep. now exists (S i), line.
    + rewrite split_char_other by exact Hc.
      destruct (PyStr.split_char Char.newline (pre ++ needle ++ post))
        as [|l0 ls]; [now destruct i|].
      destruct i as [|i]; simpl in *.
      * injection Hi as ->. exists 0%nat, (c :: line). split; [reflexivity|].
        simpl. rewrite Hl. apply orb_true_r.
      * now exists (S i), line.
Qed.

Lemma first_from_exists (P : str -> bool) lines :
  (exists i l, nth_error lines i = Some l /\ P l = true) ->
  exists c, first_from P lines 0 c.
Proof.
  induction lines as [|l0 ls IH]; intros (i & l & Hi & HP).
  - now destruct i.
  - destruct (P l0) eqn:E0.
    + exists 0%nat. split; [lia|]. split; [now exists l0|]. intros; lia.
    + destruct i as [|i]; simpl in Hi; [congruence|].
      destruct IH as (c & _ & (l' & Hl' & HP') & Hmin); [eauto|].
      exists (S c). split; [lia|]. split; [now exists l'|].
      intros [|j] l1 Hj Hl1; simpl in Hl1; [congruence|].
      apply (Hmin j); [lia|exact Hl1].
Qed.

(** *** The pattern of the convergence marker *)

Lemma match_here_literal_then p q : forall opened caps s,
  Re.match_here (literal p ++ q) opened caps s
  = if PyStr.starts_with p s
    then Re.match_here q opened caps (skipn (length p) s)
    else None.
Proof.
  induction p as [|c p IH]; intros opened caps s; simpl.
  - now destruct s.
  - destruct s as [|x s]; [reflexivity|]. simpl.
    destruct (Char.eqb c x); simpl; [apply IH|reflexivity].
Qed.

Lemma search_items_here p s caps :
  Re.match_here p [] [] s = Some caps -> Re.search_items p s = Some caps.
Proof. intros H. destruct s; simpl; now rewrite H. Qed.

Lemma search_items_later p c s :
  Re.search_items p s <> None -> Re.search_items p (c :: s) <> None.
Proof.
  intros H. simpl. now destruct (Re.match_here p [] [] (c :: s)).
Qed.

Lemma match_literal_any p x post :
  x <> Char.newline ->
  Re.match_here (literal p ++ [Re.Atom Re.Any Re.Once]) [] []
    (p ++ x :: post) = Some [].
Proof.
  intros Hx. rewrite match_here_literal_then.
  assert (PyStr.starts_with p (p ++ x :: post) = true) as ->
    by (apply starts_with_iff; eauto).
  rewrite skipn_app, skipn_all, Nat.sub_diag. simpl.
  destruct (Char.eqb x Char.newline) eqn:E; [|reflexivity].
  apply char_eqb_eq in E. contradiction.
Qed.

(** Where the marker 'Optimization completed.' is, the pattern
    'Optimization completed.' matches: its last character stands for any
    character but the newline. *)
Lemma completed_matches line :
  PyStr.contains (lit "Optimization completed.") line = true ->
  matches "Optimization completed." line = true.
Proof.
  intros H. apply contains_iff in H as (pre & post & ->).
  unfold matches, Re.search.
  change (Re.compile "Optimization completed.")
    with (Some (literal (lit "Optimization completed")
                ++ [Re.Atom Re.Any Re.Once])).
  cbv iota.
  set (p := literal (lit "Optimization completed")
            ++ [Re.Atom Re.Any Re.Once]).
  assert (Hs : Re.search_items p
                 (pre ++ lit "Optimization completed." ++ post) <> None).
  { induction pre as [|c pre IH].
    - change ([] ++ lit "Optimization completed." ++ post)
        with (lit "Optimization completed" ++ "."%char :: post).
      subst p. erewrite search_items_here; [discriminate|].
      now apply match_literal_any.
    - apply search_items_later, IH. }
  now destruct (Re.search_items p _).
Qed.

(** With the convergence marker in the log, some line matches its
    pattern. *)
Lemma completed_line_exists log_content :
  PyStr.contains (lit "Optimization completed.") log_content = true ->
  exists c,
    first_from (matches "Optimization completed.")
      (PyStr.split_char Char.newline log_content) 0 c.
Proof.
  intros H. apply contains_iff in H as (pre & post & ->).
  apply first_from_exists.
  destruct (contains_line (lit "Optimization completed.") post
              ltac:(unfold one_line; vm_compute; intuition discriminate) pre)
    as (i & line & Hi & Hl).
  exists i, line. split; [exact Hi|]. now apply completed_matches.
Qed.

(** *** The two searches *)

Lemma first_match_first pattern lines : forall i0 k,
  first_from (matches pattern) lines 0 k ->
  first_match pattern lines i0 = Some (i0 + k)%nat.
Proof.
  induction lines as [|l ls IH]; intros i0 k (_ & (l' & Hl' & HP) & Hmin).
  - now destruct k.
  - simpl. destruct k as [|k].
    + simpl in Hl'. injection Hl' as ->. rewrite HP. f_equal. lia.
    + rewrite (Hmin 0%nat l) by (simpl; auto with lia).
      rewrite (IH (S i0) k); [f_equal; lia|].
      split; [lia|]. split; [now exists l'|].
      intros j l0 Hj Hl0. apply (Hmin (S j)); [lia|exact Hl0].
Qed.

Lemma first_from_skipn P lines c h :
  first_from P lines c h -> first_from P (skipn c lines) 0 (h - c).
Proof.
  intros (Hle & (l & Hl & HP) & Hmin). split; [lia|]. split.
  - exists l. split; [|exact HP].
    rewrite nth_error_skipn. now replace (c + (h - c))%nat with h by lia.
  - intros j l0 Hj Hl0. rewrite nth_error_skipn in Hl0.
    apply (Hmin (c + j)%nat); [lia|exact Hl0].
Qed.

Lemma locate_block_first lines c h :
  first_from (matches "Optimization completed.") lines 0 c ->
  first_from (PyStr.contains (lit "Standard orientation")) lines c h ->
  locate_block lines = h.
Proof.
  intros Hc Hh. unfold locate_block.
  rewrite (first_match_first _ _ 0 c Hc). simpl Nat.add.
  rewrite slice_from_nat.
  assert (Hh' : first_from (matches "Standard orientation")
                  (skipn c lines) 0 (h - c)).
  { apply first_from_skipn.
    destruct Hh as (Hle & (l & Hl & HP) & Hmin). split; [exact Hle|].
    split; [exists l; now rewrite matches_orientation|].
    intros j l0 Hj Hl0. rewrite matches_orientation. eauto. }
  rewrite (first_match_first _ _ 0 _ Hh'). destruct Hh as (Hle & _). lia.
Qed.

(** *** The records of the block *)

Lemma read_record_spec line :
  match record_of line with
  | Some v => read_record line = Return v
  | None => returns (read_record line) = false
  end.
Proof.
  unfold record_of, read_record.
  set (fields := PyStr.split line).
  change 1 with (Z.of_nat 1). rewrite item_at_nat.
  change (-3) with (- Z.of_nat 3). change (-2) with (- Z.of_nat 2).
  change (-1) with (- Z.of_nat 1).
  destruct (Nat.leb_spec 3 (length fields)) as [Hn|Hn].
  - rewrite !item_at_back by lia. unfold int, float.
    destruct (nth_error fields 1) as [f1|]; simpl; [|reflexivity].
    destruct (PyNum.int f1); simpl; [|reflexivity].
    destruct (nth_error fields (length fields - 3)); simpl; [|reflexivity].
    destruct (PyNum.float_syntax _); simpl; [|reflexivity].
    destruct (nth_error fields (length fields - 2)); simpl; [|reflexivity].
    destruct (PyNum.float_syntax _); simpl; [|reflexivity].
    destruct (nth_error fields (length fields - 1)); simpl; [|reflexivity].
    destruct (PyNum.float_syntax _); simpl; reflexivity.
  - rewrite (item_at_back_short fields 3) by lia. unfold int.
    destruct (nth_error fields 1) as [f1|]; simpl; [|reflexivity].
    destruct (PyNum.int f1); reflexivity.
Qed.

Lemma read_block_spec lines : forall acc,
  match mapM record_of (until_dashes lines) with
  | Some records => read_block lines acc = Return (acc ++ records)
  | None => returns (read_block lines acc) = false
  end.
Proof.
  induction lines as [|l ls IH]; intros acc; simpl.
  - now rewrite app_nil_r.
  - rewrite matches_dashes.
    destruct (PyStr.contains (lit "-------") l); simpl.
    { now rewrite app_nil_r. }
    pose proof (read_record_spec l) as Hl.
    destruct (record_of l) as [v|]; simpl.
    + rewrite Hl. simpl. specialize (IH (acc ++ [v])).
      destruct (mapM record_of (until_dashes ls)) as [rs|]; simpl.
      * rewrite IH. now rewrite <- app_assoc.
      * exact IH.
    + destruct (read_record l); [discriminate|reflexivity].
Qed.

(** The result of [extract_optimized_structure] once the log was read,
    both markers are there and the header is at line [h]. *)
Lemma extract_from_located log_content h :
  PyStr.contains (lit "Normal termination") log_content = true ->
  PyStr.contains (lit "Optimization completed.") log_content = true ->
  locate_block (PyStr.split_char Char.newline log_content) = h ->
  match extract_from_log log_content with
  | Return r => r
  | Raise _ => None
  end
  = match mapM record_of
            (until_dashes
               (skipn (h + 5) (PyStr.split_char Char.newline log_content)))
    with
    | Some (a :: records) => Some (a :: records)
    | _ => None
    end.
Proof.
  intros Hn Ho Hh. unfold extract_from_log. rewrite Hn, Ho, Hh. simpl negb.
  cbv iota. change 5 with (Z.of_nat 5). rewrite <- Nat2Z.inj_add.
  rewrite slice_from_nat.
  pose proof (read_block_spec
                (skipn (h + 5) (PyStr.split_char Char.newline log_content))
                []) as Hb.
  destruct (mapM record_of _) as [records|].
  - rewrite Hb. simpl. now destruct records.
  - destruct (read_block _ _); [discriminate|reflexivity].
Qed.

Lemma extract_opened open_read filename path name log_content :
  log_path filename path = Return name ->
  open_read name = Some log_content ->
  extract_optimized_structure open_read filename path
  = match extract_from_log log_content with
    | Return r => r
    | Raise _ => None
    end.
Proof.
  intros Hp Ho. unfold extract_optimized_structure.
  rewrite Hp. simpl. rewrite Ho. reflexivity.
Qed.

Lemma first_from_unique (P : str -> bool) lines from c c' :
  first_from P lines from c -> first_from P lines from c' -> c = c'.
Proof.
  intros (Hle & (l & Hl & HP) & Hmin) (Hle' & (l' & Hl' & HP') & Hmin').
  destruct (Nat.lt_trichotomy c c') as [Hlt|[->|Hlt]]; [|reflexivity|].
  - rewrite (Hmin' c l) in HP by (lia || assumption). discriminate.
  - rewrite (Hmin c' l') in HP' by (lia || assumption). discriminate.
Qed.

(** C4.  With both markers in the log, there is a first line [c] that
    matches 'Optimization completed.'; when [h] is the first line at or
    after [c] that contains 'Standard orientation', the records are read
    from line [h + 5] up to the first line that contains a run of dashes,
    each record giving the integer of its second field and the floats of
    its last three fields; the result is that sequence of records (and
    [None] when it is empty or when a record cannot be read). *)
Theorem geometry_block_located
  (open_read : str -> option str) (filename path name log_content : str) :
  log_path filename path = Return name ->
  open_read name = Some log_content ->
  PyStr.contains (lit "Normal termination") log_content = true ->
  PyStr.contains (lit "Optimization completed.") log_content = true ->
  let log_lines := PyStr.split_char Char.newline log_content in
  exists c,
    first_from (matches "Optimization completed.") log_lines 0 c /\
    forall h,
      first_from (PyStr.contains (lit "Standard orientation")) log_lines c h ->
      extract_optimized_structure open_read filename path
      = match mapM record_of (until_dashes (skipn (h + 5) log_lines)) with
        | Some (a :: records) => Some (a :: records)
        | _ => None
        end.
Proof.
  intros Hp Hopen Hn Ho log_lines.
  destruct (completed_line_exists _ Ho) as [c Hc].
  exists c. split; [exact Hc|]. intros h Hh.
  rewrite (extract_opened _ _ _ _ _ Hp Hopen).
  apply extract_from_located; try assumption.
  now apply (locate_block_first _ c h).
Qed.

(** C8.  A log without the marker of normal termination gives [None],
    whatever else it contains. *)
Theorem no_termination_no_result
  (open_read : str -> option str) (filename path : str) :
  (forall name log_content,
     log_path filename path = Return name ->
     open_read name = Some log_content ->
     PyStr.contains (lit "Normal termination") log_content = false) ->
  extract_optimized_structure open_read filename path = None.
Proof.
  intros H. unfold extract_optimized_structure.
  destruct (log_path filename path) as [name|] eqn:Hp; [|reflexivity].
  simpl. destruct (open_read name) as [log_content|] eqn:Ho; [|reflexivity].
  simpl. unfold extract_from_log. now rewrite (H name log_content).
Qed.

Lemma read_block_raises pre line post : forall acc,
  Forall (fun l => PyStr.contains (lit "-------") l = false) (pre ++ [line]) ->
  returns (read_record line) = false ->
  returns (read_block (pre ++ line :: post) acc) = false.
Proof.
  induction pre as [|l pre IH]; intros acc HF Hbad; simpl in *;
    inversion HF as [|? ? Hd HF']; subst; rewrite matches_dashes, Hd.
  - destruct (read_record line); [discriminate|reflexivity].
  - destruct (read_record l); simpl; [now apply IH|reflexivity].
Qed.

(** C10 (as amended).  When reading a record of the block raises an
    exception, the function returns [None]: neither the atoms read before
    that record nor the exception reach the caller.  A record with fewer
    than three fields raises, and so does a record whose second field is
    not an integer. *)
Theorem block_exception_no_result
  (open_read : str -> option str) (filename path name log_content : str)
  (pre : list str) (line : str) (post : list str) :
  log_path filename path = Return name ->
  open_read name = Some log_content ->
  let log_lines := PyStr.split_char Char.newline log_content in
  skipn (locate_block log_lines + 5) log_lines = pre ++ line :: post ->
  Forall (fun l => PyStr.contains (lit "-------") l = false) (pre ++ [line]) ->
  ((length (PyStr.split line) < 3)%nat -> returns (read_record line) = false) /\
  (forall f, nth_error (PyStr.split line) 1 = Some f -> PyNum.int f = None ->
             returns (read_record line) = false) /\
  (returns (read_record line) = false ->
   extract_optimized_structure open_read filename path = None).
Proof.
  intros Hp Hopen log_lines Hblock Hnd.
  pose proof (read_record_spec line) as Hspec. unfold record_of in Hspec.
  split; [|split].
  - intros Hlen.
    destruct (Nat.leb_spec 3 (length (PyStr.split line))); [lia|exact Hspec].
  - intros f Hf Hint.
    destruct (3 <=? length (PyStr.split line))%nat; [|exact Hspec].
    rewrite Hf in Hspec. simpl in Hspec. rewrite Hint in Hspec. exact Hspec.
  - intros Hbad. rewrite (extract_opened _ _ _ _ _ Hp Hopen).
    unfold extract_from_log.
    destruct (negb (PyStr.contains (lit "Normal termination") log_content));
      [reflexivity|].
    destruct (negb (PyStr.contains (lit "Optimization completed.")
                      log_content)); [reflexivity|].
    change 5 with (Z.of_nat 5). rewrite <- Nat2Z.inj_add, slice_from_nat.
    fold log_lines. rewrite Hblock.
    pose proof (read_block_raises pre line post [] Hnd Hbad) as Hr.
    destruct (read_block _ _); [discriminate|reflexivity].
Qed.

(* ===================================================================== *)
(** ** The electronic-structure summary *)
(* ===================================================================== *)

Lemma floats_app a b :
  floats (a ++ b) = (x ← floats a; y ← floats b; Return (x ++ y)).
Proof.
  induction a as [|p a IH]; simpl.
  - now destruct (floats b).
  - destruct (float p); simpl; [|reflexivity]. rewrite IH.
    destruct (floats a); simpl; [|reflexivity].
    now destruct (floats b).
Qed.

Lemma skipn_nth_error {A} (l : list A) : forall n x,
  nth_error l n = Some x -> skipn n l = x :: skipn (S n) l.
Proof.
  induction l as [|a l IH]; intros [|n] x H; try discriminate.
  - now injection H as ->.
  - simpl in *. now apply IH.
Qed.

Lemma read_orbitals_rows lines iline : forall k a acc orb,
  read_orbitals lines iline (seq a k) acc = Return orb <->
  let rows := firstn k (skipn (a + iline + 1) lines) in
  exists vals,
    length rows = k /\ floats (flat_map PyStr.split rows) = Return vals /\
    orb = acc ++ vals.
Proof.
  induction k as [|k IH]; intros a acc orb; simpl.
  - split.
    + intros [= <-]. exists []. now rewrite app_nil_r.
    + intros (vals & _ & [= <-] & ->). now rewrite app_nil_r.
  - replace (Z.of_nat a + Z.of_nat iline + 1) with (Z.of_nat (a + iline + 1))
      by lia.
    rewrite item_at_nat.
    destruct (nth_error lines (a + iline + 1)) as [line|] eqn:E; simpl.
    + rewrite (skipn_nth_error _ _ _ E). simpl. rewrite floats_app.
      destruct (floats (PyStr.split line)) as [v0|e]; simpl.
      * rewrite (IH (S a) (acc ++ v0) orb). simpl.
        replace (S (a + iline + 1)) with (S (a + iline) + 1)%nat by lia.
        replace (S (a + iline))%nat with (S a + iline)%nat by lia.
        split.
        -- intros (vals & Hlen & Hf & ->). exists (v0 ++ vals).
           rewrite Hf. simpl. rewrite app_assoc. auto.
        -- intros (vals & Hlen & Hf & ->).
           destruct (floats (flat_map PyStr.split _)) as [v1|]; [|discriminate].
           injection Hf as <-. exists v1. rewrite app_assoc. auto.
      * split; [discriminate|]. now intros (vals & _ & Hf & _).
    + split; [discriminate|].
      apply nth_error_None in E. rewrite skipn_all2 by lia.
      rewrite firstn_nil. now intros (vals & Hlen & _).
Qed.

(** C2 (as amended).  When the scan has stored the electron count [ne],
    the energies [orb_energies] were read and both [ne / 2 - 1] and
    [ne / 2] are zero-based positions of that list, which asks for an
    electron count of at least 2: the function returns, with the energy
    at position [ne / 2 - 1] under "HOMO" and the energy at position
    [ne / 2] under "LUMO", the other entries being those of the scan. *)
Theorem homo_lumo_positions
  (open_read_in : str -> str -> option str) (fchk_name path content : str)
  (data : gmap string pyval) (iline : nat) (line t : str) (nbasis : Z)
  (orb_energies : list pyfloat) (ne : Z) :
  open_read_in path fchk_name = Some content ->
  let lines := PyStr.readlines content in
  scan_header lines 0 initial_data 0 = Return (data, iline) ->
  nth_error lines iline = Some line ->
  last_token line = Return t -> PyNum.int t = Some nbasis ->
  read_orbitals lines iline (range (nline nbasis)) [] = Return orb_energies ->
  data !! "Ne" = Some (PInt ne) ->
  0 <= ne / 2 - 1 -> ne / 2 < Z.of_nat (length orb_energies) ->
  exists homo lumo result,
    extract_fchk_data open_read_in fchk_name path = Return result /\
    nth_error orb_energies (Z.to_nat (ne / 2 - 1)) = Some homo /\
    nth_error orb_energies (Z.to_nat (ne / 2)) = Some lumo /\
    result !! "HOMO" = Some (PFloat homo) /\
    result !! "LUMO" = Some (PFloat lumo) /\
    result !! "Ne" = Some (PInt ne) /\
    result !! "Energy" = data !! "Energy".
Proof.
  intros Hopen lines Hscan Hline Htok Hint Horb Hne Hlo Hhi.
  destruct (nth_error orb_energies (Z.to_nat (ne / 2 - 1))) as [homo|] eqn:Eh.
  2: { apply nth_error_None in Eh. lia. }
  destruct (nth_error orb_energies (Z.to_nat (ne / 2))) as [lumo|] eqn:El.
  2: { apply nth_error_None in El. lia. }
  exists homo, lumo,
    (<["LUMO" := PFloat lumo]> (<["HOMO" := PFloat homo]> data)).
  split.
  - unfold extract_fchk_data. rewrite Hopen. simpl. fold lines.
    unfold fchk_of_lines. rewrite Hscan. simpl.
    rewrite item_at_nat, Hline. simpl. rewrite Htok. simpl.
    unfold int. rewrite Hint. simpl. rewrite Horb. simpl.
    unfold half_ne. rewrite Hne. simpl.
    rewrite <- (Z2Nat.id (ne / 2 - 1)) at 1 by lia.
    rewrite item_at_nat, Eh. simpl.
    rewrite lookup_insert_ne by discriminate. rewrite Hne. simpl.
    rewrite <- (Z2Nat.id (ne / 2)) at 1 by lia.
    rewrite item_at_nat, El. reflexivity.
  - repeat split; try reflexivity.
    + rewrite lookup_insert_ne by discriminate. apply lookup_insert_eq.
    + apply lookup_insert_eq.
    + now rewrite !lookup_insert_ne by discriminate.
    + now rewrite !lookup_insert_ne by discriminate.
Qed.

(* ===================================================================== *)
(** ** The surface-analysis report *)
(* ===================================================================== *)

(** *** The function, key by key *)

(** After a case on an outcome: go on with the value it returns. *)
Ltac bind_value := cbn [mbind outcome_bind].

(** A lookup of a key in a dictionary built by insertions. *)
Ltac lookup_key :=
  unfold initial_results;
  repeat (rewrite lookup_insert_ne by discriminate);
  first [apply lookup_insert_eq | reflexivity].

Lemma for_each_cons {A S} (body : S -> A -> outcome S) a l s :
  for_each body (a :: l) s = (s' ← body s a; for_each body l s').
Proof. reflexivity. Qed.

Lemma scalar_step_normal name log_text results d0 kp :
  results !! name = Some (PDict d0) ->
  scalar_step name log_text results kp
  = (d ← scalar_entry log_text d0 kp; Return (<[name := PDict d]> results)).
Proof.
  intros Hr. unfold scalar_step, scalar_entry.
  destruct (Re.search kp.2 log_text) as [m|]; simpl;
    [|now rewrite insert_id].
  destruct (float_group m 1) as [x|]; simpl; [|reflexivity].
  unfold set_nested. now rewrite Hr.
Qed.

Lemma area_step_normal log_text results d0 kp :
  results !! "surface_area" = Some (PDict d0) ->
  area_step log_text results kp
  = (d ← area_entry log_text d0 kp;
     Return (<["surface_area" := PDict d]> results)).
Proof.
  intros Hr. unfold area_step, area_entry.
  destruct (Re.search kp.2 log_text) as [m|]; simpl;
    [|now rewrite insert_id].
  destruct (float_group m 1) as [b|]; simpl; [|reflexivity].
  destruct (float_group m 2) as [a|]; simpl; [|reflexivity].
  unfold set_nested. now rewrite Hr.
Qed.

Lemma scalar_loop_normal name log_text pats : forall results d0,
  results !! name = Some (PDict d0) ->
  for_each (scalar_step name log_text) pats results
  = (d ← for_each (scalar_entry log_text) pats d0;
     Return (<[name := PDict d]> results)).
Proof.
  induction pats as [|kp pats IH]; intros results d0 Hr.
  - simpl. now rewrite insert_id.
  - rewrite !for_each_cons, (scalar_step_normal _ _ _ d0) by exact Hr.
    destruct (scalar_entry log_text d0 kp) as [d1|]; simpl; [|reflexivity].
    rewrite (IH _ d1) by apply lookup_insert_eq.
    destruct (for_each _ pats d1); simpl; [|reflexivity].
    now rewrite insert_insert_eq.
Qed.

Lemma area_loop_normal log_text pats : forall results d0,
  results !! "surface_area" = Some (PDict d0) ->
  for_each (area_step log_text) pats results
  = (d ← for_each (area_entry log_text) pats d0;
     Return (<["surface_area" := PDict d]> results)).
Proof.
  induction pats as [|kp pats IH]; intros results d0 Hr.
  - simpl. now rewrite insert_id.
  - rewrite !for_each_cons, (area_step_normal _ _ d0) by exact Hr.
    destruct (area_entry log_text d0 kp) as [d1|]; simpl; [|reflexivity].
    rewrite (IH _ d1) by apply lookup_insert_eq.
    destruct (for_each _ pats d1); simpl; [|reflexivity].
    now rewrite insert_insert_eq.
Qed.

Lemma volume_step_normal log_text results :
  results !! "volume" = Some (PDict ∅) ->
  volume_step log_text results
  = (v ← volume_value log_text; Return (<["volume" := v]> results)).
Proof.
  intros Hr. unfold volume_step, volume_value.
  destruct (Re.search vol_pattern log_text) as [m|]; simpl;
    [|now rewrite insert_id].
  destruct (float_group m 1); simpl; [|reflexivity].
  now destruct (float_group m 2).
Qed.

Lemma density_step_normal log_text results :
  results !! "density" = Some PNone ->
  density_step log_text results
  = (v ← density_value log_text; Return (<["density" := v]> results)).
Proof.
  intros Hr. unfold density_step, density_value.
  destruct (Re.search density_pattern log_text) as [m|]; simpl;
    [|now rewrite insert_id].
  now destruct (float_group m 1).
Qed.

Lemma esp_range_step_normal log_text results :
  results !! "esp_range" = Some (PDict ∅) ->
  esp_range_step log_text results
  = (v ← esp_range_value log_text; Return (<["esp_range" := v]> results)).
Proof.
  intros Hr. unfold esp_range_step, esp_range_value.
  destruct (Re.search esp_min_pattern log_text) as [lo|]; simpl;
    [|now rewrite insert_id].
  destruct (Re.search esp_max_pattern log_text) as [hi|]; simpl;
    [|now rewrite insert_id].
  destruct (float_group lo 1); simpl; [|reflexivity].
  now destruct (float_group hi 1).
Qed.

Lemma polarity_step_normal log_text results :
  results !! "polarity" = Some (PDict ∅) ->
  polarity_step log_text results
  = (v ← polarity_value log_text; Return (<["polarity" := v]> results)).
Proof.
  intros Hr. unfold polarity_step, polarity_value.
  destruct (Re.search polarity_pattern log_text) as [m|]; simpl;
    [|now rewrite insert_id].
  destruct (float_group m 1); simpl; [|reflexivity].
  destruct (float_group m 2); simpl; [|reflexivity].
  destruct (float_group m 3); simpl; [|reflexivity].
  now destruct (float_group m 4).
Qed.

Lemma minima_step_normal log_text results :
  results !! "minima" = Some PNone ->
  minima_step log_text results
  = (v ← minima_value log_text; Return (<["minima" := v]> results)).
Proof.
  intros Hr. unfold minima_step, minima_value.
  destruct (Re.search minima_pattern log_text) as [m|]; simpl;
    [|now rewrite insert_id].
  destruct (float_group m 1); simpl; [|reflexivity].
  destruct (float_group m 2); simpl; [|reflexivity].
  now destruct (float_group m 3).
Qed.

(** The function computes one value per key, each from its own section. *)
Lemma parse_surface_values log_text :
  parse_multiwfn_surface_analysis log_text = surface_values log_text.
Proof.
  unfold parse_multiwfn_surface_analysis, surface_values, results_of.
  rewrite volume_step_normal by lookup_key.
  destruct (volume_value log_text) as [v1|]; [bind_value|reflexivity].
  rewrite density_step_normal by lookup_key.
  destruct (density_value log_text) as [v2|]; [bind_value|reflexivity].
  rewrite esp_range_step_normal by lookup_key.
  destruct (esp_range_value log_text) as [v3|]; [bind_value|reflexivity].
  rewrite (area_loop_normal _ _ _ ∅) by lookup_key.
  destruct (for_each (area_entry log_text) _ _) as [d4|]; [bind_value|reflexivity].
  rewrite (scalar_loop_normal "esp_stats" _ _ _ ∅) by lookup_key.
  destruct (for_each (scalar_entry log_text) stats_patterns _) as [d5|];
    [bind_value|reflexivity].
  rewrite polarity_step_normal by lookup_key.
  destruct (polarity_value log_text) as [v6|]; [bind_value|reflexivity].
  rewrite (scalar_loop_normal "skewness" _ _ _ ∅) by lookup_key.
  destruct (for_each (scalar_entry log_text) skew_patterns _) as [d7|];
    [bind_value|reflexivity].
  rewrite minima_step_normal by lookup_key.
  now destruct (minima_value log_text).
Qed.

(** *** What each field holds *)

Lemma follows_under (results : gmap string pyval) key v rest pattern i
  log_text :
  results !! key = Some v ->
  follows v rest pattern i log_text ->
  follows (PDict results) (key :: rest) pattern i log_text.
Proof.
  unfold follows, float_at. simpl. intros ->. auto.
Qed.

Lemma scalar_entries_lookup log_text pats :
  List.NoDup (map fst pats) -> forall d0 d,
  for_each (scalar_entry log_text) pats d0 = Return d ->
  (forall key, ~ In key (map fst pats) -> d !! key = d0 !! key) /\
  (forall key pat, In (key, pat) pats ->
     match Re.search pat log_text with
     | Some m => exists x, float_group m 1 = Return x /\
                           d !! key = Some (PFloat x)
     | None => d !! key = d0 !! key
     end).
Proof.
  induction pats as [|[k p] pats IH]; intros Hnd d0 d Hd.
  - injection Hd as <-. split; [reflexivity|contradiction].
  - simpl in Hnd. inversion Hnd as [|? ? Hk Hnd']; subst.
    rewrite for_each_cons in Hd.
    destruct (scalar_entry log_text d0 (k, p)) as [d1|] eqn:E1;
      [|discriminate].
    cbn [mbind outcome_bind] in Hd.
    destruct (IH Hnd' d1 d Hd) as [Hout Hin].
    assert (Hother : forall key, key <> k -> d1 !! key = d0 !! key).
    { intros key Hne. unfold scalar_entry in E1. simpl in E1.
      destruct (Re.search p log_text); [|now injection E1 as <-].
      destruct (float_group _ 1); [|discriminate].
      injection E1 as <-. now rewrite lookup_insert_ne. }
    split.
    + intros key Hkey. simpl in Hkey.
      rewrite Hout by tauto. apply Hother. intros ->. tauto.
    + intros key pat [[= <- <-]|Hrest].
      * rewrite (Hout k Hk). unfold scalar_entry in E1. simpl in E1.
        destruct (Re.search p log_text) as [m|]; [|now injection E1 as <-].
        destruct (float_group m 1) as [x|]; [|discriminate].
        injection E1 as <-. exists x. split; [reflexivity|].
        apply lookup_insert_eq.
      * specialize (Hin key pat Hrest).
        destruct (Re.search pat log_text); [exact Hin|].
        rewrite Hin. apply Hother. intros ->. apply Hk.
        change k with (fst (k, pat)). now apply in_map.
Qed.

Lemma area_entries_lookup log_text pats :
  List.NoDup (map fst pats) -> forall d0 d,
  for_each (area_entry log_text) pats d0 = Return d ->
  (forall key, ~ In key (map fst pats) -> d !! key = d0 !! key) /\
  (forall key pat, In (key, pat) pats ->
     match Re.search pat log_text with
     | Some m =>
         exists b a, float_group m 1 = Return b /\
                     float_group m 2 = Return a /\
                     d !! key = Some (PDict (<["Angstrom^2" := PFloat a]>
                                              (<["Bohr^2" := PFloat b]> ∅)))
     | None => d !! key = d0 !! key
     end).
Proof.
  induction pats as [|[k p] pats IH]; intros Hnd d0 d Hd.
  - injection Hd as <-. split; [reflexivity|contradiction].
  - simpl in Hnd. inversion Hnd as [|? ? Hk Hnd']; subst.
    rewrite for_each_cons in Hd.
    destruct (area_entry log_text d0 (k, p)) as [d1|] eqn:E1;
      [|discriminate].
    cbn [mbind outcome_bind] in Hd.
    destruct (IH Hnd' d1 d Hd) as [Hout Hin].
    assert (Hother : forall key, key <> k -> d1 !! key = d0 !! key).
    { intros key Hne. unfold area_entry in E1. simpl in E1.
      destruct (Re.search p log_text); [|now injection E1 as <-].
      destruct (float_group _ 1); [|discriminate].
      destruct (float_group _ 2); [|discriminate].
      injection E1 as <-. now rewrite lookup_insert_ne. }
    split.
    + intros key Hkey. simpl in Hkey.
      rewrite Hout by tauto. apply Hother. intros ->. tauto.
    + intros key pat [[= <- <-]|Hrest].
      * rewrite (Hout k Hk). unfold area_entry in E1. simpl in E1.
        destruct (Re.search p log_text) as [m|]; [|now injection E1 as <-].
        destruct (float_group m 1) as [b|]; [|discriminate].
        destruct (float_group m 2) as [a|]; [|discriminate].
        injection E1 as <-. exists b, a. repeat split.
        apply lookup_insert_eq.
      * specialize (Hin key pat Hrest).
        destruct (Re.search pat log_text); [exact Hin|].
        rewrite Hin. apply Hother. intros ->. apply Hk.
        change k with (fst (k, pat)). now apply in_map.
Qed.

Lemma scalar_entries_follow log_text pats d :
  List.NoDup (map fst pats) ->
  for_each (scalar_entry log_text) pats ∅ = Return d ->
  forall key pat, In (key, pat) pats ->
    follows (PDict d) [key] pat 1 log_text.
Proof.
  intros Hnd Hd key pat Hin.
  destruct (scalar_entries_lookup _ _ Hnd _ _ Hd) as [_ H].
  specialize (H key pat Hin). unfold follows, float_at. simpl.
  destruct (Re.search pat log_text) as [m|].
  - destruct H as (x & Hx & ->). now exists x.
  - now rewrite H, lookup_empty.
Qed.

Lemma area_entries_follow log_text pats d :
  List.NoDup (map fst pats) ->
  for_each (area_entry log_text) pats ∅ = Return d ->
  forall key pat, In (key, pat) pats ->
    follows (PDict d) [key; "Bohr^2"] pat 1 log_text /\
    follows (PDict d) [key; "Angstrom^2"] pat 2 log_text.
Proof.
  intros Hnd Hd key pat Hin.
  destruct (area_entries_lookup _ _ Hnd _ _ Hd) as [_ H].
  specialize (H key pat Hin). unfold follows, float_at. simpl.
  destruct (Re.search pat log_text) as [m|].
  - destruct H as (b & a & Hb & Ha & ->). split.
    + exists b. split; [exact Hb|].
      rewrite lookup_insert_ne by discriminate.
      now rewrite lookup_insert_eq.
    + exists a. split; [exact Ha|]. now rewrite lookup_insert_eq.
  - now rewrite H, lookup_empty.
Qed.

Lemma keys_distinct :
  List.NoDup (map fst area_patterns) /\ List.NoDup (map fst stats_patterns) /\
  List.NoDup (map fst skew_patterns).
Proof.
  repeat split; simpl;
    repeat (constructor; [simpl; intuition discriminate|]); constructor.
Qed.

Ltac pick_follows :=
  match goal with
  | H : follows ?v ?p ?pat ?i ?t |- follows ?v ?p ?pat ?i ?t => exact H
  end.

Ltac pick_entry :=
  cbn [In]; repeat (first [left; reflexivity | right]).

Lemma results_of_lookup v1 v2 v3 v4 v5 v6 v7 v8 :
  let results := results_of v1 v2 v3 v4 v5 v6 v7 v8 in
  results !! "volume" = Some v1 /\ results !! "density" = Some v2 /\
  results !! "esp_range" = Some v3 /\ results !! "surface_area" = Some v4 /\
  results !! "esp_stats" = Some v5 /\ results !! "polarity" = Some v6 /\
  results !! "skewness" = Some v7 /\ results !! "minima" = Some v8.
Proof. unfold results_of. repeat split; lookup_key. Qed.

Lemma parse_returns_values log_text results :
  parse_multiwfn_surface_analysis log_text = Return results ->
  exists v1 v2 v3 d4 d5 v6 d7 v8,
    volume_value log_text = Return v1 /\
    density_value log_text = Return v2 /\
    esp_range_value log_text = Return v3 /\
    for_each (area_entry log_text) area_patterns ∅ = Return d4 /\
    for_each (scalar_entry log_text) stats_patterns ∅ = Return d5 /\
    polarity_value log_text = Return v6 /\
    for_each (scalar_entry log_text) skew_patterns ∅ = Return d7 /\
    minima_value log_text = Return v8 /\
    results = results_of v1 v2 v3 (PDict d4) (PDict d5) v6 (PDict d7) v8.
Proof.
  rewrite parse_surface_values. unfold surface_values. intros H.
  destruct (volume_value log_text) as [v1|]; [|discriminate].
  destruct (density_value log_text) as [v2|]; [|discriminate].
  destruct (esp_range_value log_text) as [v3|]; [|discriminate].
  destruct (for_each (area_entry log_text) _ _) as [d4|]; [|discriminate].
  destruct (for_each (scalar_entry log_text) stats_patterns _) as [d5|];
    [|discriminate].
  destruct (polarity_value log_text) as [v6|]; [|discriminate].
  destruct (for_each (scalar_entry log_text) skew_patterns _) as [d7|];
    [|discriminate].
  destruct (minima_value log_text) as [v8|]; [|discriminate].
  injection H as <-. exists v1, v2, v3, d4, d5, v6, d7, v8.
  repeat split; reflexivity.
Qed.

Lemma volume_follows log_text v :
  volume_value log_text = Return v ->
  follows v ["Bohr^3"] vol_pattern 1 log_text /\
  follows v ["Angstrom^3"] vol_pattern 2 log_text.
Proof.
  unfold volume_value, follows, float_at.
  destruct (Re.search vol_pattern log_text) as [m|].
  - destruct (float_group m 1) as [b|]; [|discriminate].
    destruct (float_group m 2) as [a|]; [|discriminate].
    intros [= <-]. simpl. split.
    + exists b. rewrite lookup_insert_ne by discriminate.
      now rewrite lookup_insert_eq.
    + exists a. now rewrite lookup_insert_eq.
  - intros [= <-]. simpl. now rewrite lookup_empty.
Qed.

Lemma density_follows log_text v :
  density_value log_text = Return v ->
  follows v [] density_pattern 1 log_text.
Proof.
  unfold density_value, follows, float_at.
  destruct (Re.search density_pattern log_text) as [m|].
  - destruct (float_group m 1) as [d|]; [|discriminate].
    intros [= <-]. now exists d.
  - now intros [= <-].
Qed.

Lemma polarity_follows log_text v :
  polarity_value log_text = Return v ->
  follows v ["nonpolar_area"] polarity_pattern 1 log_text /\
  follows v ["nonpolar_percent"] polarity_pattern 2 log_text /\
  follows v ["polar_area"] polarity_pattern 3 log_text /\
  follows v ["polar_percent"] polarity_pattern 4 log_text.
Proof.
  unfold polarity_value, follows, float_at.
  destruct (Re.search polarity_pattern log_text) as [m|].
  - destruct (float_group m 1) as [x1|]; [|discriminate].
    destruct (float_group m 2) as [x2|]; [|discriminate].
    destruct (float_group m 3) as [x3|]; [|discriminate].
    destruct (float_group m 4) as [x4|]; [|discriminate].
    intros [= <-]. simpl.
    repeat split; eexists; (split; [reflexivity|]);
      repeat (rewrite lookup_insert_ne by discriminate);
      now rewrite lookup_insert_eq.
  - intros [= <-]. simpl. now rewrite lookup_empty.
Qed.

(** C3 (as amended).  In a result of the parser, every field other than
    the two of [esp_range] follows its own pattern alone: it holds the
    float of its group in the first match of that pattern in the whole
    text, and it is missing exactly when that pattern does not match;
    ["minima"] holds the three floats of its pattern, or [None].  The two
    fields of [esp_range] are filled together, when both the pattern of
    the minimum and the pattern of the maximum match, and are both
    missing otherwise. *)
Theorem fields_follow_patterns (log_text : str)
  (results : gmap string pyval) :
  parse_multiwfn_surface_analysis log_text = Return results ->
  (forall path pattern i, In (path, pattern, i) scalar_fields ->
     follows (PDict results) path pattern i log_text) /\
  match Re.search minima_pattern log_text with
  | Some m =>
      exists x y z,
        float_group m 1 = Return x /\ float_group m 2 = Return y /\
        float_group m 3 = Return z /\
        results !! "minima" = Some (PList [PFloat x; PFloat y; PFloat z])
  | None => results !! "minima" = Some PNone
  end /\
  match Re.search esp_min_pattern log_text,
        Re.search esp_max_pattern log_text with
  | Some lo, Some hi =>
      exists x y,
        float_group lo 1 = Return x /\ float_group hi 1 = Return y /\
        float_at (PDict results) ["esp_range"; "min_kcal/mol"] = Some x /\
        float_at (PDict results) ["esp_range"; "max_kcal/mol"] = Some y
  | _, _ =>
      float_at (PDict results) ["esp_range"; "min_kcal/mol"] = None /\
      float_at (PDict results) ["esp_range"; "max_kcal/mol"] = None
  end.
Proof.
  intros H.
  destruct (parse_returns_values _ _ H)
    as (v1 & v2 & v3 & d4 & d5 & v6 & d7 & v8
        & H1 & H2 & H3 & H4 & H5 & H6 & H7 & H8 & ->).
  destruct keys_distinct as (Na & Ns & Nk).
  destruct (volume_follows _ _ H1) as [F1a F1b].
  pose proof (density_follows _ _ H2) as F2.
  pose proof (area_entries_follow _ _ _ Na H4) as F4.
  pose proof (scalar_entries_follow _ _ _ Ns H5) as F5.
  destruct (polarity_follows _ _ H6) as (F6a & F6b & F6c & F6d).
  pose proof (scalar_entries_follow _ _ _ Nk H7) as F7.
  split; [|split].
  - assert (HF : Forall
                   (fun e : list string * string * nat =>
                      follows (PDict (results_of v1 v2 v3 (PDict d4) (PDict d5)
                                        v6 (PDict d7) v8))
                        e.1.1 e.1.2 e.2 log_text)
                   scalar_fields).
    { destruct (results_of_lookup v1 v2 v3 (PDict d4) (PDict d5) v6
                  (PDict d7) v8)
        as (L1 & L2 & L3 & L4 & L5 & L6 & L7 & L8).
      unfold scalar_fields, area_patterns, stats_patterns, skew_patterns.
      cbn [app flat_map map fst snd].
      repeat (constructor;
              [cbn [fst snd];
               (eapply follows_under;
                [first [exact L1|exact L2|exact L4|exact L5|exact L6
                       |exact L7]|]);
               first [ pick_follows
                     | apply F5; pick_entry
                     | apply F7; pick_entry
                     | eapply proj1, F4; pick_entry
                     | eapply proj2, F4; pick_entry ]|]).
      constructor. }
    intros path pattern i Hin. rewrite List.Forall_forall in HF.
    exact (HF (path, pattern, i) Hin).
  - clear - H8. unfold minima_value in H8.
    assert (Hk : results_of v1 v2 v3 (PDict d4) (PDict d5) v6 (PDict d7) v8
                 !! "minima" = Some v8) by (unfold results_of; lookup_key).
    rewrite Hk.
    destruct (Re.search minima_pattern log_text) as [m|].
    + destruct (float_group m 1) as [x|]; [|discriminate].
      destruct (float_group m 2) as [y|]; [|discriminate].
      destruct (float_group m 3) as [z|]; [|discriminate].
      injection H8 as <-. now exists x, y, z.
    + now injection H8 as <-.
  - clear - H3. unfold esp_range_value in H3. unfold float_at.
    cbn [lookup_path].
    assert (Hk : results_of v1 v2 v3 (PDict d4) (PDict d5) v6 (PDict d7) v8
                 !! "esp_range" = Some v3) by (unfold results_of; lookup_key).
    rewrite Hk.
    destruct (Re.search esp_min_pattern log_text) as [lo|];
      [destruct (Re.search esp_max_pattern log_text) as [hi|]|].
    + destruct (float_group lo 1) as [x|]; [|discriminate].
      destruct (float_group hi 1) as [y|]; [|discriminate].
      injection H3 as <-. exists x, y.
      split; [reflexivity|]. split; [reflexivity|]. split.
      * rewrite lookup_insert_ne by discriminate.
        now rewrite lookup_insert_eq.
      * now rewrite lookup_insert_eq.
    + injection H3 as <-. now rewrite lookup_empty.
    + injection H3 as <-. now rewrite lookup_empty.
Qed.

(** *** The groups of a match *)

Lemma greedy_cont {A} a (k : str -> option A) s r :
  Re.greedy a k s = Some r -> exists s', k s' = Some r.
Proof.
  induction s as [|c s IH]; simpl; [eauto|].
  destruct (Re.accepts a c); [|eauto].
  destruct (Re.greedy a k s); [|eauto].
  intros [= <-]. now apply IH.
Qed.

Lemma lazy_cont {A} a (k : str -> option A) s r :
  Re.lazy a k s = Some r -> exists s', k s' = Some r.
Proof.
  induction s as [|c s IH]; simpl.
  - destruct (k []) eqn:E; [|discriminate]. intros [= <-]. eauto.
  - destruct (k (c :: s)) eqn:E; [intros [= <-]; eauto|].
    destruct (Re.accepts a c); [apply IH|discriminate].
Qed.

Lemma quantified_cont {A} a q (k : str -> option A) s r :
  Re.quantified a q k s = Some r -> exists s', k s' = Some r.
Proof.
  destruct q; simpl.
  - unfold Re.one. destruct s as [|c s]; [discriminate|].
    destruct (Re.accepts a c); [eauto|discriminate].
  - unfold Re.one. destruct s as [|c s]; [discriminate|].
    destruct (Re.accepts a c); [apply greedy_cont|discriminate].
  - apply lazy_cont.
Qed.

Lemma match_here_count p : forall opened caps s m,
  Re.match_here p opened caps s = Some m ->
  length m = (length caps + count_close p)%nat.
Proof.
  induction p as [|[a q| |] p IH]; intros opened caps s m; simpl.
  - intros [= <-]. lia.
  - intros H. apply quantified_cont in H as [s' H]. now apply IH in H.
  - apply IH.
  - intros H. apply IH in H. rewrite length_app in H. simpl in H. lia.
Qed.

Lemma search_items_count p s m :
  Re.search_items p s = Some m -> length m = count_close p.
Proof.
  induction s as [|c s IH]; simpl;
    destruct (Re.match_here p [] [] _) eqn:E; try discriminate.
  - intros [= <-]. now apply match_here_count in E.
  - intros [= <-]. now apply match_here_count in E.
  - exact IH.
Qed.

Lemma search_count pattern log_text m :
  Re.search pattern log_text = Some m -> length m = group_count pattern.
Proof.
  unfold Re.search, group_count.
  destruct (Re.compile pattern); [apply search_items_count|discriminate].
Qed.

(** *** The keys of the result *)

Lemma float_group_ok log_text pattern m i :
  captures_are_floats log_text ->
  In pattern all_patterns -> Re.search pattern log_text = Some m ->
  (1 <= i <= group_count pattern)%nat ->
  exists x, float_group m i = Return x.
Proof.
  intros Hf Hin Hm Hi. pose proof (search_count _ _ _ Hm) as Hlen.
  unfold float_group, group, Re.group.
  destruct (nth_error m (i - 1)) as [g|] eqn:Eg.
  2: { apply nth_error_None in Eg. lia. }
  simpl. unfold float.
  pose proof (Hf pattern m g Hin Hm (nth_error_In _ _ Eg)) as Hg.
  destruct (PyNum.float_syntax g); [simpl; eauto|contradiction].
Qed.

Lemma scalar_entry_return log_text kp d0 :
  captures_are_floats log_text ->
  In kp.2 all_patterns -> (1 <= group_count kp.2)%nat ->
  exists d, scalar_entry log_text d0 kp = Return d.
Proof.
  intros Hf Hin Hc. unfold scalar_entry.
  destruct (Re.search kp.2 log_text) as [m|] eqn:Em; [|eauto].
  destruct (float_group_ok _ _ m 1 Hf Hin Em ltac:(lia)) as [x ->].
  simpl. eauto.
Qed.

Lemma area_entry_return log_text kp d0 :
  captures_are_floats log_text ->
  In kp.2 all_patterns -> (2 <= group_count kp.2)%nat ->
  exists d, area_entry log_text d0 kp = Return d.
Proof.
  intros Hf Hin Hc. unfold area_entry.
  destruct (Re.search kp.2 log_text) as [m|] eqn:Em; [|eauto].
  destruct (float_group_ok _ _ m 1 Hf Hin Em ltac:(lia)) as [b ->].
  destruct (float_group_ok _ _ m 2 Hf Hin Em ltac:(lia)) as [a ->].
  simpl. eauto.
Qed.

Lemma scalar_entries_return log_text pats :
  captures_are_floats log_text ->
  (forall kp, In kp pats ->
     In kp.2 all_patterns /\ (1 <= group_count kp.2)%nat) ->
  forall d0, exists d, for_each (scalar_entry log_text) pats d0 = Return d.
Proof.
  intros Hf. induction pats as [|kp pats IH]; intros Hp d0; [simpl; eauto|].
  rewrite for_each_cons.
  destruct (Hp kp (or_introl eq_refl)) as [Hin Hc].
  destruct (scalar_entry_return _ kp d0 Hf Hin Hc) as [d1 ->].
  cbn [mbind outcome_bind]. apply IH. intros kp' H'. apply Hp. now right.
Qed.

Lemma area_entries_return log_text pats :
  captures_are_floats log_text ->
  (forall kp, In kp pats ->
     In kp.2 all_patterns /\ (2 <= group_count kp.2)%nat) ->
  forall d0, exists d, for_each (area_entry log_text) pats d0 = Return d.
Proof.
  intros Hf. induction pats as [|kp pats IH]; intros Hp d0; [simpl; eauto|].
  rewrite for_each_cons.
  destruct (Hp kp (or_introl eq_refl)) as [Hin Hc].
  destruct (area_entry_return _ kp d0 Hf Hin Hc) as [d1 ->].
  cbn [mbind outcome_bind]. apply IH. intros kp' H'. apply Hp. now right.
Qed.

Lemma scalar_entries_unmatched log_text pats d0 :
  unmatched pats log_text ->
  for_each (scalar_entry log_text) pats d0 = Return d0.
Proof.
  induction pats as [|kp pats IH]; intros Hu; [reflexivity|].
  rewrite for_each_cons.
  assert (E : scalar_entry log_text d0 kp = Return d0).
  { unfold scalar_entry. now rewrite (Hu kp) by now left. }
  rewrite E. apply IH. intros kp' H'. apply Hu. now right.
Qed.

Lemma area_entries_unmatched log_text pats d0 :
  unmatched pats log_text ->
  for_each (area_entry log_text) pats d0 = Return d0.
Proof.
  induction pats as [|kp pats IH]; intros Hu; [reflexivity|].
  rewrite for_each_cons.
  assert (E : area_entry log_text d0 kp = Return d0).
  { unfold area_entry. now rewrite (Hu kp) by now left. }
  rewrite E. apply IH. intros kp' H'. apply Hu. now right.
Qed.

Lemma group_counts :
  group_count vol_pattern = 2%nat /\ group_count density_pattern = 1%nat /\
  group_count esp_min_pattern = 1%nat /\
  group_count esp_max_pattern = 1%nat /\
  group_count polarity_pattern = 4%nat /\
  group_count minima_pattern = 3%nat /\
  forallb (fun kp : string * string => Nat.eqb (group_count kp.2) 2)
    area_patterns = true /\
  forallb (fun kp : string * string => Nat.eqb (group_count kp.2) 1)
    (stats_patterns ++ skew_patterns) = true.
Proof. vm_compute. repeat split. Qed.

Lemma loop_patterns_known pats :
  (forall p, In p (map snd pats) -> In p all_patterns) ->
  forall n,
  forallb (fun kp : string * string => Nat.eqb (group_count kp.2) n) pats
  = true ->
  forall kp, In kp pats -> In kp.2 all_patterns /\ (n <= group_count kp.2)%nat.
Proof.
  intros Hall n Hn kp Hkp. split.
  - apply Hall. now apply in_map.
  - rewrite forallb_forall in Hn. specialize (Hn kp Hkp).
    apply Nat.eqb_eq in Hn. lia.
Qed.

Lemma result_dom v1 v2 v3 v4 v5 v6 v7 v8 :
  dom (results_of v1 v2 v3 v4 v5 v6 v7 v8) = result_keys.
Proof.
  unfold results_of, initial_results, result_keys.
  rewrite !dom_insert_L, dom_empty_L. set_solver.
Qed.

Ltac known_pattern :=
  unfold all_patterns; rewrite !in_app_iff; cbn [In]; tauto.

(** Group [i] of the match [m] of a pattern of the function is a
    float [x]. *)
Ltac captured Hg pattern m i E x :=
  destruct (Hg pattern m i ltac:(known_pattern) E ltac:(lia)) as [x ->].

Lemma values_return log_text :
  captures_are_floats log_text ->
  (exists v, volume_value log_text = Return v) /\
  (exists v, density_value log_text = Return v) /\
  (exists v, esp_range_value log_text = Return v) /\
  (exists v, polarity_value log_text = Return v) /\
  (exists v, minima_value log_text = Return v).
Proof.
  intros Hf.
  destruct group_counts as (Gv & Gd & Glo & Ghi & Gp & Gm & _).
  assert (Hg : forall pattern m i,
             In pattern all_patterns ->
             Re.search pattern log_text = Some m ->
             (1 <= i <= group_count pattern)%nat ->
             exists x, float_group m i = Return x)
    by (intros; now apply (float_group_ok log_text pattern)).
  repeat split.
  - unfold volume_value.
    destruct (Re.search vol_pattern log_text) as [m|] eqn:E; [|eauto].
    captured Hg vol_pattern m 1%nat E b.
    captured Hg vol_pattern m 2%nat E a.
    simpl. eauto.
  - unfold density_value.
    destruct (Re.search density_pattern log_text) as [m|] eqn:E; [|eauto].
    captured Hg density_pattern m 1%nat E d.
    simpl. eauto.
  - unfold esp_range_value.
    destruct (Re.search esp_min_pattern log_text) as [lo|] eqn:E1; [|eauto].
    destruct (Re.search esp_max_pattern log_text) as [hi|] eqn:E2; [|eauto].
    captured Hg esp_min_pattern lo 1%nat E1 x.
    captured Hg esp_max_pattern hi 1%nat E2 y.
    simpl. eauto.
  - unfold polarity_value.
    destruct (Re.search polarity_pattern log_text) as [m|] eqn:E; [|eauto].
    captured Hg polarity_pattern m 1%nat E x1.
    captured Hg polarity_pattern m 2%nat E x2.
    captured Hg polarity_pattern m 3%nat E x3.
    captured Hg polarity_pattern m 4%nat E x4.
    simpl. eauto.
  - unfold minima_value.
    destruct (Re.search minima_pattern log_text) as [m|] eqn:E; [|eauto].
    captured Hg minima_pattern m 1%nat E x.
    captured Hg minima_pattern m 2%nat E y.
    captured Hg minima_pattern m 3%nat E z.
    simpl. eauto.
Qed.

(** C9 (as amended).  Whenever the parser returns, and it does as soon
    as every group captured by one of its patterns is a float literal,
    the result has exactly the eight keys of the initial dictionary; a
    group none of whose patterns matched (for [esp_range]: whose two
    patterns did not both match) is still there as an empty dictionary,
    and ["density"] and ["minima"] as [None]. *)
Theorem result_has_eight_keys (log_text : str) :
  (captures_are_floats log_text ->
   returns (parse_multiwfn_surface_analysis log_text) = true) /\
  forall results,
    parse_multiwfn_surface_analysis log_text = Return results ->
    dom results = result_keys /\
    (Re.search vol_pattern log_text = None ->
     results !! "volume" = Some (PDict ∅)) /\
    (Re.search density_pattern log_text = None ->
     results !! "density" = Some PNone) /\
    (Re.search esp_min_pattern log_text = None \/
     Re.search esp_max_pattern log_text = None ->
     results !! "esp_range" = Some (PDict ∅)) /\
    (unmatched area_patterns log_text ->
     results !! "surface_area" = Some (PDict ∅)) /\
    (unmatched stats_patterns log_text ->
     results !! "esp_stats" = Some (PDict ∅)) /\
    (Re.search polarity_pattern log_text = None ->
     results !! "polarity" = Some (PDict ∅)) /\
    (unmatched skew_patterns log_text ->
     results !! "skewness" = Some (PDict ∅)) /\
    (Re.search minima_pattern log_text = None ->
     results !! "minima" = Some PNone).
Proof.
  split.
  - intros Hf. rewrite parse_surface_values. unfold surface_values.
    destruct (values_return _ Hf)
      as ([v1 ->] & [v2 ->] & [v3 ->] & [v6 E6] & [v8 E8]).
    destruct group_counts as (_ & _ & _ & _ & _ & _ & Ga & Gs).
    rewrite forallb_app in Gs. apply andb_prop in Gs as [Gs Gk].
    cbn [mbind outcome_bind].
    destruct (area_entries_return log_text area_patterns Hf
                (loop_patterns_known area_patterns ltac:(intros; known_pattern)
                   _ Ga) ∅)
      as [d4 ->].
    destruct (scalar_entries_return log_text stats_patterns Hf
                (loop_patterns_known stats_patterns ltac:(intros; known_pattern)
                   _ Gs) ∅)
      as [d5 ->].
    destruct (scalar_entries_return log_text skew_patterns Hf
                (loop_patterns_known skew_patterns ltac:(intros; known_pattern)
                   _ Gk) ∅)
      as [d7 ->].
    cbn [mbind outcome_bind]. rewrite E6. cbn [mbind outcome_bind].
    now rewrite E8.
  - intros results H.
    destruct (parse_returns_values _ _ H)
      as (v1 & v2 & v3 & d4 & d5 & v6 & d7 & v8
          & H1 & H2 & H3 & H4 & H5 & H6 & H7 & H8 & ->).
    split; [apply result_dom|].
    repeat split.
    + intros E. unfold volume_value in H1. rewrite E in H1.
      injection H1 as <-. unfold results_of. lookup_key.
    + intros E. unfold density_value in H2. rewrite E in H2.
      injection H2 as <-. unfold results_of. lookup_key.
    + intros E. unfold esp_range_value in H3.
      assert (v3 = PDict ∅) as ->.
      { destruct E as [E|E]; rewrite E in H3;
          [|destruct (Re.search esp_min_pattern log_text)];
          now injection H3 as <-. }
      unfold results_of. lookup_key.
    + intros E. rewrite (area_entries_unmatched _ _ _ E) in H4.
      injection H4 as <-. unfold results_of. lookup_key.
    + intros E. rewrite (scalar_entries_unmatched _ _ _ E) in H5.
      injection H5 as <-. unfold results_of. lookup_key.
    + intros E. unfold polarity_value in H6. rewrite E in H6.
      injection H6 as <-. unfold results_of. lookup_key.
    + intros E. rewrite (scalar_entries_unmatched _ _ _ E) in H7.
      injection H7 as <-. unfold results_of. lookup_key.
    + intros E. unfold minima_value in H8. rewrite E in H8.
      injection H8 as <-. unfold results_of. lookup_key.
Qed.

(* ===================================================================== *)
(** ** Further properties of the coordinate listing *)
(* ===================================================================== *)

Lemma split_cons c s :
  PyStr.split (c :: s)
  = if Char.isspace c then PyStr.split s
    else match s with
         | [] => [[c]]
         | c' :: _ =>
             if Char.isspace c' then [c] :: PyStr.split s
             else match PyStr.split s with
                  | w :: ws => (c :: w) :: ws
                  | [] => [[c]]
                  end
         end.
Proof. reflexivity. Qed.

(** The fields of a line are non-empty and free of whitespace. *)
Lemma split_tokens s :
  Forall (fun w => w <> [] /\ solid w) (PyStr.split s).
Proof.
  induction s as [|c s IH]; [constructor|].
  rewrite split_cons. destruct (Char.isspace c) eqn:Ec; [exact IH|].
  assert (Hc : [c] <> [] /\ solid [c]).
  { split; [discriminate|]. now repeat constructor. }
  destruct s as [|c' s']; [now repeat constructor|].
  destruct (Char.isspace c'); [now constructor|].
  destruct (PyStr.split (c' :: s')) as [|w ws]; [now repeat constructor|].
  inversion IH as [|? ? [_ Hw] Hws]; subst.
  constructor; [|exact Hws]. split; [discriminate|]. now constructor.
Qed.

Lemma solid_split w : solid w -> w <> [] -> PyStr.split w = [w].
Proof.
  induction 1 as [|c w Hc Hw IH]; intros Hne; [contradiction|].
  rewrite split_cons, Hc. destruct w as [|c' w']; [reflexivity|].
  inversion Hw as [|? ? Hc' _]; subst. rewrite Hc'.
  now rewrite IH by discriminate.
Qed.

Lemma floats_length parts : forall vals,
  floats parts = Return vals -> length vals = length parts.
Proof.
  induction parts as [|p ps IH]; simpl; intros vals.
  - now intros [= <-].
  - destruct (float p); simpl; [|discriminate].
    destruct (floats ps) as [xs|]; simpl; [|discriminate].
    intros [= <-]. simpl. f_equal. now apply IH.
Qed.

Lemma line_atoms_shape line a :
  In a (line_atoms line) -> a.1 <> [] /\ solid a.1 /\ length a.2 = 3%nat.
Proof.
  unfold line_atoms. pose proof (split_tokens line) as Ht.
  destruct (PyStr.split line) as [|f0 [|f1 [|f2 [|f3 more]]]];
    try contradiction.
  destruct (floats [f1; f2; f3]) as [coords|] eqn:E; [|contradiction].
  intros [<-|[]]. inversion Ht as [|? ? [Hne Hs] _]; subst.
  simpl. split; [exact Hne|]. split; [exact Hs|].
  exact (floats_length _ _ E).
Qed.

(** The result of the parser: the atoms of the lines that follow the
    header, if the first line is one. *)
Lemma parse_xyz_flat content :
  exists k,
    parse_xyz_content content
    = Return (flat_map line_atoms
                (skipn k (PyStr.split_char Char.newline
                            (PyStr.strip content)))).
Proof.
  unfold parse_xyz_content.
  destruct (PyStr.split_char Char.newline (PyStr.strip content))
    as [|first rest] eqn:E.
  { now apply split_char_not_nil in E. }
  change (0 <? length (first :: rest))%nat with true. cbv iota.
  change 0 with (Z.of_nat 0). rewrite item_at_nat.
  cbn [nth_error orelse mbind outcome_bind].
  destruct (PyStr.isdigit first).
  - exists 2%nat. change 2 with (Z.of_nat 2).
    now rewrite slice_from_nat, xyz_loop.
  - exists 0%nat. change 0 with (Z.of_nat 0).
    now rewrite slice_from_nat, xyz_loop.
Qed.

Lemma parse_atoms_shape (content : str) (atoms : list xyz_atom) :
  parse_xyz_content content = Return atoms ->
  Forall (fun a : xyz_atom =>
            a.1 <> [] /\ solid a.1 /\ length a.2 = 3%nat) atoms.
Proof.
  destruct (parse_xyz_flat content) as [k ->]. intros [= <-].
  apply List.Forall_forall. intros a Ha.
  apply in_flat_map in Ha as (line & _ & Ha).
  now apply (line_atoms_shape line).
Qed.

(** X1.  [parse_xyz_content] never raises: on every text it returns a
    list of atoms, each with a non-empty symbol without whitespace and
    exactly three coordinates. *)
Theorem xyz_atoms_shape (content : str) :
  exists atoms,
    parse_xyz_content content = Return atoms /\
    Forall (fun a : xyz_atom =>
              a.1 <> [] /\ solid a.1 /\ length a.2 = 3%nat) atoms.
Proof.
  destruct (parse_xyz_flat content) as [k Hk]. eexists.
  split; [exact Hk|].
  apply List.Forall_forall. intros a Ha.
  apply in_flat_map in Ha as (line & _ & Ha).
  now apply (line_atoms_shape line).
Qed.

Lemma rstrip_app_blank x y :
  blank y -> PyStr.rstrip (x ++ y) = PyStr.rstrip x.
Proof.
  intros Hy. induction x as [|c x IH]; simpl.
  - now apply rstrip_blank.
  - now rewrite IH.
Qed.

Lemma rstrip_cons c s :
  PyStr.rstrip (c :: s)
  = match PyStr.rstrip s with
    | [] => if Char.isspace c then [] else [c]
    | r => c :: r
    end.
Proof. reflexivity. Qed.

(** A text is its right-stripped text followed by whitespace. *)
Lemma rstrip_decompose s :
  exists ws, blank ws /\ s = PyStr.rstrip s ++ ws.
Proof.
  induction s as [|c s (ws & Hws & Hs)];
    [exists []; split; [constructor|reflexivity]|]. simpl.
  destruct (PyStr.rstrip s) as [|c' r] eqn:E.
  - destruct (Char.isspace c) eqn:Ec.
    + exists (c :: s). split; [|reflexivity].
      constructor; [exact Ec|now apply rstrip_nil_blank].
    + exists ws. split; [exact Hws|]. simpl. now rewrite Hs at 1.
  - exists ws. split; [exact Hws|]. simpl. now rewrite Hs at 1.
Qed.

Lemma rstrip_solid x : solid x -> PyStr.rstrip x = x.
Proof.
  intros H. rewrite <- (app_nil_r x) at 1.
  rewrite rstrip_app_solid by exact H. apply app_nil_r.
Qed.

Lemma rstrip_one_line s : one_line s -> one_line (PyStr.rstrip s).
Proof.
  intros H Hin. apply H. destruct (rstrip_decompose s) as (ws & _ & ->).
  apply in_or_app. now left.
Qed.

Lemma split_char_one_line l :
  one_line l -> PyStr.split_char Char.newline l = [l].
Proof.
  intros H. rewrite <- (app_nil_r l) at 1.
  rewrite split_char_app by exact H. simpl. now rewrite app_nil_r.
Qed.

(** Splitting the joined lines gives the lines back. *)
Lemma split_join lines :
  Forall one_line lines -> lines <> [] ->
  PyStr.split_char Char.newline (join_lines lines) = lines.
Proof.
  induction 1 as [|l [|l2 ls] Hl Hls IH]; intros Hne; [contradiction| |].
  - now apply split_char_one_line.
  - change (join_lines (l :: l2 :: ls))
      with (l ++ Char.newline :: join_lines (l2 :: ls)).
    rewrite split_char_app, split_char_sep, IH by (assumption || discriminate).
    simpl. now rewrite app_nil_r.
Qed.

Lemma digit_solid c : Char.isdigit c = true -> Char.isspace c = false.
Proof. destruct c as [[] [] [] [] [] [] [] []]; vm_compute; congruence. Qed.

Lemma isdigit_solid s : PyStr.isdigit s = true -> solid s /\ s <> [].
Proof.
  destruct s as [|c s]; [discriminate|]. unfold PyStr.isdigit.
  intros H. split; [|discriminate].
  apply List.Forall_forall. intros x Hx. apply digit_solid.
  rewrite forallb_forall in H. now apply H.
Qed.

(** A line of digits alone stands for no atom. *)
Lemma line_atoms_digits l : PyStr.isdigit l = true -> line_atoms l = [].
Proof.
  intros H. apply isdigit_solid in H as [Hs Hne].
  unfold line_atoms. now rewrite solid_split.
Qed.

(** The first line of the stripped text: that of the text, or its
    right-stripped form when all the other lines are blank. *)
Lemma first_line_rstrip l ls :
  Forall one_line (l :: ls) ->
  exists rest,
    PyStr.split_char Char.newline (PyStr.rstrip (join_lines (l :: ls)))
    = (if PyStr.eqb (PyStr.rstrip (join_lines ls)) []
       then PyStr.rstrip l else l) :: rest /\
    (PyStr.rstrip (join_lines ls) = [] -> Forall blank ls).
Proof.
  intros HF. inversion HF as [|? ? Hl Hls]; subst.
  destruct ls as [|l2 ls'].
  - simpl join_lines. exists []. split; [|constructor].
    now rewrite split_char_one_line by now apply rstrip_one_line.
  - change (join_lines (l :: l2 :: ls'))
      with (l ++ Char.newline :: join_lines (l2 :: ls')).
    destruct (PyStr.rstrip (join_lines (l2 :: ls'))) as [|c r] eqn:E.
    + exists []. split.
      * rewrite rstrip_app_blank.
        -- now rewrite split_char_one_line by now apply rstrip_one_line.
        -- constructor; [reflexivity|now apply rstrip_nil_blank].
      * intros _. rewrite <- (split_join (l2 :: ls')) by (assumption || discriminate).
        now apply split_char_blank, rstrip_nil_blank.
    + assert (Hr : PyStr.rstrip (Char.newline :: join_lines (l2 :: ls'))
                   = Char.newline :: c :: r)
        by (rewrite rstrip_cons; now rewrite E).
      rewrite rstrip_app_keep, Hr by (rewrite Hr; discriminate).
      rewrite split_char_app, split_char_sep by exact Hl.
      simpl. rewrite app_nil_r. eexists. split; [reflexivity|discriminate].
Qed.

Lemma parse_lines_flat (lead : str) (c : ascii) (l0 : str)
  (ls : list str) :
  blank lead -> Char.isspace c = false ->
  Forall one_line ((c :: l0) :: ls) ->
  parse_xyz_content (lead ++ join_lines ((c :: l0) :: ls))
  = Return (flat_map line_atoms
              (skipn (if PyStr.isdigit (c :: l0) then 2 else 0)
                     ((c :: l0) :: ls))).
Proof.
  intros Hlead Hc HF.
  set (lines := (c :: l0) :: ls) in *.
  set (s := join_lines lines).
  assert (Hs : exists t, s = c :: t).
  { subst s lines. destruct ls; simpl; eauto. }
  destruct Hs as [t Hs].
  assert (Hr : exists r, PyStr.rstrip s = c :: r).
  { rewrite Hs. simpl. destruct (PyStr.rstrip t); [rewrite Hc|]; eauto. }
  destruct Hr as [r Hr].
  assert (Hstrip : PyStr.strip (lead ++ s) = PyStr.rstrip s).
  { unfold PyStr.strip. rewrite rstrip_app_keep by (rewrite Hr; discriminate).
    rewrite lstrip_blank_app by exact Hlead. rewrite Hr. simpl.
    now rewrite Hc. }
  unfold parse_xyz_content. rewrite Hstrip.
  destruct (first_line_rstrip (c :: l0) ls HF) as (rest & Hfirst & Hblank).
  fold lines in Hfirst. fold s in Hfirst.
  pose proof (fun k => rstrip_atoms s k []) as Hatoms.
  unfold atoms_after in Hatoms.
  rewrite Hfirst in *. simpl prepend in Hatoms.
  assert (Hsplit : PyStr.split_char Char.newline s = lines)
    by (apply split_join; [exact HF|discriminate]).
  rewrite Hsplit in Hatoms. simpl prepend in Hatoms.
  set (first := if PyStr.eqb (PyStr.rstrip (join_lines ls)) []
                then PyStr.rstrip (c :: l0) else c :: l0) in *.
  change (0 <? length (first :: rest))%nat with true. cbv iota.
  change 0 with (Z.of_nat 0). rewrite item_at_nat.
  cbn [nth_error orelse mbind outcome_bind].
  assert (Hgo : forall k : nat,
             for_each xyz_line (PySeq.slice_from (first :: rest) (Z.of_nat k)) []
             = Return (flat_map line_atoms (skipn k lines))).
  { intros k. rewrite slice_from_nat, xyz_loop. simpl app.
    now rewrite Hatoms. }
  destruct (PyStr.isdigit first) eqn:Ef; destruct (PyStr.isdigit (c :: l0)) eqn:El;
    first [exact (Hgo 2%nat) | exact (Hgo 0%nat) | idtac].
  - (* the stripped first line is made of digits, the line is not *)
    transitivity (Return (flat_map line_atoms (skipn 2 lines)));
      [exact (Hgo 2%nat)|].
    f_equal. subst first.
    destruct (PyStr.rstrip (join_lines ls)) eqn:E; simpl PyStr.eqb in Ef;
      [|congruence].
    specialize (Hblank eq_refl). subst lines. simpl.
    rewrite (flat_map_blank ls Hblank), app_nil_r.
    destruct (rstrip_decompose (c :: l0)) as (ws & Hws & Hl).
    rewrite Hl. rewrite line_atoms_app_blank by exact Hws.
    rewrite (line_atoms_digits _ Ef).
    destruct ls; [reflexivity|]. inversion Hblank; subst.
    simpl. now apply flat_map_blank.
  - (* the line is made of digits: stripping leaves it as it is *)
    exfalso. subst first. destruct (isdigit_solid _ El) as [Hsolid _].
    rewrite (rstrip_solid _ Hsolid) in Ef.
    destruct (PyStr.eqb _ _); congruence.
Qed.

Lemma parse_blank content :
  blank content -> parse_xyz_content content = Return [].
Proof.
  intros H. unfold parse_xyz_content, PyStr.strip.
  now rewrite (rstrip_blank _ H).
Qed.

(** X2.  On a blank text [parse_xyz_content] returns no atom.  On blank
    text followed by lines of which the first one starts with a character
    that is no whitespace, it returns the atoms of the lines in order,
    leaving out the first two lines when the first line is made of digits
    and no line otherwise: the second line is then dropped unread, the
    count is never compared with the atoms, and ill-formed lines are
    passed over. *)
Theorem parse_xyz_lines (lead : str) (c : ascii) (l0 : str)
  (ls : list str) :
  blank lead ->
  parse_xyz_content lead = Return [] /\
  (Char.isspace c = false -> Forall one_line ((c :: l0) :: ls) ->
   parse_xyz_content (lead ++ join_lines ((c :: l0) :: ls))
   = Return (flat_map line_atoms
               (skipn (if PyStr.isdigit (c :: l0) then 2 else 0)
                      ((c :: l0) :: ls)))).
Proof.
  intros Hlead. split.
  - now apply parse_blank.
  - intros Hc HF. now apply parse_lines_flat.
Qed.

(* ===================================================================== *)
(** ** The input deck *)
(* ===================================================================== *)

Lemma atom_lines_loop fixed6 atoms : forall input_string,
  Forall (fun a : xyz_atom => length a.2 = 3%nat) atoms ->
  for_each (atom_line fixed6) atoms input_string
  = Return (input_string ++ flat_map (coordinate_line fixed6) atoms).
Proof.
  induction atoms as [|a atoms IH]; intros acc HF.
  - simpl. now rewrite app_nil_r.
  - inversion HF as [|? ? Ha HF']; subst. rewrite for_each_cons.
    assert (E : atom_line fixed6 acc a
                = Return (acc ++ coordinate_line fixed6 a)).
    { unfold atom_line, coordinate_line.
      now destruct (a.2) as [|x [|y [|z [|]]]]. }
    rewrite E. cbn [mbind outcome_bind]. rewrite IH by exact HF'.
    cbn [flat_map]. now rewrite app_assoc.
Qed.

Lemma str_of_int_long (n : Z) :
  PyNum.str_of_int n = None -> long_int n.
Proof.
  unfold long_int, PyNum.str_of_int.
  destruct (Z.leb_spec (Z.of_nat (length (PyNum.decimal_digits (Z.abs_N n))))
              PyNum.max_str_digits); [discriminate|lia].
Qed.

Lemma str_of_int_short (n : Z) (text : str) :
  PyNum.str_of_int n = Some text -> ~ long_int n.
Proof.
  unfold long_int, PyNum.str_of_int.
  destruct (Z.leb_spec (Z.of_nat (length (PyNum.decimal_digits (Z.abs_N n))))
              PyNum.max_str_digits); [lia|discriminate].
Qed.

(** The deck, once the atoms and the texts of the three integers are
    known. *)
Lemma deck_written (fixed6 : pyfloat -> str)
  (xyz_string jobname method basis mem : str)
  (nproc charge multiplicity : Z) (title : str)
  (a : xyz_atom) (atoms : list xyz_atom)
  (nproc_text charge_text multiplicity_text : str) :
  parse_xyz_content xyz_string = Return (a :: atoms) ->
  PyNum.str_of_int nproc = Some nproc_text ->
  PyNum.str_of_int charge = Some charge_text ->
  PyNum.str_of_int multiplicity = Some multiplicity_text ->
  xyz_to_gaussian_opt fixed6 xyz_string jobname method basis mem nproc
    charge multiplicity title
  = Return (lit "%chk=" ++ PyStr.strip jobname ++ lit ".chk"
            ++ [Char.newline]
            ++ lit "%mem=" ++ mem ++ [Char.newline]
            ++ lit "%nprocshared=" ++ nproc_text
            ++ [Char.newline; Char.newline]
            ++ lit "# opt " ++ method ++ lit "/" ++ basis
            ++ [Char.newline; Char.newline]
            ++ clean_title title ++ [Char.newline; Char.newline]
            ++ charge_text ++ lit " " ++ multiplicity_text
            ++ [Char.newline]
            ++ flat_map (coordinate_line fixed6) (a :: atoms)
            ++ [Char.newline; Char.newline; Char.newline]).
Proof.
  intros Hparse Hn Hc Hm. unfold xyz_to_gaussian_opt. rewrite Hparse.
  cbn [mbind outcome_bind]. unfold opt_preamble, format_int.
  rewrite Hn, Hc, Hm. cbn [orelse mbind outcome_bind].
  rewrite atom_lines_loop.
  - cbn [mbind outcome_bind app]. f_equal.
    repeat rewrite <- app_assoc. reflexivity.
  - eapply Forall_impl; [exact (parse_atoms_shape _ _ Hparse)|].
    now intros ? (_ & _ & ?).
Qed.

(** X3.  [xyz_to_gaussian_opt] raises [ValueError] exactly when the
    listing holds no atom or one of the three integers has more than 4300
    digits, and returns the deck in every other case. *)
Theorem deck_needs_an_atom (fixed6 : pyfloat -> str)
  (xyz_string jobname method basis mem : str)
  (nproc charge multiplicity : Z) (title : str) :
  let deck :=
    xyz_to_gaussian_opt fixed6 xyz_string jobname method basis mem nproc
      charge multiplicity title in
  (deck = Raise ValueError <->
   parse_xyz_content xyz_string = Return [] \/
   long_int nproc \/ long_int charge \/ long_int multiplicity) /\
  (returns deck = false -> deck = Raise ValueError).
Proof.
  intros deck.
  assert (Hcases :
            (deck = Raise ValueError /\
             (parse_xyz_content xyz_string = Return [] \/
              long_int nproc \/ long_int charge \/ long_int multiplicity))
            \/
            (returns deck = true /\
             parse_xyz_content xyz_string <> Return [] /\
             ~ long_int nproc /\ ~ long_int charge /\
             ~ long_int multiplicity)).
  { subst deck.
    pose proof (parse_xyz_returns xyz_string) as Hret.
    destruct (parse_xyz_content xyz_string) as [[|a atoms]|] eqn:Hparse;
      [|clear Hret|discriminate].
    { left. unfold xyz_to_gaussian_opt. rewrite Hparse. auto. }
    destruct (PyNum.str_of_int nproc) as [np|] eqn:Hn.
    2: { left. split; [|right; left].
         - unfold xyz_to_gaussian_opt, opt_preamble, format_int.
           rewrite Hparse, Hn. reflexivity.
         - now apply str_of_int_long. }
    destruct (PyNum.str_of_int charge) as [ch|] eqn:Hc.
    2: { left. split; [|right; right; left].
         - unfold xyz_to_gaussian_opt, opt_preamble, format_int.
           rewrite Hparse, Hn, Hc. reflexivity.
         - now apply str_of_int_long. }
    destruct (PyNum.str_of_int multiplicity) as [mu|] eqn:Hm.
    2: { left. split; [|right; right; right].
         - unfold xyz_to_gaussian_opt, opt_preamble, format_int.
           rewrite Hparse, Hn, Hc, Hm. reflexivity.
         - now apply str_of_int_long. }
    right.
    rewrite (deck_written fixed6 _ jobname method basis mem _ _ _ title
               _ _ _ _ _ Hparse Hn Hc Hm).
    split; [reflexivity|]. split; [discriminate|].
    repeat split; eapply str_of_int_short; eassumption. }
  destruct Hcases as [[Hraise Hwhy] | (Hret & Hatoms & Hn & Hc & Hm)].
  - split; [now split|]. intros _. exact Hraise.
  - split.
    + split.
      * intros H. rewrite H in Hret. discriminate.
      * intros [H | [H | [H | H]]]; contradiction.
    + intros H. rewrite H in Hret. discriminate.
Qed.

(** X4.  When the listing holds an atom and the three integers have
    texts, the deck is: the lines of the checkpoint file, the memory and
    the processors, an empty line, the route, an empty line, the cleaned
    title, an empty line, the charge and the multiplicity, then one line
    per atom of the listing in the order of the listing, then three empty
    lines. *)
Theorem deck_layout (fixed6 : pyfloat -> str)
  (xyz_string jobname method basis mem : str)
  (nproc charge multiplicity : Z) (title : str)
  (atoms : list xyz_atom)
  (nproc_text charge_text multiplicity_text : str) :
  parse_xyz_content xyz_string = Return atoms -> atoms <> [] ->
  PyNum.str_of_int nproc = Some nproc_text ->
  PyNum.str_of_int charge = Some charge_text ->
  PyNum.str_of_int multiplicity = Some multiplicity_text ->
  xyz_to_gaussian_opt fixed6 xyz_string jobname method basis mem nproc
    charge multiplicity title
  = Return (lit "%chk=" ++ PyStr.strip jobname ++ lit ".chk"
            ++ [Char.newline]
            ++ lit "%mem=" ++ mem ++ [Char.newline]
            ++ lit "%nprocshared=" ++ nproc_text
            ++ [Char.newline; Char.newline]
            ++ lit "# opt " ++ method ++ lit "/" ++ basis
            ++ [Char.newline; Char.newline]
            ++ clean_title title ++ [Char.newline; Char.newline]
            ++ charge_text ++ lit " " ++ multiplicity_text
            ++ [Char.newline]
            ++ flat_map (coordinate_line fixed6) atoms
            ++ [Char.newline; Char.newline; Char.newline]) /\
  ~ long_int nproc /\ ~ long_int charge /\ ~ long_int multiplicity.
Proof.
  intros Hparse Hne Hn Hc Hm. split.
  - destruct atoms as [|a atoms]; [contradiction|].
    now apply deck_written.
  - repeat split; eapply str_of_int_short; eassumption.
Qed.

Lemma title_char_kept c :
  title_char c <->
  Char.isalnum c || PyStr.contains [c] (lit " -_") = true.
Proof.
  unfold title_char. rewrite orb_true_iff. split.
  - intros [H | [-> | [-> | ->]]]; [now left|right..]; reflexivity.
  - intros [H|H]; [now left|right].
    destruct c as [[] [] [] [] [] [] [] []]; vm_compute in H;
      try discriminate; auto.
Qed.

(** X5.  [clean_title] keeps the length of the title; the clean title is
    made of alphanumeric characters, spaces, hyphens and underscores, so
    it holds no newline; a title made of such characters is left as it
    is, and cleaning twice is cleaning once. *)
Theorem clean_title_safe (title : str) :
  length (clean_title title) = length title /\
  Forall title_char (clean_title title) /\
  one_line (clean_title title) /\
  (Forall title_char title -> clean_title title = title) /\
  clean_title (clean_title title) = clean_title title.
Proof.
  assert (Hall : Forall title_char (clean_title title)).
  { unfold clean_title. apply List.Forall_forall. intros c Hc.
    apply in_map_iff in Hc as (x & <- & _).
    destruct (Char.isalnum x || PyStr.contains [x] (lit " -_")) eqn:E.
    - now apply title_char_kept.
    - right. right. now right. }
  assert (Hid : forall t, Forall title_char t -> clean_title t = t).
  { induction 1 as [|c t Hc _ IH]; [reflexivity|]. unfold clean_title in *.
    cbn [map]. rewrite IH. apply title_char_kept in Hc. now rewrite Hc. }
  split; [apply length_map|]. split; [exact Hall|]. split; [|split].
  - intros Hin. rewrite List.Forall_forall in Hall.
    destruct (Hall _ Hin) as [H|[H|[H|H]]]; discriminate.
  - apply Hid.
  - now apply Hid.
Qed.

(** *** Reading the coordinate lines back *)

Lemma split_skip_blank ws s : blank ws -> PyStr.split (ws ++ s) = PyStr.split s.
Proof.
  induction 1 as [|c ws Hc _ IH]; [reflexivity|].
  rewrite <- app_comm_cons, split_cons. now rewrite Hc.
Qed.

(** A field in front of whitespace, or at the end of the text. *)
Lemma split_word w rest :
  solid w -> w <> [] ->
  (rest = [] \/ exists c r, rest = c :: r /\ Char.isspace c = true) ->
  PyStr.split (w ++ rest) = w :: PyStr.split rest.
Proof.
  intros Hw. revert rest. induction Hw as [|c w Hc Hw IH]; intros rest Hne Hrest;
    [contradiction|].
  rewrite <- app_comm_cons, split_cons, Hc. destruct w as [|c2 w'].
  - destruct Hrest as [->|(c' & r & -> & Hc')]; [reflexivity|].
    change ([] ++ c' :: r) with (c' :: r). cbv iota. now rewrite Hc'.
  - inversion Hw as [|? ? Hc2 _]; subst.
    rewrite <- app_comm_cons, Hc2. rewrite app_comm_cons.
    now rewrite IH by (discriminate || assumption).
Qed.

Lemma split_field ws w rest :
  blank ws -> solid w -> w <> [] ->
  (rest = [] \/ exists c r, rest = c :: r /\ Char.isspace c = true) ->
  PyStr.split (ws ++ w ++ rest) = w :: PyStr.split rest.
Proof.
  intros Hws Hw Hne Hrest. rewrite split_skip_blank by exact Hws.
  now apply split_word.
Qed.

Lemma blank_repeat n : blank (repeat " "%char n).
Proof. induction n; simpl; now constructor. Qed.

Lemma split_pad_field n w rest :
  solid w -> w <> [] ->
  (rest = [] \/ exists c r, rest = c :: r /\ Char.isspace c = true) ->
  PyStr.split (lit " " ++ PyStr.rjust n w ++ rest) = w :: PyStr.split rest.
Proof.
  intros Hw Hne Hrest. unfold PyStr.rjust.
  rewrite <- app_assoc, app_assoc. apply split_field; try assumption.
  apply Forall_app. split; [now repeat constructor|apply blank_repeat].
Qed.

Lemma split_pad_last n w :
  solid w -> w <> [] -> PyStr.split (lit " " ++ PyStr.rjust n w) = [w].
Proof.
  intros Hw Hne. rewrite <- (app_nil_r (PyStr.rjust n w)).
  rewrite split_pad_field by (assumption || now left). reflexivity.
Qed.

Lemma line_atoms_padded fixed6 (a : xyz_atom) ws :
  reads_back fixed6 -> blank ws ->
  a.1 <> [] -> solid a.1 -> length a.2 = 3%nat ->
  line_atoms (ws ++ bare_line fixed6 a) = [reread fixed6 a].
Proof.
  intros Hback Hws Hne Hsolid Hlen.
  unfold line_atoms, bare_line, reread.
  destruct a as [sym coords]. simpl fst in *. simpl snd in *.
  destruct coords as [|x [|y [|z [|]]]]; try discriminate.
  destruct (Hback x) as (Hx1 & Hx2 & Hx3).
  destruct (Hback y) as (Hy1 & Hy2 & Hy3).
  destruct (Hback z) as (Hz1 & Hz2 & Hz3).
  assert (Hsp : forall r : str,
             lit " " ++ r = [] \/
             exists c r', lit " " ++ r = c :: r' /\ Char.isspace c = true).
  { intros r. right. now exists " "%char, r. }
  rewrite split_field by (assumption || apply Hsp).
  rewrite split_pad_field by (assumption || apply Hsp).
  rewrite split_pad_field by (assumption || apply Hsp).
  rewrite split_pad_last by assumption.
  assert (Hf : forall v, PyNum.float_syntax (fixed6 v) <> None ->
                         exists u, float (fixed6 v) = Return u).
  { intros v Hv. unfold float.
    destruct (PyNum.float_syntax (fixed6 v)); [simpl; eauto|contradiction]. }
  destruct (Hf x Hx3) as [ux Ex], (Hf y Hy3) as [uy Ey], (Hf z Hz3) as [uz Ez].
  cbn [floats map]. rewrite Ex, Ey, Ez. reflexivity.
Qed.

Lemma join_lines_cons l ls :
  ls <> [] -> join_lines (l :: ls) = l ++ Char.newline :: join_lines ls.
Proof. destruct ls; [contradiction|reflexivity]. Qed.

Lemma coordinate_line_parts fixed6 (a : xyz_atom) :
  length a.2 = 3%nat ->
  coordinate_line fixed6 a
  = symbol_padding a ++ bare_line fixed6 a ++ [Char.newline].
Proof.
  unfold coordinate_line, bare_line, symbol_padding, PyStr.rjust at 1.
  destruct (a.2) as [|x [|y [|z [|]]]]; try discriminate. intros _.
  now rewrite <- !app_assoc.
Qed.

(** The lines written for the atoms, as lines joined by newlines. *)
Lemma coordinate_lines_joined fixed6 (atoms : list xyz_atom) :
  Forall (fun a : xyz_atom => length a.2 = 3%nat) atoms ->
  flat_map (coordinate_line fixed6) atoms
  = join_lines (map (fun a => symbol_padding a ++ bare_line fixed6 a) atoms
                ++ [[]]).
Proof.
  induction 1 as [|a atoms Ha _ IH]; [reflexivity|].
  cbn [flat_map map app]. rewrite join_lines_cons by now destruct atoms.
  rewrite IH, coordinate_line_parts by exact Ha.
  now rewrite <- !app_assoc.
Qed.

Lemma one_line_app a b : one_line a -> one_line b -> one_line (a ++ b).
Proof.
  unfold one_line. intros Ha Hb Hin.
  apply in_app_or in Hin as [Hin | Hin]; [now apply Ha | now apply Hb].
Qed.

Lemma one_line_solid s : solid s -> one_line s.
Proof.
  unfold solid, one_line. intros H Hin. rewrite List.Forall_forall in H.
  specialize (H _ Hin). discriminate.
Qed.

Lemma one_line_spaces n : one_line (repeat " "%char n).
Proof. unfold one_line. intros Hin. apply repeat_spec in Hin. discriminate. Qed.

Lemma one_line_rjust n w : solid w -> one_line (PyStr.rjust n w).
Proof.
  intros H. apply one_line_app; [apply one_line_spaces|].
  now apply one_line_solid.
Qed.

Lemma one_line_bare fixed6 (a : xyz_atom) :
  reads_back fixed6 -> solid a.1 -> one_line (bare_line fixed6 a).
Proof.
  intros Hback Hs. unfold bare_line.
  destruct (a.2) as [|x [|y [|z [|]]]]; try (intros []).
  assert (Hsp : one_line (lit " ")) by (intros [H|[]]; discriminate).
  repeat (apply one_line_app);
    first [ exact Hsp | apply one_line_spaces | now apply one_line_solid
          | apply one_line_solid, Hback ].
Qed.

Lemma isdigit_space s : In " "%char s -> PyStr.isdigit s = false.
Proof.
  intros Hin. destruct s as [|c s]; [reflexivity|]. unfold PyStr.isdigit.
  apply not_true_is_false. intros H. rewrite forallb_forall in H.
  specialize (H _ Hin). discriminate.
Qed.

Lemma padded_lines_read fixed6 (atoms : list xyz_atom) :
  reads_back fixed6 ->
  Forall (fun a : xyz_atom =>
            a.1 <> [] /\ solid a.1 /\ length a.2 = 3%nat) atoms ->
  flat_map line_atoms
    (map (fun a => symbol_padding a ++ bare_line fixed6 a) atoms ++ [[]])
  = map (reread fixed6) atoms.
Proof.
  intros Hback. induction 1 as [|a atoms (Hne & Hs & Hlen) _ IH];
    [reflexivity|].
  cbn [map app flat_map]. rewrite IH.
  now rewrite line_atoms_padded by (assumption || apply blank_repeat).
Qed.

(** X6.  When the six-decimal texts of the floats are float literals
    without whitespace, the coordinate lines that [xyz_to_gaussian_opt]
    writes for the atoms of a listing are themselves a listing:
    [parse_xyz_content] reads them back as the same number of atoms, with
    the same symbols in the same order, the coordinates being the floats
    of the six-decimal texts. *)
Theorem deck_lines_read_back (fixed6 : pyfloat -> str)
  (xyz_string : str) (atoms : list xyz_atom) :
  reads_back fixed6 ->
  parse_xyz_content xyz_string = Return atoms ->
  parse_xyz_content (flat_map (coordinate_line fixed6) atoms)
  = Return (map (reread fixed6) atoms) /\
  map fst (map (reread fixed6) atoms) = map fst atoms.
Proof.
  intros Hback Hparse.
  pose proof (parse_atoms_shape _ _ Hparse) as Hshape.
  split.
  2: { rewrite map_map. apply map_ext. intros a. unfold reread.
       now destruct (floats (map fixed6 a.2)). }
  assert (Hthree : Forall (fun a : xyz_atom => length a.2 = 3%nat) atoms).
  { eapply Forall_impl; [exact Hshape|]. now intros ? (_ & _ & ?). }
  rewrite coordinate_lines_joined by exact Hthree.
  destruct atoms as [|a atoms]; [reflexivity|].
  inversion Hshape as [|? ? (Hne & Hs & Hlen) Hrest]; subst.
  rewrite <- (padded_lines_read fixed6 (a :: atoms) Hback Hshape).
  cbn [map app].
  rewrite join_lines_cons by now destruct atoms.
  rewrite <- app_assoc.
  rewrite <- join_lines_cons by now destruct atoms.
  assert (Hhead : exists c l0,
             bare_line fixed6 a = c :: l0 /\ Char.isspace c = false).
  { unfold bare_line. destruct (a.2) as [|x [|y [|z [|]]]]; try discriminate.
    destruct (a.1) as [|c sym]; [contradiction|].
    inversion Hs; subst. simpl. eauto. }
  destruct Hhead as (c & l0 & Hbare & Hc). rewrite Hbare.
  rewrite parse_lines_flat.
  - assert (Hd : PyStr.isdigit (c :: l0) = false).
    { rewrite <- Hbare. apply isdigit_space. unfold bare_line.
      destruct (a.2) as [|x [|y [|z [|]]]]; try discriminate.
      apply in_or_app. right. now left. }
    rewrite Hd. cbn [skipn flat_map]. rewrite <- Hbare.
    do 2 f_equal.
    rewrite <- (app_nil_l (bare_line fixed6 a)) at 1.
    rewrite !line_atoms_padded
      by (assumption || apply blank_repeat || constructor).
    reflexivity.
  - apply blank_repeat.
  - exact Hc.
  - rewrite <- Hbare. constructor; [now apply one_line_bare|].
    apply Forall_app. split; [|repeat constructor; intros []].
    apply List.Forall_forall. intros l Hl.
    apply in_map_iff in Hl as (b & <- & Hb).
    rewrite List.Forall_forall in Hrest.
    destruct (Hrest _ Hb) as (_ & Hsb & _).
    apply one_line_app; [apply one_line_spaces|now apply one_line_bare].
Qed.

(* ===================================================================== *)
(** ** Further properties of the optimized geometry *)
(* ===================================================================== *)

Lemma str_eqb_eq a : forall b, PyStr.eqb a b = true <-> a = b.
Proof.
  induction a as [|x a IH]; intros [|y b]; simpl; try easy.
  rewrite andb_true_iff, char_eqb_eq, IH. split.
  - now intros [-> ->].
  - now intros [= -> ->].
Qed.

Lemma slice_from_back {A} (l : list A) (k : nat) :
  (0 < k)%nat -> PySeq.slice_from l (- Z.of_nat k) = skipn (length l - k) l.
Proof.
  intros Hk. unfold PySeq.slice_from, PySeq.clamp.
  destruct (Z.ltb_spec (- Z.of_nat k) 0); [|lia]. f_equal. lia.
Qed.

Lemma slice_to_back {A} (l : list A) (k : nat) :
  (0 < k)%nat -> PySeq.slice_to l (- Z.of_nat k) = firstn (length l - k) l.
Proof.
  intros Hk. unfold PySeq.slice_to, PySeq.clamp.
  destruct (Z.ltb_spec (- Z.of_nat k) 0); [|lia]. f_equal. lia.
Qed.

Lemma last_char (dir : str) (c : ascii) :
  item_at (dir ++ [c]) (-1) = Return c.
Proof.
  change (-1) with (- Z.of_nat 1).
  rewrite item_at_back by (rewrite length_app; simpl; lia).
  rewrite length_app. simpl length.
  replace (length dir + 1 - 1)%nat with (length dir + 0)%nat by lia.
  now rewrite nth_error_app2, Nat.add_0_r, Nat.sub_diag by lia.
Qed.

(** The name that is opened for a file name with one of the two
    suffixes. *)
Lemma log_path_suffixed (stem ext dir : str) (c : ascii) :
  ext = lit ".com" \/ ext = lit ".gjf" ->
  log_path (stem ++ ext) (dir ++ [c])
  = Return ((if Char.eqb c "/" then dir ++ [c] else (dir ++ [c]) ++ lit "/")
            ++ stem ++ lit ".log").
Proof.
  intros Hext. unfold log_path. change (-4) with (- Z.of_nat 4).
  assert (Hlen : (length (stem ++ ext) - 4 = length stem)%nat).
  { rewrite length_app. destruct Hext as [-> | ->]; simpl; lia. }
  rewrite slice_from_back by lia. rewrite Hlen, drop_app_length.
  assert (Hsuffix : PyStr.eqb ext (lit ".com") || PyStr.eqb ext (lit ".gjf")
                    = true) by now destruct Hext as [-> | ->].
  rewrite Hsuffix. simpl negb. cbv iota.
  rewrite slice_to_back by lia. rewrite Hlen, take_app_length.
  rewrite last_char. bind_value. now destruct (Char.eqb c "/").
Qed.

(** The name that is opened for any other file name. *)
Lemma log_path_plain (filename dir : str) (c : ascii) :
  (forall stem, filename <> stem ++ lit ".com") ->
  (forall stem, filename <> stem ++ lit ".gjf") ->
  log_path filename (dir ++ [c])
  = Return ((if Char.eqb c "/" then dir ++ [c] else (dir ++ [c]) ++ lit "/")
            ++ filename ++ lit ".log").
Proof.
  intros Hcom Hgjf. unfold log_path. change (-4) with (- Z.of_nat 4).
  rewrite slice_from_back by lia.
  set (k := (length filename - 4)%nat).
  assert (Hsuffix : PyStr.eqb (skipn k filename) (lit ".com")
                    || PyStr.eqb (skipn k filename) (lit ".gjf") = false).
  { apply orb_false_iff. split; apply not_true_is_false; intros H;
      apply str_eqb_eq in H;
      [apply (Hcom (firstn k filename)) | apply (Hgjf (firstn k filename))];
      rewrite <- H; symmetry; apply firstn_skipn. }
  rewrite Hsuffix. simpl negb. cbv iota.
  rewrite slice_to_back by lia.
  replace (length (filename ++ lit ".com") - 4)%nat with (length filename)
    by (rewrite length_app; simpl; lia).
  rewrite take_app_length, last_char. bind_value.
  now destruct (Char.eqb c "/").
Qed.

(** X7.  The log that is read is named after the input file: a final
    '.com' or '.gjf' of the file name is replaced by '.log', and '.log'
    is added to a file name with neither suffix; the name is put after
    the directory, with a '/' between them unless the directory ends in
    one.  With an empty directory the function returns [None] and opens
    nothing. *)
Theorem log_file_name (open_read : str -> option str) (filename path : str) :
  (path = [] ->
   extract_optimized_structure open_read filename path = None /\
   returns (log_path filename path) = false) /\
  forall folder,
    (exists dir, path = dir ++ lit "/" /\ folder = path) \/
    (exists dir c, path = dir ++ [c] /\ c <> "/"%char /\
                   folder = path ++ lit "/") ->
    (forall stem,
       filename = stem ++ lit ".com" \/ filename = stem ++ lit ".gjf" ->
       log_path filename path = Return (folder ++ stem ++ lit ".log")) /\
    ((forall stem, filename <> stem ++ lit ".com") ->
     (forall stem, filename <> stem ++ lit ".gjf") ->
     log_path filename path = Return (folder ++ filename ++ lit ".log")).
Proof.
  split.
  { intros ->. unfold extract_optimized_structure, log_path.
    now split. }
  intros folder Hfolder.
  assert (Hpath : exists dir c,
             path = dir ++ [c] /\
             folder = if Char.eqb c "/" then dir ++ [c]
                      else (dir ++ [c]) ++ lit "/").
  { destruct Hfolder as [(dir & -> & ->) | (dir & c & -> & Hc & ->)].
    - exists dir, "/"%char. now split.
    - exists dir, c. split; [reflexivity|].
      destruct (Char.eqb c "/") eqn:E; [|reflexivity].
      now apply char_eqb_eq in E. }
  destruct Hpath as (dir & c & -> & ->). split.
  - intros stem [-> | ->]; apply log_path_suffixed; auto.
  - intros Hcom Hgjf. now apply log_path_plain.
Qed.

Lemma read_block_records lines : forall acc atoms,
  Forall geometry_record acc ->
  read_block lines acc = Return atoms -> Forall geometry_record atoms.
Proof.
  induction lines as [|l ls IH]; intros acc atoms Hacc; simpl.
  - now intros [= <-].
  - destruct (matches "-------" l); [now intros [= <-]|].
    destruct (read_record l) as [a|] eqn:Ha; [|discriminate]. bind_value.
    apply IH. apply Forall_app. split; [exact Hacc|].
    constructor; [|constructor].
    unfold read_record in Ha.
    repeat match type of Ha with
           | context [mbind _ ?o] =>
               destruct o; cbn [mbind outcome_bind] in Ha; try discriminate
           end.
    injection Ha as <-. unfold geometry_record. eauto.
Qed.

(** X8.  A result other than [None] is a list with at least one record,
    and every record is an integer followed by three floats. *)
Theorem structure_records
  (open_read : str -> option str) (filename path : str)
  (atoms : list pyval) :
  extract_optimized_structure open_read filename path = Some atoms ->
  atoms <> [] /\ Forall geometry_record atoms.
Proof.
  unfold extract_optimized_structure.
  destruct (log_path filename path) as [name|]; [|discriminate]. bind_value.
  destruct (open_read name) as [log_content|]; [|discriminate].
  cbn [orelse]. bind_value. unfold extract_from_log.
  destruct (negb _); [discriminate|]. destruct (negb _); [discriminate|].
  destruct (read_block _ _) as [records|] eqn:Hb; [|discriminate].
  bind_value. apply read_block_records in Hb; [|constructor].
  destruct records; [discriminate|]. now intros [= <-].
Qed.

(** X9.  A result other than [None] is only returned when the log could
    be opened and contains both markers, the one of normal termination
    and the one of a completed optimization. *)
Theorem structure_needs_markers
  (open_read : str -> option str) (filename path : str) :
  extract_optimized_structure open_read filename path <> None ->
  exists name log_content,
    log_path filename path = Return name /\
    open_read name = Some log_content /\
    PyStr.contains (lit "Normal termination") log_content = true /\
    PyStr.contains (lit "Optimization completed.") log_content = true.
Proof.
  unfold extract_optimized_structure.
  destruct (log_path filename path) as [name|]; [|easy]. bind_value.
  destruct (open_read name) as [log_content|] eqn:Hopen; [|easy].
  cbn [orelse]. bind_value. unfold extract_from_log.
  destruct (PyStr.contains (lit "Normal termination") log_content) eqn:Hn;
    [|easy].
  destruct (PyStr.contains (lit "Optimization completed.") log_content)
    eqn:Ho; [|easy].
  intros _. now exists name, log_content.
Qed.

Lemma first_match_none pattern lines : forall i,
  Forall (fun l => matches pattern l = false) lines ->
  first_match pattern lines i = None.
Proof.
  induction lines as [|l ls IH]; intros i H; [reflexivity|].
  inversion H as [|? ? Hl Hls]; subst. simpl. rewrite Hl. now apply IH.
Qed.

(** X10.  When no line at or after the first line [c] that matches
    'Optimization completed.' contains 'Standard orientation', the
    records are read from line [c + 5]: the marker line takes the place
    of the missing header. *)
Theorem block_without_header
  (open_read : str -> option str) (filename path name log_content : str)
  (c : nat) :
  log_path filename path = Return name ->
  open_read name = Some log_content ->
  PyStr.contains (lit "Normal termination") log_content = true ->
  PyStr.contains (lit "Optimization completed.") log_content = true ->
  let log_lines := PyStr.split_char Char.newline log_content in
  first_from (matches "Optimization completed.") log_lines 0 c ->
  Forall (fun l => PyStr.contains (lit "Standard orientation") l = false)
    (skipn c log_lines) ->
  extract_optimized_structure open_read filename path
  = match mapM record_of (until_dashes (skipn (c + 5) log_lines)) with
    | Some (a :: records) => Some (a :: records)
    | _ => None
    end.
Proof.
  intros Hp Hopen Hn Ho log_lines Hc Hnone.
  rewrite (extract_opened _ _ _ _ _ Hp Hopen).
  apply extract_from_located; try assumption.
  unfold locate_block. fold log_lines.
  rewrite (first_match_first _ _ 0 c Hc). simpl Nat.add.
  rewrite slice_from_nat, first_match_none; [reflexivity|].
  eapply Forall_impl; [exact Hnone|].
  intros l Hl. now rewrite matches_orientation.
Qed.

(* ===================================================================== *)
(** ** Further properties of the electronic-structure summary *)
(* ===================================================================== *)

(** A relation between dictionaries that the two assignments of the scan
    respect holds between the dictionary before and after the scan. *)
Lemma scan_header_rel (R : gmap string pyval -> gmap string pyval -> Prop) :
  (forall d, R d d) ->
  (forall a b c, R a b -> R b c -> R a c) ->
  (forall d e, R d (<["Energy" := PFloat e]> d)) ->
  (forall d n, R d (<["Ne" := PInt n]> d)) ->
  forall lines i data iline data' iline',
    scan_header lines i data iline = Return (data', iline') -> R data data'.
Proof.
  intros Hrefl Htrans He Hn.
  induction lines as [|l ls IH]; intros i data iline data' iline'; simpl.
  - now intros [= <- _].
  - assert (Hrest : forall d,
      R data d ->
      (if PyStr.contains (lit "Number of electrons") l
       then t ← last_token l; n ← int t;
            scan_header ls (S i) (<["Ne" := PInt n]> d) iline
       else if PyStr.contains (lit "Alpha Orbital Energies") l
            then Return (d, i)
            else scan_header ls (S i) d iline) = Return (data', iline') ->
      R data data').
    { intros d Hd.
      destruct (PyStr.contains (lit "Number of electrons") l).
      - destruct (last_token l) as [t|]; [|discriminate]. bind_value.
        destruct (int t) as [n|]; [|discriminate]. bind_value.
        intros H. apply IH in H. eauto.
      - destruct (PyStr.contains (lit "Alpha Orbital Energies") l).
        + now intros [= <- _].
        + intros H. apply IH in H. eauto. }
    destruct (PyStr.contains (lit "Total Energy") l).
    + destruct (last_token l) as [t|]; [|discriminate]. bind_value.
      destruct (float t) as [e|]; [|discriminate]. bind_value.
      apply Hrest, He.
    + bind_value. apply Hrest, Hrefl.
Qed.

Lemma scan_header_dom lines i data iline data' iline' :
  scan_header lines i data iline = Return (data', iline') ->
  dom data ⊆ dom data' /\ dom data' ⊆ dom data ∪ {[ "Energy"; "Ne" ]}.
Proof.
  apply (scan_header_rel
           (fun d d' => dom d ⊆ dom d' /\
                        dom d' ⊆ dom d ∪ {[ "Energy"; "Ne" ]})).
  - intros d. split; [reflexivity|apply union_subseteq_l].
  - intros a b c [Hab Hab'] [Hbc Hbc']. split; [now transitivity (dom b)|].
    intros k Hk. apply Hbc', elem_of_union in Hk as [Hk | Hk].
    + now apply Hab'.
    + apply elem_of_union. now right.
  - intros d e. rewrite dom_insert_L. split.
    + apply union_subseteq_r.
    + intros k Hk. apply elem_of_union in Hk as [Hk | Hk];
        apply elem_of_union; [right|now left].
      apply elem_of_union. left. exact Hk.
  - intros d n. rewrite dom_insert_L. split.
    + apply union_subseteq_r.
    + intros k Hk. apply elem_of_union in Hk as [Hk | Hk];
        apply elem_of_union; [right|now left].
      apply elem_of_union. right. exact Hk.
Qed.

Lemma scan_header_values lines i data iline data' iline' :
  scan_header lines i data iline = Return (data', iline') ->
  (forall k, k <> "Energy"%string -> k <> "Ne"%string ->
             data' !! k = data !! k) /\
  (data' !! "Energy" = data !! "Energy" \/
   exists e, data' !! "Energy" = Some (PFloat e)) /\
  (data' !! "Ne" = data !! "Ne" \/ exists n, data' !! "Ne" = Some (PInt n)).
Proof.
  apply (scan_header_rel
           (fun d d' =>
              (forall k, k <> "Energy"%string -> k <> "Ne"%string ->
                         d' !! k = d !! k) /\
              (d' !! "Energy" = d !! "Energy" \/
               exists e, d' !! "Energy" = Some (PFloat e)) /\
              (d' !! "Ne" = d !! "Ne" \/
               exists n, d' !! "Ne" = Some (PInt n)))).
  - intros d. auto.
  - intros a b c (Hk & He & Hn) (Hk' & He' & Hn'). split; [|split].
    + intros k H1 H2. now rewrite Hk', Hk.
    + destruct He' as [-> | ?]; auto.
    + destruct Hn' as [-> | ?]; auto.
  - intros d e. split; [|split].
    + intros k H1 H2. now rewrite lookup_insert_ne.
    + right. exists e. apply lookup_insert_eq.
    + left. now rewrite lookup_insert_ne.
  - intros d n. split; [|split].
    + intros k H1 H2. now rewrite lookup_insert_ne.
    + left. now rewrite lookup_insert_ne.
    + right. exists n. apply lookup_insert_eq.
Qed.

Lemma half_ne_inv (data : gmap string pyval) (h : Z) :
  half_ne data = Return h ->
  exists ne, data !! "Ne" = Some (PInt ne) /\ h = ne / 2.
Proof.
  unfold half_ne.
  destruct (data !! "Ne") as [[| ne | | |]|]; try discriminate.
  intros [= <-]. now exists ne.
Qed.

Lemma item_at_inv {A} (l : list A) (i : Z) (x : A) :
  item_at l i = Return x -> PySeq.index l i = Some x.
Proof.
  unfold item_at. destruct (PySeq.index l i); [|discriminate].
  now intros [= ->].
Qed.

(** What a returned summary was made of. *)
Lemma fchk_returns_inv (open_read_in : str -> str -> option str)
  (fchk_name path : str) (result : gmap string pyval) :
  extract_fchk_data open_read_in fchk_name path = Return result ->
  exists content data iline line t nbasis orb_energies ne homo lumo,
    open_read_in path fchk_name = Some content /\
    scan_header (PyStr.readlines content) 0 initial_data 0
    = Return (data, iline) /\
    nth_error (PyStr.readlines content) iline = Some line /\
    last_token line = Return t /\ PyNum.int t = Some nbasis /\
    read_orbitals (PyStr.readlines content) iline (range (nline nbasis)) []
    = Return orb_energies /\
    data !! "Ne" = Some (PInt ne) /\
    PySeq.index orb_energies (ne / 2 - 1) = Some homo /\
    PySeq.index orb_energies (ne / 2) = Some lumo /\
    result = <["LUMO" := PFloat lumo]> (<["HOMO" := PFloat homo]> data).
Proof.
  unfold extract_fchk_data.
  destruct (open_read_in path fchk_name) as [content|]; [|discriminate].
  cbn [orelse]. bind_value. unfold fchk_of_lines.
  destruct (scan_header _ _ _ _) as [[data iline]|] eqn:Hscan;
    [|discriminate]. bind_value.
  rewrite item_at_nat.
  destruct (nth_error _ iline) as [line|] eqn:Hline; [|discriminate].
  cbn [orelse]. bind_value.
  destruct (last_token line) as [t|] eqn:Ht; [|discriminate]. bind_value.
  unfold int. destruct (PyNum.int t) as [nbasis|] eqn:Hint; [|discriminate].
  cbn [orelse]. bind_value.
  destruct (read_orbitals _ _ _ _) as [orb|] eqn:Horb; [|discriminate].
  bind_value.
  destruct (half_ne data) as [h|] eqn:Hhalf; [|discriminate]. bind_value.
  apply half_ne_inv in Hhalf as (ne & Hne & ->).
  destruct (item_at orb (ne / 2 - 1)) as [homo|] eqn:Hh; [|discriminate].
  bind_value. apply item_at_inv in Hh. unfold half_ne.
  rewrite lookup_insert_ne by discriminate. rewrite Hne. bind_value.
  destruct (item_at orb (ne / 2)) as [lumo|] eqn:Hl; [|discriminate].
  bind_value. apply item_at_inv in Hl. intros [= <-].
  exists content, data, iline, line, t, nbasis, orb, ne, homo, lumo.
  repeat split; reflexivity || assumption.
Qed.

(** X11.  A summary that is returned has exactly the keys "Energy",
    "HOMO", "LUMO" and "Ne"; "HOMO" and "LUMO" hold floats, "Ne" an
    integer, and "Energy" a float or [None]. *)
Theorem summary_entries (open_read_in : str -> str -> option str)
  (fchk_name path : str) (result : gmap string pyval) :
  extract_fchk_data open_read_in fchk_name path = Return result ->
  dom result = summary_keys /\
  (exists homo lumo ne,
     result !! "HOMO" = Some (PFloat homo) /\
     result !! "LUMO" = Some (PFloat lumo) /\
     result !! "Ne" = Some (PInt ne)) /\
  (result !! "Energy" = Some PNone \/
   exists e, result !! "Energy" = Some (PFloat e)).
Proof.
  intros H. apply fchk_returns_inv in H
    as (content & data & iline & line & t & nbasis & orb & ne & homo & lumo
        & _ & Hscan & _ & _ & _ & _ & Hne & _ & _ & ->).
  destruct (scan_header_dom _ _ _ _ _ _ Hscan) as (Hsub & Hsup).
  destruct (scan_header_values _ _ _ _ _ _ Hscan) as (_ & He & _).
  split; [|split].
  - apply (elem_of_dom_2 data) in Hne.
    assert (Hinit : dom initial_data = {[ "Energy"; "HOMO"; "LUMO" ]}).
    { unfold initial_data. rewrite !dom_insert_L, dom_empty_L.
      set_solver. }
    rewrite Hinit in Hsub, Hsup. unfold summary_keys.
    rewrite !dom_insert_L. set_solver.
  - exists homo, lumo, ne. split; [|split].
    + rewrite lookup_insert_ne by discriminate. apply lookup_insert_eq.
    + apply lookup_insert_eq.
    + now rewrite !lookup_insert_ne by discriminate.
  - rewrite !lookup_insert_ne by discriminate.
    destruct He as [-> | ?]; [left|now right]. reflexivity.
Qed.

Lemma scan_header_no_count lines : forall i data iline data' iline',
  Forall (fun l => PyStr.contains (lit "Number of electrons") l = false)
    lines ->
  scan_header lines i data iline = Return (data', iline') ->
  data' !! "Ne" = data !! "Ne".
Proof.
  induction lines as [|l ls IH]; intros i data iline data' iline' HF; simpl.
  - now intros [= <- _].
  - inversion HF as [|? ? Hl Hls]; subst. rewrite Hl.
    destruct (PyStr.contains (lit "Total Energy") l).
    + destruct (last_token l) as [t|]; [|discriminate]. bind_value.
      destruct (float t) as [e|]; [|discriminate]. bind_value.
      destruct (PyStr.contains (lit "Alpha Orbital Energies") l).
      * intros [= <- _]. now rewrite lookup_insert_ne.
      * intros H. apply IH in H; [|exact Hls].
        now rewrite H, lookup_insert_ne.
    + bind_value.
      destruct (PyStr.contains (lit "Alpha Orbital Energies") l).
      * now intros [= <- _].
      * now apply IH.
Qed.

(** X12.  A checkpoint file none of whose lines contains 'Number of
    electrons' gives no summary: the function raises. *)
Theorem summary_needs_electron_count
  (open_read_in : str -> str -> option str) (fchk_name path : str) :
  (forall content,
     open_read_in path fchk_name = Some content ->
     Forall (fun l => PyStr.contains (lit "Number of electrons") l = false)
       (PyStr.readlines content)) ->
  returns (extract_fchk_data open_read_in fchk_name path) = false.
Proof.
  intros Hnone.
  destruct (extract_fchk_data open_read_in fchk_name path) as [result|] eqn:E;
    [|reflexivity].
  apply fchk_returns_inv in E
    as (content & data & iline & line & t & nbasis & orb & ne & homo & lumo
        & Hopen & Hscan & _ & _ & _ & _ & Hne & _).
  apply scan_header_no_count in Hscan; [|now apply Hnone].
  rewrite Hscan in Hne. discriminate.
Qed.

Lemma label_line_count l :
  PyStr.contains (lit "Number of electrons") l = true -> label_line l = false.
Proof. unfold label_line. intros ->. apply andb_false_r. Qed.

Lemma first_from_here (P : str -> bool) l ls :
  P l = true -> first_from P (l :: ls) 0 0.
Proof.
  intros HP. split; [lia|]. split; [now exists l|]. intros j l0 Hj. lia.
Qed.

Lemma first_from_later (P : str -> bool) l ls k :
  P l = false -> first_from P ls 0 k -> first_from P (l :: ls) 0 (S k).
Proof.
  intros HP (_ & Hk & Hmin). split; [lia|]. split; [exact Hk|].
  intros [|j] l0 Hj Hl0; simpl in Hl0.
  - now injection Hl0 as <-.
  - apply (Hmin j); [lia|exact Hl0].
Qed.

Lemma scan_header_position lines : forall i data iline data' iline',
  scan_header lines i data iline = Return (data', iline') ->
  (exists k, first_from label_line lines 0 k /\ iline' = (i + k)%nat) \/
  (Forall (fun l => label_line l = false) lines /\ iline' = iline).
Proof.
  induction lines as [|l ls IH]; intros i data iline data' iline'; simpl.
  - intros [= _ <-]. right. now split.
  - assert (Hrest : forall d,
      (if PyStr.contains (lit "Number of electrons") l
       then t ← last_token l; n ← int t;
            scan_header ls (S i) (<["Ne" := PInt n]> d) iline
       else if PyStr.contains (lit "Alpha Orbital Energies") l
            then Return (d, i)
            else scan_header ls (S i) d iline) = Return (data', iline') ->
      (exists k, first_from label_line (l :: ls) 0 k /\
                 iline' = (i + k)%nat) \/
      (Forall (fun l => label_line l = false) (l :: ls) /\ iline' = iline)).
    { intros d.
      assert (Hlater : forall d0,
        label_line l = false ->
        scan_header ls (S i) d0 iline = Return (data', iline') ->
        (exists k, first_from label_line (l :: ls) 0 k /\
                   iline' = (i + k)%nat) \/
        (Forall (fun l => label_line l = false) (l :: ls) /\
         iline' = iline)).
      { intros d0 Hl H. apply IH in H as [(k & Hk & ->) | (HF & ->)].
        - left. exists (S k). split; [now apply first_from_later|lia].
        - right. split; [now constructor|reflexivity]. }
      destruct (PyStr.contains (lit "Number of electrons") l) eqn:Hc.
      - destruct (last_token l) as [t|]; [|discriminate]. bind_value.
        destruct (int t) as [n|]; [|discriminate]. bind_value.
        apply Hlater. unfold label_line. rewrite Hc. apply andb_false_r.
      - destruct (PyStr.contains (lit "Alpha Orbital Energies") l) eqn:Ha.
        + intros [= _ <-]. left. exists 0%nat. split; [|lia].
          apply first_from_here. unfold label_line. now rewrite Hc, Ha.
        + apply Hlater. unfold label_line. now rewrite Ha. }
    destruct (PyStr.contains (lit "Total Energy") l).
    + destruct (last_token l) as [t|]; [|discriminate]. bind_value.
      destruct (float t) as [e|]; [|discriminate]. bind_value.
      apply Hrest.
    + bind_value. apply Hrest.
Qed.

(** X13.  When a summary is returned, the number of orbital energies was
    read from the last field of the first line that contains 'Alpha
    Orbital Energies' and not 'Number of electrons', and the energies
    from the lines after it; when the file has no such line, both were
    read from the first line of the file and the lines after it. *)
Theorem count_line_position (open_read_in : str -> str -> option str)
  (fchk_name path : str) (result : gmap string pyval) :
  extract_fchk_data open_read_in fchk_name path = Return result ->
  exists content iline line t nbasis orb_energies,
    open_read_in path fchk_name = Some content /\
    let lines := PyStr.readlines content in
    (first_from label_line lines 0 iline \/
     Forall (fun l => label_line l = false) lines /\ iline = 0%nat) /\
    nth_error lines iline = Some line /\
    last_token line = Return t /\ PyNum.int t = Some nbasis /\
    read_orbitals lines iline (range (nline nbasis)) [] = Return orb_energies.
Proof.
  intros H. apply fchk_returns_inv in H
    as (content & data & iline & line & t & nbasis & orb & ne & homo & lumo
        & Hopen & Hscan & Hline & Ht & Hint & Horb & _).
  exists content, iline, line, t, nbasis, orb.
  split; [exact Hopen|]. cbv zeta.
  split; [|now repeat split].
  apply scan_header_position in Hscan as [(k & Hk & ->) | (HF & ->)].
  - now left.
  - now right.
Qed.

Lemma label_line_somewhere lines iline :
  first_from label_line lines 0 iline ->
  Forall (fun l => label_line l = false) lines -> False.
Proof.
  intros (_ & (l & Hl & Hlabel) & _) Hnone.
  rewrite List.Forall_forall in Hnone.
  rewrite (Hnone l (nth_error_In _ _ Hl)) in Hlabel. discriminate.
Qed.

(** C6.  Let line [iline] be the label line of the orbital energies, the
    first line that contains 'Alpha Orbital Energies' and not 'Number of
    electrons', and [n] the integer of its last field.  Then [nline n] is
    the ceiling of [n / 5], and [extract_fchk_data] returns a summary
    exactly when that many lines follow the label line and all their
    fields are floats, the scan having returned and [orb_energies], the
    floats of all the fields of those lines in the order of the lines,
    holding the two positions read for "HOMO" and "LUMO". *)
Theorem orbital_lines_read
  (open_read_in : str -> str -> option str) (fchk_name path content : str)
  (iline : nat) (line t : str) (n : Z) :
  open_read_in path fchk_name = Some content ->
  let lines := PyStr.readlines content in
  first_from label_line lines 0 iline ->
  nth_error lines iline = Some line ->
  last_token line = Return t -> PyNum.int t = Some n -> 0 <= n ->
  let k := nline n in
  let rows := firstn (Z.to_nat k) (skipn (iline + 1) lines) in
  n <= 5 * k < n + 5 /\
  forall result,
    extract_fchk_data open_read_in fchk_name path = Return result <->
    exists data orb_energies ne homo lumo,
      scan_header lines 0 initial_data 0 = Return (data, iline) /\
      Z.of_nat (length rows) = k /\
      floats (flat_map PyStr.split rows) = Return orb_energies /\
      data !! "Ne" = Some (PInt ne) /\
      PySeq.index orb_energies (ne / 2 - 1) = Some homo /\
      PySeq.index orb_energies (ne / 2) = Some lumo /\
      result = <["LUMO" := PFloat lumo]> (<["HOMO" := PFloat homo]> data).
Proof.
  intros Hopen lines Hlabel Hline Htok Hint Hn k rows.
  assert (Hk : n <= 5 * k < n + 5).
  { subst k. unfold nline.
    pose proof (Z.div_mod n 5 ltac:(lia)) as Hd.
    pose proof (Z.mod_pos_bound n 5 ltac:(lia)) as Hm.
    destruct (Z.eqb_spec (n mod 5) 0); lia. }
  split; [exact Hk|]. intros result. split.
  - intros H. apply fchk_returns_inv in H
      as (content' & data & iline' & line' & t' & n' & orb & ne & homo & lumo
          & Hopen' & Hscan & Hline' & Htok' & Hint' & Horb & Hne & Hh & Hl
          & ->).
    rewrite Hopen in Hopen'. injection Hopen' as <-. fold lines in Hscan,
      Hline', Horb.
    assert (iline' = iline) as ->.
    { destruct (scan_header_position _ _ _ _ _ _ Hscan)
        as [(i & Hi & ->) | (Hnone & _)].
      - exact (first_from_unique _ _ _ _ _ Hi Hlabel).
      - destruct (label_line_somewhere _ _ Hlabel Hnone). }
    rewrite Hline in Hline'. injection Hline' as <-.
    rewrite Htok in Htok'. injection Htok' as <-.
    rewrite Hint in Hint'. injection Hint' as <-.
    unfold range in Horb.
    apply (read_orbitals_rows lines iline (Z.to_nat k) 0 [] orb) in Horb
      as (vals & Hlen & Hf & ->).
    exists data, vals, ne, homo, lumo. simpl in Hlen, Hf. fold rows in Hlen, Hf.
    repeat split; try assumption. lia.
  - intros (data & orb & ne & homo & lumo
            & Hscan & Hlen & Hf & Hne & Hh & Hl & ->).
    assert (Horb : read_orbitals lines iline (range k) [] = Return orb).
    { unfold range.
      apply (read_orbitals_rows lines iline (Z.to_nat k) 0 [] orb).
      exists orb. simpl. fold rows. split; [lia|]. now split. }
    unfold extract_fchk_data. rewrite Hopen. cbn [orelse]. bind_value.
    fold lines. unfold fchk_of_lines. rewrite Hscan. bind_value.
    rewrite item_at_nat, Hline. cbn [orelse]. bind_value.
    rewrite Htok. bind_value. unfold int. rewrite Hint.
    cbn [orelse]. bind_value. fold k. rewrite Horb. bind_value.
    unfold half_ne. rewrite Hne. bind_value.
    unfold item_at. rewrite Hh. cbn [orelse]. bind_value.
    rewrite lookup_insert_ne by discriminate. rewrite Hne. bind_value.
    rewrite Hl. reflexivity.
Qed.

(** The lines after the first label line take no part in the scan. *)
Lemma scan_header_scanned lines : forall i data iline,
  scan_header lines i data iline = scan_header (scanned lines) i data iline.
Proof.
  induction lines as [|l ls IH]; intros i data iline; [reflexivity|].
  cbn [scanned]. unfold label_line.
  destruct (PyStr.contains (lit "Number of electrons") l) eqn:Hc;
    destruct (PyStr.contains (lit "Alpha Orbital Energies") l) eqn:Ha;
    cbn [andb negb scan_header]; rewrite Hc, ?Ha;
    destruct (if PyStr.contains (lit "Total Energy") l
              then t ← last_token l; e ← float t;
                   Return (<["Energy" := PFloat e]> data)
              else Return data) as [d|]; try reflexivity; bind_value.
  - destruct (last_token l) as [t|]; [|reflexivity]. bind_value.
    destruct (int t) as [n|]; [|reflexivity]. bind_value. apply IH.
  - destruct (last_token l) as [t|]; [|reflexivity]. bind_value.
    destruct (int t) as [n|]; [|reflexivity]. bind_value. apply IH.
  - apply IH.
Qed.

Lemma scan_header_no_energy lines : forall i data iline data' iline',
  Forall (fun l => PyStr.contains (lit "Total Energy") l = false) lines ->
  scan_header lines i data iline = Return (data', iline') ->
  data' !! "Energy" = data !! "Energy".
Proof.
  induction lines as [|l ls IH]; intros i data iline data' iline' HF; simpl.
  - now intros [= <- _].
  - inversion HF as [|? ? Hl Hls]; subst. rewrite Hl. bind_value.
    destruct (PyStr.contains (lit "Number of electrons") l).
    + destruct (last_token l) as [t|]; [|discriminate]. bind_value.
      destruct (int t) as [n|]; [|discriminate]. bind_value.
      intros H. apply IH in H; [|exact Hls].
      now rewrite H, lookup_insert_ne.
    + destruct (PyStr.contains (lit "Alpha Orbital Energies") l).
      * now intros [= <- _].
      * now apply IH.
Qed.

(** X14.  The scan stops at the first label line, so that a line with
    'Total Energy' after it is not read: when no line up to that label
    line contains 'Total Energy', the summary that is returned has [None]
    under "Energy", whatever the lines after the label line are. *)
Theorem energy_before_label (open_read_in : str -> str -> option str)
  (fchk_name path content : str) (result : gmap string pyval) :
  open_read_in path fchk_name = Some content ->
  Forall (fun l => PyStr.contains (lit "Total Energy") l = false)
    (scanned (PyStr.readlines content)) ->
  extract_fchk_data open_read_in fchk_name path = Return result ->
  result !! "Energy" = Some PNone.
Proof.
  intros Hopen HF H. apply fchk_returns_inv in H
    as (content' & data & iline & line & t & nbasis & orb & ne & homo & lumo
        & Hopen' & Hscan & _ & _ & _ & _ & _ & _ & _ & ->).
  rewrite Hopen in Hopen'. injection Hopen' as <-.
  rewrite scan_header_scanned in Hscan.
  apply scan_header_no_energy in Hscan; [|exact HF].
  rewrite !lookup_insert_ne by discriminate. now rewrite Hscan.
Qed.

Lemma nline_nonpositive n : n <= 0 -> nline n <= 0.
Proof.
  intros Hn. unfold nline.
  pose proof (Z.div_mod n 5 ltac:(lia)) as Hd.
  pose proof (Z.mod_pos_bound n 5 ltac:(lia)) as Hm.
  destruct (Z.eqb_spec (n mod 5) 0); lia.
Qed.

Lemma last_nth_error {A} (l : list A) (x : A) :
  last l = Some x -> nth_error l (length l - 1) = Some x.
Proof.
  induction l as [|a [|b l] IH]; try easy.
  intros H. apply IH in H. simpl in *. now rewrite Nat.sub_0_r in H.
Qed.

(** X15.  With an electron count of 0 or 1 the position [ne / 2 - 1] is
    -1, which Python counts from the end: the summary has the last of the
    energies that were read under "HOMO" and the first one under
    "LUMO". *)
Theorem single_electron_wraps
  (open_read_in : str -> str -> option str) (fchk_name path content : str)
  (data : gmap string pyval) (iline : nat) (line t : str) (nbasis : Z)
  (orb_energies : list pyfloat) (ne : Z) (first final : pyfloat) :
  open_read_in path fchk_name = Some content ->
  let lines := PyStr.readlines content in
  scan_header lines 0 initial_data 0 = Return (data, iline) ->
  nth_error lines iline = Some line ->
  last_token line = Return t -> PyNum.int t = Some nbasis ->
  read_orbitals lines iline (range (nline nbasis)) [] = Return orb_energies ->
  data !! "Ne" = Some (PInt ne) ->
  0 <= ne <= 1 ->
  head orb_energies = Some first -> last orb_energies = Some final ->
  exists result,
    extract_fchk_data open_read_in fchk_name path = Return result /\
    result !! "HOMO" = Some (PFloat final) /\
    result !! "LUMO" = Some (PFloat first).
Proof.
  intros Hopen lines Hscan Hline Htok Hint Horb Hne Hrange Hfirst Hfinal.
  exists (<["LUMO" := PFloat first]> (<["HOMO" := PFloat final]> data)).
  split.
  - unfold extract_fchk_data. rewrite Hopen. cbn [orelse]. bind_value.
    fold lines. unfold fchk_of_lines. rewrite Hscan. bind_value.
    rewrite item_at_nat, Hline. cbn [orelse]. bind_value.
    rewrite Htok. bind_value. unfold int. rewrite Hint.
    cbn [orelse]. bind_value. rewrite Horb. bind_value.
    unfold half_ne. rewrite Hne. bind_value.
    assert (Hhalf : ne / 2 = 0) by (apply Z.div_small; lia).
    rewrite Hhalf. change (0 - 1) with (- Z.of_nat 1).
    assert (Hlen : (0 < length orb_energies)%nat)
      by (destruct orb_energies; [discriminate|simpl; lia]).
    rewrite item_at_back by lia.
    rewrite (last_nth_error _ _ Hfinal). cbn [orelse]. bind_value.
    rewrite lookup_insert_ne by discriminate. rewrite Hne. bind_value.
    rewrite Hhalf. change 0 with (Z.of_nat 0). rewrite item_at_nat.
    destruct orb_energies as [|x orb]; [discriminate|].
    injection Hfirst as ->. reflexivity.
  - split.
    + rewrite lookup_insert_ne by discriminate. apply lookup_insert_eq.
    + apply lookup_insert_eq.
Qed.

Lemma item_at_raises {A} (l : list A) (i : Z) (e : exn) :
  item_at l i = Raise e -> e = IndexError.
Proof.
  unfold item_at. destruct (PySeq.index l i); [discriminate|].
  now intros [= <-].
Qed.

Lemma item_at_beyond {A} (l : list A) (i : Z) :
  Z.of_nat (length l) <= i -> item_at l i = Raise IndexError.
Proof.
  intros Hi. unfold item_at, PySeq.index.
  destruct (Z.leb_spec 0 i); [|lia].
  destruct (Z.ltb_spec i (Z.of_nat (length l))); [lia|]. cbn [andb].
  destruct (Z.ltb_spec i 0); [lia|]. now rewrite andb_false_r.
Qed.

(** X16.  A declared number of orbital energies that is zero or negative
    reads no energy line, and energies that do not reach position
    [ne / 2] give no summary: the function raises [IndexError]. *)
Theorem too_few_energies
  (open_read_in : str -> str -> option str) (fchk_name path content : str)
  (data : gmap string pyval) (iline : nat) (line t : str) (nbasis : Z)
  (orb_energies : list pyfloat) (ne : Z) :
  open_read_in path fchk_name = Some content ->
  let lines := PyStr.readlines content in
  scan_header lines 0 initial_data 0 = Return (data, iline) ->
  nth_error lines iline = Some line ->
  last_token line = Return t -> PyNum.int t = Some nbasis ->
  read_orbitals lines iline (range (nline nbasis)) [] = Return orb_energies ->
  data !! "Ne" = Some (PInt ne) ->
  (nbasis <= 0 -> orb_energies = []) /\
  (0 <= ne / 2 -> Z.of_nat (length orb_energies) <= ne / 2 ->
   extract_fchk_data open_read_in fchk_name path = Raise IndexError).
Proof.
  intros Hopen lines Hscan Hline Htok Hint Horb Hne. split.
  - intros Hn. apply nline_nonpositive in Hn. unfold range in Horb.
    replace (Z.to_nat (nline nbasis)) with 0%nat in Horb by lia.
    now injection Horb as <-.
  - intros Hlo Hhi.
    unfold extract_fchk_data. rewrite Hopen. cbn [orelse]. bind_value.
    fold lines. unfold fchk_of_lines. rewrite Hscan. bind_value.
    rewrite item_at_nat, Hline. cbn [orelse]. bind_value.
    rewrite Htok. bind_value. unfold int. rewrite Hint.
    cbn [orelse]. bind_value. rewrite Horb. bind_value.
    unfold half_ne. rewrite Hne. bind_value.
    destruct (item_at orb_energies (ne / 2 - 1)) as [homo|e] eqn:Hh.
    + bind_value. rewrite lookup_insert_ne by discriminate.
      rewrite Hne. bind_value. now rewrite item_at_beyond.
    + apply item_at_raises in Hh as ->. reflexivity.
Qed.

(* ===================================================================== *)
(** ** Further properties of the surface-analysis report *)
(* ===================================================================== *)

Lemma capture_error log_text pattern m i e :
  In pattern all_patterns -> Re.search pattern log_text = Some m ->
  (1 <= i <= group_count pattern)%nat ->
  float_group m i = Raise e ->
  e = ValueError /\ bad_capture log_text.
Proof.
  intros Hin Hm Hi. pose proof (search_count _ _ _ Hm) as Hlen.
  unfold float_group, group, Re.group.
  destruct (nth_error m (i - 1)) as [g|] eqn:Eg.
  2: { apply nth_error_None in Eg. lia. }
  cbn [orelse]. bind_value. unfold float.
  destruct (PyNum.float_syntax g) eqn:E; [discriminate|].
  intros [= <-]. split; [reflexivity|].
  exists pattern, m, g. repeat split; try assumption.
  exact (nth_error_In _ _ Eg).
Qed.

(** The conversion of group [i] of the match [m] of [pattern]: go on
    with its float, or conclude from its exception. *)
Ltac convert log_text pattern m i E G :=
  let H := fresh "H" in
  destruct (float_group m i) as [?|?] eqn:H; bind_value;
  [|intros [= <-];
    apply (capture_error log_text pattern m i _
             ltac:(known_pattern) E ltac:(rewrite G; lia) H)].

Lemma scalar_entries_error log_text pats :
  (forall kp, In kp pats ->
     In kp.2 all_patterns /\ (1 <= group_count kp.2)%nat) ->
  forall d0 e,
    for_each (scalar_entry log_text) pats d0 = Raise e ->
    e = ValueError /\ bad_capture log_text.
Proof.
  induction pats as [|kp pats IH]; intros Hp d0 e; [discriminate|].
  rewrite for_each_cons.
  destruct (Hp kp (or_introl eq_refl)) as [Hin Hc].
  destruct (scalar_entry log_text d0 kp) as [d1|e1] eqn:Hstep; bind_value.
  - apply IH. intros kp' H'. apply Hp. now right.
  - intros [= <-]. revert Hstep. unfold scalar_entry.
    destruct (Re.search kp.2 log_text) as [m|] eqn:Em; [|discriminate].
    destruct (float_group m 1) as [x|e1'] eqn:H1; bind_value;
      [discriminate|].
    intros [= <-]. apply (capture_error log_text kp.2 m 1 _ Hin Em); auto.
Qed.

Lemma area_entries_error log_text pats :
  (forall kp, In kp pats ->
     In kp.2 all_patterns /\ (2 <= group_count kp.2)%nat) ->
  forall d0 e,
    for_each (area_entry log_text) pats d0 = Raise e ->
    e = ValueError /\ bad_capture log_text.
Proof.
  induction pats as [|kp pats IH]; intros Hp d0 e; [discriminate|].
  rewrite for_each_cons.
  destruct (Hp kp (or_introl eq_refl)) as [Hin Hc].
  destruct (area_entry log_text d0 kp) as [d1|e1] eqn:Hstep; bind_value.
  - apply IH. intros kp' H'. apply Hp. now right.
  - intros [= <-]. revert Hstep. unfold area_entry.
    destruct (Re.search kp.2 log_text) as [m|] eqn:Em; [|discriminate].
    destruct (float_group m 1) as [b|e1'] eqn:H1; bind_value.
    2: { intros [= <-].
         apply (capture_error log_text kp.2 m 1 _ Hin Em); [lia|exact H1]. }
    destruct (float_group m 2) as [a|e2] eqn:H2; bind_value;
      [discriminate|].
    intros [= <-].
    apply (capture_error log_text kp.2 m 2 _ Hin Em); [lia|exact H2].
Qed.

(** X17.  The parser raises nothing but [ValueError], and only when a
    group captured by one of its patterns is not a float literal: the
    groups it asks for always exist, and the nested assignments always
    find their dictionary. *)
Theorem surface_error_is_value_error (log_text : str) (e : exn) :
  parse_multiwfn_surface_analysis log_text = Raise e ->
  e = ValueError /\ bad_capture log_text.
Proof.
  rewrite parse_surface_values. unfold surface_values.
  destruct group_counts as (Gv & Gd & Glo & Ghi & Gp & Gm & Ga & Gs).
  rewrite forallb_app in Gs. apply andb_prop in Gs as [Gs Gk].
  destruct (volume_value log_text) as [v1|e1] eqn:E1; bind_value.
  2: { intros [= <-]. revert E1. unfold volume_value.
       destruct (Re.search vol_pattern log_text) as [m|] eqn:E;
         [|discriminate].
       convert log_text vol_pattern m 1%nat E Gv.
       convert log_text vol_pattern m 2%nat E Gv.
       discriminate. }
  destruct (density_value log_text) as [v2|e2] eqn:E2; bind_value.
  2: { intros [= <-]. revert E2. unfold density_value.
       destruct (Re.search density_pattern log_text) as [m|] eqn:E;
         [|discriminate].
       convert log_text density_pattern m 1%nat E Gd.
       discriminate. }
  destruct (esp_range_value log_text) as [v3|e3] eqn:E3; bind_value.
  2: { intros [= <-]. revert E3. unfold esp_range_value.
       destruct (Re.search esp_min_pattern log_text) as [lo|] eqn:Elo;
         [|discriminate].
       destruct (Re.search esp_max_pattern log_text) as [hi|] eqn:Ehi;
         [|discriminate].
       convert log_text esp_min_pattern lo 1%nat Elo Glo.
       convert log_text esp_max_pattern hi 1%nat Ehi Ghi.
       discriminate. }
  destruct (for_each (area_entry log_text) area_patterns ∅)
    as [d4|e4] eqn:E4; bind_value.
  2: { intros [= <-].
       apply (area_entries_error log_text area_patterns
                (loop_patterns_known area_patterns
                   ltac:(intros; known_pattern) _ Ga) _ _ E4). }
  destruct (for_each (scalar_entry log_text) stats_patterns ∅)
    as [d5|e5] eqn:E5; bind_value.
  2: { intros [= <-].
       apply (scalar_entries_error log_text stats_patterns
                (loop_patterns_known stats_patterns
                   ltac:(intros; known_pattern) _ Gs) _ _ E5). }
  destruct (polarity_value log_text) as [v6|e6] eqn:E6; bind_value.
  2: { intros [= <-]. revert E6. unfold polarity_value.
       destruct (Re.search polarity_pattern log_text) as [m|] eqn:E;
         [|discriminate].
       convert log_text polarity_pattern m 1%nat E Gp.
       convert log_text polarity_pattern m 2%nat E Gp.
       convert log_text polarity_pattern m 3%nat E Gp.
       convert log_text polarity_pattern m 4%nat E Gp.
       discriminate. }
  destruct (for_each (scalar_entry log_text) skew_patterns ∅)
    as [d7|e7] eqn:E7; bind_value.
  2: { intros [= <-].
       apply (scalar_entries_error log_text skew_patterns
                (loop_patterns_known skew_patterns
                   ltac:(intros; known_pattern) _ Gk) _ _ E7). }
  destruct (minima_value log_text) as [v8|e8] eqn:E8; bind_value;
    [discriminate|].
  intros [= <-]. revert E8. unfold minima_value.
  destruct (Re.search minima_pattern log_text) as [m|] eqn:E;
    [|discriminate].
  convert log_text minima_pattern m 1%nat E Gm.
  convert log_text minima_pattern m 2%nat E Gm.
  convert log_text minima_pattern m 3%nat E Gm.
  discriminate.
Qed.

Lemma scanned_before lines : forall pre l post,
  scanned lines = pre ++ l :: post ->
  Forall (fun x => label_line x = false) pre.
Proof.
  induction lines as [|x xs IH]; intros pre l post; simpl.
  - now destruct pre.
  - destruct (label_line x) eqn:Hx.
    + destruct pre as [|p [|q pre]]; [constructor|discriminate..].
    + destruct pre as [|p pre]; [constructor|].
      intros [= <- H]. constructor; [exact Hx|]. now apply (IH _ l post).
Qed.

Lemma scan_header_energy_at l post : forall pre i data iline data' iline',
  Forall (fun x => label_line x = false) pre ->
  PyStr.contains (lit "Total Energy") l = true ->
  Forall (fun x => PyStr.contains (lit "Total Energy") x = false) post ->
  scan_header (pre ++ l :: post) i data iline = Return (data', iline') ->
  exists t e,
    last_token l = Return t /\ float t = Return e /\
    data' !! "Energy" = Some (PFloat e).
Proof.
  intros pre. induction pre as [|p pre IH];
    intros i data iline data' iline' Hpre Hl Hpost; cbn [app scan_header].
  - rewrite Hl.
    destruct (last_token l) as [t|] eqn:Ht; [|discriminate]. bind_value.
    destruct (float t) as [e|] eqn:He; [|discriminate]. bind_value.
    intros H. exists t, e. split; [reflexivity|]. split; [exact He|].
    destruct (PyStr.contains (lit "Number of electrons") l).
    + destruct (int t) as [n|]; [|discriminate]. bind_value.
      apply scan_header_no_energy in H; [|exact Hpost].
      rewrite H, lookup_insert_ne by discriminate. apply lookup_insert_eq.
    + destruct (PyStr.contains (lit "Alpha Orbital Energies") l).
      * injection H as <- _. apply lookup_insert_eq.
      * apply scan_header_no_energy in H; [|exact Hpost].
        rewrite H. apply lookup_insert_eq.
  - inversion Hpre as [|? ? Hp Hpre']; subst. unfold label_line in Hp.
    destruct (if PyStr.contains (lit "Total Energy") p
              then t ← last_token p; e ← float t;
                   Return (<["Energy" := PFloat e]> data)
              else Return data) as [d|]; [|discriminate]. bind_value.
    destruct (PyStr.contains (lit "Number of electrons") p).
    + destruct (last_token p) as [t'|]; [|discriminate].
      bind_value. destruct (int t') as [n|]; [|discriminate]. bind_value.
      now apply IH.
    + destruct (PyStr.contains (lit "Alpha Orbital Energies") p);
        [discriminate|]. now apply IH.
Qed.

(** X18.  Among the lines up to the first label line, the last one that
    contains 'Total Energy' gives the energy: a returned summary has the
    float of the last field of that line under "Energy". *)
Theorem energy_from_last_line (open_read_in : str -> str -> option str)
  (fchk_name path content : str) (pre : list str) (l : str)
  (post : list str) (result : gmap string pyval) :
  open_read_in path fchk_name = Some content ->
  scanned (PyStr.readlines content) = pre ++ l :: post ->
  PyStr.contains (lit "Total Energy") l = true ->
  Forall (fun x => PyStr.contains (lit "Total Energy") x = false) post ->
  extract_fchk_data open_read_in fchk_name path = Return result ->
  exists t e,
    last_token l = Return t /\ float t = Return e /\
    result !! "Energy" = Some (PFloat e).
Proof.
  intros Hopen Hlines Hl Hpost H. apply fchk_returns_inv in H
    as (content' & data & iline & line & t & nbasis & orb & ne & homo & lumo
        & Hopen' & Hscan & _ & _ & _ & _ & _ & _ & _ & ->).
  rewrite Hopen in Hopen'. injection Hopen' as <-.
  rewrite scan_header_scanned, Hlines in Hscan.
  apply scan_header_energy_at in Hscan
    as (t' & e & Ht & He & Henergy); try assumption.
  - exists t', e. split; [exact Ht|]. split; [exact He|].
    now rewrite !lookup_insert_ne by discriminate.
  - now apply (scanned_before _ _ _ _ Hlines).
Qed.

End Parsers.

Arguments PNone {pyfloat}.
Arguments PInt {pyfloat} n.
Arguments PFloat {pyfloat} x.
Arguments PList {pyfloat} l.
Arguments PDict {pyfloat} d.

(* ===================================================================== *)
(** ** The theorems on the sample inputs *)
(* ===================================================================== *)

(** The runs below take the literal itself for the float it denotes. *)

Import Examples.

Abbreviation report_results :=
  (results_or_empty float_literal id report).

(** C1.  On the log of the examples the first component of every atom
    returned is the atomic number read from the record, an integer: the
    table [atomic_num_to_symbol], which maps 6 to "C" and 8 to "O", is not
    applied to it. *)
Theorem symbol_is_atomic_number :
  extract_optimized_structure float_literal id (only log)
    (lit "job.gjf") (lit "/data")
  = Some [PList [PInt 6; PFloat (LitDec false 0 (-6));
                 PFloat (LitDec false 0 (-6)); PFloat (LitDec false 0 (-6))];
          PList [PInt 8; PFloat (LitDec false 0 (-6));
                 PFloat (LitDec false 0 (-6));
                 PFloat (LitDec false 1200000 (-6))]] /\
  atomic_num_to_symbol !! 6 = Some "C"%string /\
  atomic_num_to_symbol !! 8 = Some "O"%string.
Proof. repeat split; vm_compute; reflexivity. Qed.

(** Witness of C2: ten electrons and seven energies give the energies at
    positions 4 and 5. *)
Lemma homo_lumo_positions_witness :
  exists result,
    extract_fchk_data float_literal id (fun _ _ => Some fchk)
      (lit "job.fchk") (lit "/data") = Return result /\
    result !! "HOMO"%string = Some (PFloat (LitDec true 50 (-2))) /\
    result !! "LUMO"%string = Some (PFloat (LitDec false 20 (-2))).
Proof.
  destruct (homo_lumo_positions float_literal id (fun _ _ => Some fchk)
              (lit "job.fchk") (lit "/data") fchk
              (<["Energy"%string := PFloat (LitDec true 76 0)]>
                 (<["Ne"%string := PInt 10]> (initial_data float_literal)))
              2%nat
              (lit ("Alpha Orbital Energies                     R   N=           7"
                    ++ nl))
              (lit "7") 7
              [LitDec true 20 0; LitDec true 13 (-1); LitDec true 70 (-2);
               LitDec true 56 (-2); LitDec true 50 (-2);
               LitDec false 20 (-2); LitDec false 30 (-2)]
              10)
    as (homo & lumo & result & Hr & Hh & Hl & HH & HL & _);
    try (vm_compute; reflexivity); try (vm_compute; congruence).
  exists result. split; [exact Hr|].
  vm_compute in Hh. vm_compute in Hl.
  injection Hh as <-. injection Hl as <-. now split.
Defined.

(** Counterexample to C2 as stated: a summary with an electron count of
    0, which is even, and two orbital energies, which is at least
    [0 / 2 + 1].  No energy is at the zero-based index [0 / 2 - 1]; the
    function returns the last energy, the one at index 1, as "HOMO". *)
Lemma no_electrons_homo_is_last :
  exists result,
    extract_fchk_data float_literal id (fun _ _ => Some fchk_no_electrons)
      (lit "job.fchk") (lit "/data") = Return result /\
    result !! "Ne"%string = Some (PInt 0) /\
    read_orbitals float_literal id (PyStr.readlines fchk_no_electrons) 1
      (range (nline 2)) []
    = Return [LitDec true 50 (-2); LitDec false 20 (-2)] /\
    result !! "HOMO"%string = Some (PFloat (LitDec false 20 (-2))) /\
    zero_based [LitDec true 50 (-2); LitDec false 20 (-2)] (0 / 2 - 1)
    = None /\
    zero_based [LitDec true 50 (-2); LitDec false 20 (-2)] 1
    = Some (LitDec false 20 (-2)).
Proof.
  exists (<["LUMO"%string := PFloat (LitDec true 50 (-2))]>
            (<["HOMO"%string := PFloat (LitDec false 20 (-2))]>
               (<["Ne"%string := PInt 0]> (initial_data float_literal)))).
  repeat split; vm_compute; reflexivity.
Qed.

(** Counterexample to C3 as stated: the pattern of the minimum of the
    ESP matches the report of the examples, and the field of the minimum
    is missing from the result, because the pattern of the maximum does
    not match. *)
Lemma esp_min_needs_esp_max :
  parse_multiwfn_surface_analysis float_literal id report
  = Return report_results /\
  Re.search esp_min_pattern report = Some [lit "-1.5"] /\
  Re.search esp_max_pattern report = None /\
  ~ follows float_literal id (PDict report_results)
      ["esp_range"; "min_kcal/mol"]%string esp_min_pattern 1 report.
Proof.
  split; [vm_compute; reflexivity|].
  split; [vm_compute; reflexivity|].
  split; [vm_compute; reflexivity|].
  unfold follows.
  replace (Re.search esp_min_pattern report) with (Some [lit "-1.5"])
    by (vm_compute; reflexivity).
  intros (x & _ & H). vm_compute in H. discriminate.
Qed.

(** Witness of C3: the fields of the result on the report of the
    examples. *)
Lemma fields_follow_patterns_witness :
  follows float_literal id (PDict report_results)
    ["density"]%string density_pattern 1 report /\
  float_at float_literal (PDict report_results)
    ["esp_range"; "min_kcal/mol"]%string = None.
Proof.
  destruct (fields_follow_patterns float_literal id report report_results)
    as (Hfields & _ & Hesp); [vm_compute; reflexivity|].
  split.
  - apply Hfields. unfold scalar_fields. cbn [app In]. tauto.
  - replace (Re.search esp_max_pattern report) with (@None (list str))
      in Hesp by (vm_compute; reflexivity).
    destruct (Re.search esp_min_pattern report); apply Hesp.
Defined.

(** Counterexample to C5 as stated: a line with five fields yields an
    atom from its fields 2 to 4 although its last three fields are not
    three floats, and a line whose last three fields are floats yields no
    atom. *)
Lemma trailing_fields_not_used :
  floats float_literal id (trailing_three (lit "C 1.0 2.0 3.0 x"))
  = Raise ValueError /\
  xyz_line float_literal id [] (lit "C 1.0 2.0 3.0 x")
  = Return [(lit "C", [LitDec false 10 (-1); LitDec false 20 (-1);
                       LitDec false 30 (-1)])] /\
  returns (floats float_literal id (trailing_three (lit "C x 1.0 2.0 3.0")))
  = true /\
  xyz_line float_literal id [] (lit "C x 1.0 2.0 3.0") = Return [].
Proof. repeat split; vm_compute; reflexivity. Qed.

(** Witness of C5: a record with four fields. *)
Lemma xyz_line_rule_witness :
  for_each (xyz_line float_literal id) [lit "O 0.0 0.0 1.2"; lit "x"] []
  = Return [(lit "O", [zero; zero; LitDec false 12 (-1)])].
Proof.
  destruct (xyz_line_rule float_literal id [] (lit "O 0.0 0.0 1.2") [lit "x"])
    as (Hyes & _ & _).
  destruct Hyes as (sym & coords & Hsym & Hcoords & ->).
  { split; [vm_compute; lia|vm_compute; reflexivity]. }
  vm_compute in Hsym. vm_compute in Hcoords.
  injection Hsym as <-. injection Hcoords as <-.
  vm_compute. reflexivity.
Defined.

(** Witness of C6: in the summary of the examples the label line is
    line 2 and declares seven energies, which are read from two lines. *)
Lemma orbital_lines_read_witness :
  7 <= 5 * nline 7 < 7 + 5 /\
  extract_fchk_data float_literal id (fun _ _ => Some fchk)
    (lit "job.fchk") (lit "/data")
  = Return (<["LUMO"%string := PFloat (LitDec false 20 (-2))]>
              (<["HOMO"%string := PFloat (LitDec true 50 (-2))]>
                 (<["Energy"%string := PFloat (LitDec true 76 0)]>
                    (<["Ne"%string := PInt 10]>
                       (initial_data float_literal))))).
Proof.
  assert (Hlabel : first_from label_line (PyStr.readlines fchk) 0 2).
  { split; [lia|]. split.
    - exists (lit ("Alpha Orbital Energies                     R   N=           7"
                   ++ nl)).
      split; vm_compute; reflexivity.
    - intros j l Hj Hl.
      do 2 (destruct j as [|j];
            [vm_compute in Hl; injection Hl as <-; vm_compute; reflexivity|]).
      lia. }
  assert (Hline : nth_error (PyStr.readlines fchk) 2
                  = Some (lit ("Alpha Orbital Energies                     R   N=           7"
                               ++ nl))) by (vm_compute; reflexivity).
  assert (Htok : last_token
                   (lit ("Alpha Orbital Energies                     R   N=           7"
                         ++ nl)) = Return (lit "7"))
    by (vm_compute; reflexivity).
  destruct (orbital_lines_read float_literal id (fun _ _ => Some fchk)
              (lit "job.fchk") (lit "/data") fchk 2%nat _ (lit "7") 7
              eq_refl Hlabel Hline Htok eq_refl ltac:(lia))
    as [Hk Hrows].
  split; [exact Hk|]. apply Hrows.
  exists (<["Energy"%string := PFloat (LitDec true 76 0)]>
            (<["Ne"%string := PInt 10]> (initial_data float_literal))),
    [LitDec true 20 0; LitDec true 13 (-1); LitDec true 70 (-2);
     LitDec true 56 (-2); LitDec true 50 (-2);
     LitDec false 20 (-2); LitDec false 30 (-2)],
    10, (LitDec true 50 (-2)), (LitDec false 20 (-2)).
  repeat split; vm_compute; reflexivity.
Defined.

(** Witness of C7: the listing of the specification. *)
Lemma xyz_listing_with_count_witness :
  parse_xyz_content float_literal id listing
  = Return [(lit "C", [zero; zero; zero]);
            (lit "O", [zero; zero; LitDec false 12 (-1)])] /\
  PyNum.int (lit "2") = Some 2.
Proof.
  apply (xyz_listing_with_count float_literal id
           [] (lit "2") (lit "comment") (lit nl)
           [lit "C 0.0 0.0 0.0"; lit "O 0.0 0.0 1.2"]).
  - constructor.
  - repeat constructor.
  - discriminate.
  - repeat constructor.
  - unfold one_line. vm_compute. intuition discriminate.
  - repeat constructor; try (vm_compute; reflexivity);
      unfold one_line; vm_compute; intuition discriminate.
  - vm_compute. reflexivity.
Defined.

(** Witness of C4: in the log of the examples the convergence marker is
    at line 7 and the header that follows it at line 8; the block of the
    header at line 0, before convergence, is not the one that is read. *)
Lemma geometry_block_located_witness :
  extract_optimized_structure float_literal id (only log)
    (lit "job.gjf") (lit "/data")
  = Some [PList [PInt 6; PFloat (LitDec false 0 (-6));
                 PFloat (LitDec false 0 (-6)); PFloat (LitDec false 0 (-6))];
          PList [PInt 8; PFloat (LitDec false 0 (-6));
                 PFloat (LitDec false 0 (-6));
                 PFloat (LitDec false 1200000 (-6))]].
Proof.
  assert (Hname : log_path (lit "job.gjf") (lit "/data")
                  = Return (lit "/data/job.log")) by (vm_compute; reflexivity).
  assert (Hnormal : PyStr.contains (lit "Normal termination") log = true)
    by (vm_compute; reflexivity).
  assert (Hdone : PyStr.contains (lit "Optimization completed.") log = true)
    by (vm_compute; reflexivity).
  destruct (geometry_block_located float_literal id (only log)
              (lit "job.gjf") (lit "/data") (lit "/data/job.log") log
              Hname eq_refl Hnormal Hdone)
    as (c & Hc & Hblock).
  assert (Hseven : first_from (matches "Optimization completed.")
                     (PyStr.split_char Char.newline log) 0 7).
  { split; [lia|]. split.
    - exists (lit " Optimization completed."). split; vm_compute; reflexivity.
    - intros j l Hj Hl.
      do 7 (destruct j as [|j];
            [vm_compute in Hl; injection Hl as <-; vm_compute; reflexivity|]).
      lia. }
  assert (c = 7%nat) as -> by exact (first_from_unique _ _ _ _ _ Hc Hseven).
  rewrite (Hblock 8%nat); [vm_compute; reflexivity|].
  split; [lia|]. split.
  - exists (lit " Standard orientation:"). split; vm_compute; reflexivity.
  - intros j l Hj Hl. assert (j = 7%nat) as -> by lia.
    vm_compute in Hl. injection Hl as <-. vm_compute. reflexivity.
Defined.

(** Witness of C8: a log with the convergence marker and a geometry
    block, and no marker of normal termination. *)
Lemma no_termination_no_result_witness :
  extract_optimized_structure float_literal id
    (only (lit (" Optimization completed." ++ nl ++ " Standard orientation:")))
    (lit "job.com") (lit "/data/") = None.
Proof.
  apply no_termination_no_result.
  intros name log_content _ H. injection H as <-. vm_compute. reflexivity.
Defined.

(** Counterexample to C10 as stated: a record with three fields (fewer
    than four) raises no exception, and the function returns an atom read
    from it. *)
Lemma three_fields_are_read :
  length (PyStr.split (lit "1 6 0.5")) = 3%nat /\
  read_record float_literal id (lit "1 6 0.5")
  = Return (PList [PInt 6; PFloat (LitDec false 1 0);
                   PFloat (LitDec false 6 0); PFloat (LitDec false 5 (-1))]) /\
  extract_optimized_structure float_literal id (only short_log)
    (lit "job.gjf") (lit "/data")
  = Some [PList [PInt 6; PFloat (LitDec false 1 0);
                 PFloat (LitDec false 6 0); PFloat (LitDec false 5 (-1))]].
Proof. repeat split; vm_compute; reflexivity. Qed.

(** Witness of C10: the second record of [bad_log] has a symbol where
    the atomic number is expected. *)
Lemma block_exception_no_result_witness :
  extract_optimized_structure float_literal id (only bad_log)
    (lit "job.gjf") (lit "/data") = None.
Proof.
  pose (pre := [lit "    1          6         0        0.000000  0.000000  0.000000"]).
  pose (line := lit "    2          O         0        0.000000  0.000000  1.200000").
  pose (post := [lit " ---------------------------------------------------------";
                 lit " Normal termination of Gaussian 16"]).
  assert (Hblock :
            let log_lines := PyStr.split_char Char.newline bad_log in
            skipn (locate_block log_lines + 5) log_lines = pre ++ line :: post)
    by (vm_compute; reflexivity).
  assert (Hdashes :
            Forall (fun l => PyStr.contains (lit "-------") l = false)
              (pre ++ [line]))
    by (repeat constructor).
  destruct (block_exception_no_result float_literal id (only bad_log)
              (lit "job.gjf") (lit "/data") (lit "/data/job.log") bad_log
              pre line post eq_refl eq_refl Hblock Hdashes)
    as (_ & Hint & Hnone).
  apply Hnone. apply (Hint (lit "O")); vm_compute; reflexivity.
Defined.

(** Counterexample to C9 as stated: on this text the pattern of the
    density captures a lone dot, which is no float, and the function
    raises [ValueError] instead of returning a dictionary. *)
Lemma lone_dot_raises :
  Re.search density_pattern (lit "Estimated density . g/cm^3")
  = Some [lit "."] /\
  parse_multiwfn_surface_analysis float_literal id
    (lit "Estimated density . g/cm^3") = Raise ValueError.
Proof. split; vm_compute; reflexivity. Qed.

(** Witness of C9: every group captured in the report of the examples
    is a float literal; the parser returns on it, with the eight keys. *)
Lemma result_has_eight_keys_witness :
  returns (parse_multiwfn_surface_analysis float_literal id report) = true /\
  dom report_results = result_keys /\
  report_results !! "polarity"%string = Some (PDict ∅) /\
  report_results !! "esp_range"%string = Some (PDict ∅).
Proof.
  destruct (result_has_eight_keys float_literal id report) as [Hret H].
  split.
  { apply Hret. intros pattern m g Hin Hm Hg.
    unfold all_patterns, area_patterns, stats_patterns, skew_patterns in Hin.
    cbn [app map snd In] in Hin.
    repeat (destruct Hin as [<-|Hin]); try contradiction;
      vm_compute in Hm; try discriminate Hm; injection Hm as <-;
      cbn [In] in Hg; repeat (destruct Hg as [<-|Hg]); try contradiction;
      vm_compute; discriminate. }
  destruct (H report_results) as (Hdom & _ & _ & Hesp & _ & _ & Hpol & _);
    [vm_compute; reflexivity|].
  split; [exact Hdom|]. split.
  - apply Hpol. vm_compute. reflexivity.
  - apply Hesp. right. vm_compute. reflexivity.
Defined.

(* ===================================================================== *)
(** ** The further properties on the sample inputs *)
(* ===================================================================== *)

(** Witness of X2: the listing of the specification after a space. *)
Lemma parse_xyz_lines_witness :
  parse_xyz_content float_literal id (lit " ") = Return [] /\
  parse_xyz_content float_literal id
    (lit " " ++ join_lines [lit "2"; lit "comment"; lit "C 0.0 0.0 0.0";
                            lit "O 0.0 0.0 1.2"])
  = Return [(lit "C", [zero; zero; zero]);
            (lit "O", [zero; zero; LitDec false 12 (-1)])].
Proof.
  assert (Hlead : blank (lit " ")) by (repeat constructor).
  destruct (parse_xyz_lines float_literal id (lit " ") "2"%char []
              [lit "comment"; lit "C 0.0 0.0 0.0"; lit "O 0.0 0.0 1.2"]
              Hlead) as [Hnone Hlines].
  split; [exact Hnone|].
  assert (Hone : Forall one_line
                   [lit "2"; lit "comment"; lit "C 0.0 0.0 0.0";
                    lit "O 0.0 0.0 1.2"]).
  { repeat constructor; unfold one_line; vm_compute; intuition discriminate. }
  exact (Hlines eq_refl Hone).
Defined.

(** Witness of X3: a listing that is only a count and a comment. *)
Lemma deck_needs_an_atom_witness :
  xyz_to_gaussian_opt float_literal id six_decimals
    (lit ("2" ++ nl ++ "comment")) (lit "job") (lit "B3LYP") (lit "6-31G(d)")
    (lit "4GB") 4 0 1 (lit "Title")
  = Raise ValueError.
Proof.
  destruct (deck_needs_an_atom float_literal id six_decimals
              (lit ("2" ++ nl ++ "comment")) (lit "job") (lit "B3LYP")
              (lit "6-31G(d)") (lit "4GB") 4 0 1 (lit "Title"))
    as [[_ Hraise] _].
  apply Hraise. left. vm_compute. reflexivity.
Defined.

(** Witness of X4: the deck of the listing of the specification. *)
Lemma deck_layout_witness :
  xyz_to_gaussian_opt float_literal id six_decimals listing
    (lit " job ") (lit "B3LYP") (lit "6-31G(d)") (lit "4GB") 4 (-1) 2
    (lit "CO (test)")
  = Return
      (lit ("%chk=job.chk" ++ nl ++ "%mem=4GB" ++ nl ++ "%nprocshared=4" ++ nl
            ++ nl ++ "# opt B3LYP/6-31G(d)" ++ nl ++ nl ++ "CO _test_" ++ nl
            ++ nl ++ "-1 2" ++ nl
            ++ " C     0.000000     0.000000     0.000000" ++ nl
            ++ " O     0.000000     0.000000     1.200000" ++ nl
            ++ nl ++ nl ++ nl)).
Proof.
  assert (Hparse : parse_xyz_content float_literal id listing
                   = Return [(lit "C", [zero; zero; zero]);
                             (lit "O", [zero; zero; LitDec false 12 (-1)])])
    by (vm_compute; reflexivity).
  assert (Hn : PyNum.str_of_int 4 = Some (lit "4"))
    by (vm_compute; reflexivity).
  assert (Hc : PyNum.str_of_int (-1) = Some (lit "-1"))
    by (vm_compute; reflexivity).
  assert (Hm : PyNum.str_of_int 2 = Some (lit "2"))
    by (vm_compute; reflexivity).
  destruct (deck_layout float_literal id six_decimals listing
              (lit " job ") (lit "B3LYP") (lit "6-31G(d)") (lit "4GB")
              4 (-1) 2 (lit "CO (test)") _ _ _ _
              Hparse ltac:(discriminate) Hn Hc Hm) as [Hdeck _].
  rewrite Hdeck. vm_compute. reflexivity.
Defined.

(** Witness of X5: a title that is clean already. *)
Lemma clean_title_safe_witness :
  clean_title (lit "CO-2 run_1") = lit "CO-2 run_1".
Proof.
  destruct (clean_title_safe (lit "CO-2 run_1")) as (_ & _ & _ & Hsame & _).
  apply Hsame.
  repeat (constructor;
          [first [ left; vm_compute; reflexivity
                 | right; left; reflexivity
                 | right; right; left; reflexivity
                 | right; right; right; reflexivity ]|]).
  constructor.
Defined.

Lemma six_decimals_read_back : reads_back float_literal six_decimals.
Proof.
  intros x. unfold six_decimals.
  destruct x as [[] m e| |];
    try destruct ((m =? 12)%N && (e =? -1))%bool;
    (split; [vm_compute; discriminate|]);
    (split; [repeat (constructor; [vm_compute; reflexivity|]); constructor
            |vm_compute; discriminate]).
Qed.

(** Witness of X6: the two coordinate lines of the deck of the listing
    are read back as its two atoms. *)
Lemma deck_lines_read_back_witness :
  parse_xyz_content float_literal id
    (lit (" C     0.000000     0.000000     0.000000" ++ nl
          ++ " O     0.000000     0.000000     1.200000" ++ nl))
  = Return [(lit "C", [LitDec false 0 (-6); LitDec false 0 (-6);
                       LitDec false 0 (-6)]);
            (lit "O", [LitDec false 0 (-6); LitDec false 0 (-6);
                       LitDec false 1200000 (-6)])].
Proof.
  assert (Hparse : parse_xyz_content float_literal id listing
                   = Return [(lit "C", [zero; zero; zero]);
                             (lit "O", [zero; zero; LitDec false 12 (-1)])])
    by (vm_compute; reflexivity).
  destruct (deck_lines_read_back float_literal id six_decimals listing _
              six_decimals_read_back Hparse) as [Hback _].
  exact Hback.
Defined.

(** Witness of X7: the log of 'job.gjf' in '/data'. *)
Lemma log_file_name_witness :
  log_path (lit "job.gjf") (lit "/data") = Return (lit "/data/job.log").
Proof.
  destruct (log_file_name float_literal id (only log) (lit "job.gjf")
              (lit "/data")) as [_ Hname].
  destruct (Hname (lit "/data/")) as [Hsuffix _].
  { right. exists (lit "/dat"), "a"%char. repeat split. discriminate. }
  exact (Hsuffix (lit "job") (or_intror eq_refl)).
Defined.

(** Witness of X8: the two records of the log of the examples. *)
Lemma structure_records_witness :
  Forall (geometry_record float_literal)
    [PList [PInt 6; PFloat (LitDec false 0 (-6));
            PFloat (LitDec false 0 (-6)); PFloat (LitDec false 0 (-6))];
     PList [PInt 8; PFloat (LitDec false 0 (-6));
            PFloat (LitDec false 0 (-6));
            PFloat (LitDec false 1200000 (-6))]].
Proof.
  assert (Hlog : extract_optimized_structure float_literal id (only log)
                   (lit "job.gjf") (lit "/data")
                 = Some [PList [PInt 6; PFloat (LitDec false 0 (-6));
                                PFloat (LitDec false 0 (-6));
                                PFloat (LitDec false 0 (-6))];
                         PList [PInt 8; PFloat (LitDec false 0 (-6));
                                PFloat (LitDec false 0 (-6));
                                PFloat (LitDec false 1200000 (-6))]])
    by (vm_compute; reflexivity).
  exact (proj2 (structure_records float_literal id (only log)
                  (lit "job.gjf") (lit "/data") _ Hlog)).
Defined.

(** Witness of X9: the log of the examples holds both markers. *)
Lemma structure_needs_markers_witness :
  exists name log_content,
    log_path (lit "job.gjf") (lit "/data") = Return name /\
    only log name = Some log_content /\
    PyStr.contains (lit "Normal termination") log_content = true /\
    PyStr.contains (lit "Optimization completed.") log_content = true.
Proof.
  apply (structure_needs_markers float_literal id (only log)
           (lit "job.gjf") (lit "/data")).
  vm_compute. discriminate.
Defined.

(** Witness of X10: a log with the marker of convergence at line 0 and
    no header; the record at line 5 is read. *)
Lemma block_without_header_witness :
  extract_optimized_structure float_literal id (only bare_log)
    (lit "job.com") (lit "/data/")
  = Some [PList [PInt 6; PFloat (LitDec false 0 (-6));
                 PFloat (LitDec false 0 (-6)); PFloat (LitDec false 0 (-6))]].
Proof.
  assert (Hname : log_path (lit "job.com") (lit "/data/")
                  = Return (lit "/data/job.log")) by (vm_compute; reflexivity).
  assert (Hnormal : PyStr.contains (lit "Normal termination") bare_log = true)
    by (vm_compute; reflexivity).
  assert (Hdone : PyStr.contains (lit "Optimization completed.") bare_log
                  = true) by (vm_compute; reflexivity).
  assert (Hzero : first_from (matches "Optimization completed.")
                    (PyStr.split_char Char.newline bare_log) 0 0).
  { split; [lia|]. split.
    - exists (lit " Optimization completed."). split; vm_compute; reflexivity.
    - intros j l Hj. lia. }
  assert (Hnone : Forall
                    (fun l => PyStr.contains (lit "Standard orientation") l
                              = false)
                    (skipn 0 (PyStr.split_char Char.newline bare_log))).
  { vm_compute. repeat (constructor; [reflexivity|]). constructor. }
  rewrite (block_without_header float_literal id (only bare_log)
             (lit "job.com") (lit "/data/") (lit "/data/job.log") bare_log 0
             Hname eq_refl Hnormal Hdone Hzero Hnone).
  vm_compute. reflexivity.
Defined.

(** Witness of X11: the summary of the examples. *)
Lemma summary_entries_witness :
  exists result,
    extract_fchk_data float_literal id (fun _ _ => Some fchk)
      (lit "job.fchk") (lit "/data") = Return result /\
    dom result = summary_keys.
Proof.
  destruct (extract_fchk_data float_literal id (fun _ _ => Some fchk)
              (lit "job.fchk") (lit "/data")) as [result|] eqn:E;
    [|vm_compute in E; discriminate].
  exists result. split; [reflexivity|].
  exact (proj1 (summary_entries float_literal id _ _ _ result E)).
Defined.

(** Witness of X12: a summary without the electron count. *)
Lemma summary_needs_electron_count_witness :
  returns (extract_fchk_data float_literal id (fun _ _ => Some fchk_no_count)
             (lit "job.fchk") (lit "/data")) = false.
Proof.
  apply (summary_needs_electron_count float_literal id
           (fun _ _ => Some fchk_no_count) (lit "job.fchk") (lit "/data")).
  intros content [= <-]. vm_compute.
  repeat (constructor; [reflexivity|]). constructor.
Defined.

(** Witness of X13: in the summary of the examples the label line is
    line 2. *)
Lemma count_line_position_witness :
  exists content iline line t nbasis orb_energies,
    Some fchk = Some content /\
    (first_from label_line (PyStr.readlines content) 0 iline \/
     Forall (fun l => label_line l = false) (PyStr.readlines content) /\
     iline = 0%nat) /\
    nth_error (PyStr.readlines content) iline = Some line /\
    last_token line = Return t /\ PyNum.int t = Some nbasis /\
    read_orbitals float_literal id (PyStr.readlines content) iline
      (range (nline nbasis)) [] = Return orb_energies.
Proof.
  destruct (extract_fchk_data float_literal id (fun _ _ => Some fchk)
              (lit "job.fchk") (lit "/data")) as [result|] eqn:E;
    [|vm_compute in E; discriminate].
  exact (count_line_position float_literal id _ _ _ result E).
Defined.

(** Witness of X14: a summary whose total energy comes after the orbital
    energies has no energy. *)
Lemma energy_before_label_witness :
  exists result,
    extract_fchk_data float_literal id (fun _ _ => Some fchk_energy_last)
      (lit "job.fchk") (lit "/data") = Return result /\
    result !! "Energy"%string = Some PNone.
Proof.
  destruct (extract_fchk_data float_literal id
              (fun _ _ => Some fchk_energy_last)
              (lit "job.fchk") (lit "/data")) as [result|] eqn:E;
    [|vm_compute in E; discriminate].
  exists result. split; [reflexivity|].
  apply (energy_before_label float_literal id
           (fun _ _ => Some fchk_energy_last) (lit "job.fchk") (lit "/data")
           fchk_energy_last result eq_refl); [|exact E].
  vm_compute. repeat (constructor; [reflexivity|]). constructor.
Defined.

(** Witness of X15: one electron and the energies -0.5 and 0.2; the
    summary has 0.2 under "HOMO" and -0.5 under "LUMO". *)
Lemma single_electron_wraps_witness :
  exists result,
    extract_fchk_data float_literal id (fun _ _ => Some fchk_one_electron)
      (lit "job.fchk") (lit "/data") = Return result /\
    result !! "HOMO"%string = Some (PFloat (LitDec false 20 (-2))) /\
    result !! "LUMO"%string = Some (PFloat (LitDec true 50 (-2))).
Proof.
  assert (Hscan : scan_header float_literal id
                    (PyStr.readlines fchk_one_electron) 0
                    (initial_data float_literal) 0
                  = Return (<["Ne"%string := PInt 1]>
                              (initial_data float_literal), 1%nat))
    by (vm_compute; reflexivity).
  assert (Hline : nth_error (PyStr.readlines fchk_one_electron) 1
                  = Some (lit ("Alpha Orbital Energies                     R   N=           2"
                               ++ nl))) by (vm_compute; reflexivity).
  assert (Htok : last_token
                   (lit ("Alpha Orbital Energies                     R   N=           2"
                         ++ nl)) = Return (lit "2"))
    by (vm_compute; reflexivity).
  assert (Horb : read_orbitals float_literal id
                   (PyStr.readlines fchk_one_electron) 1 (range (nline 2)) []
                 = Return [LitDec true 50 (-2); LitDec false 20 (-2)])
    by (vm_compute; reflexivity).
  exact (single_electron_wraps float_literal id
           (fun _ _ => Some fchk_one_electron) (lit "job.fchk") (lit "/data")
           fchk_one_electron _ 1%nat _ (lit "2") 2 _ 1
           (LitDec true 50 (-2)) (LitDec false 20 (-2))
           eq_refl Hscan Hline Htok eq_refl Horb eq_refl
           ltac:(lia) eq_refl eq_refl).
Defined.

(** Witness of X16: ten electrons and no orbital energy. *)
Lemma too_few_energies_witness :
  extract_fchk_data float_literal id (fun _ _ => Some fchk_no_energies)
    (lit "job.fchk") (lit "/data") = Raise IndexError.
Proof.
  assert (Hscan : scan_header float_literal id
                    (PyStr.readlines fchk_no_energies) 0
                    (initial_data float_literal) 0
                  = Return (<["Ne"%string := PInt 10]>
                              (initial_data float_literal), 1%nat))
    by (vm_compute; reflexivity).
  assert (Hline : nth_error (PyStr.readlines fchk_no_energies) 1
                  = Some (lit ("Alpha Orbital Energies                     R   N=           0"
                               ++ nl))) by (vm_compute; reflexivity).
  assert (Htok : last_token
                   (lit ("Alpha Orbital Energies                     R   N=           0"
                         ++ nl)) = Return (lit "0"))
    by (vm_compute; reflexivity).
  assert (Horb : read_orbitals float_literal id
                   (PyStr.readlines fchk_no_energies) 1 (range (nline 0)) []
                 = Return []) by (vm_compute; reflexivity).
  destruct (too_few_energies float_literal id
              (fun _ _ => Some fchk_no_energies) (lit "job.fchk")
              (lit "/data") fchk_no_energies _ 1%nat _ (lit "0") 0 [] 10
              eq_refl Hscan Hline Htok eq_refl Horb eq_refl)
    as [_ Hraise].
  apply Hraise; vm_compute; discriminate.
Defined.

(** Witness of X17: a skewness that is a lone minus sign. *)
Lemma surface_error_is_value_error_witness :
  parse_multiwfn_surface_analysis float_literal id bad_report
  = Raise ValueError /\
  bad_capture bad_report.
Proof.
  assert (Hraise : parse_multiwfn_surface_analysis float_literal id bad_report
                   = Raise ValueError) by (vm_compute; reflexivity).
  split; [exact Hraise|].
  exact (proj2 (surface_error_is_value_error float_literal id bad_report
                  ValueError Hraise)).
Defined.

(** Witness of X18: the total energy of the summary of the examples. *)
Lemma energy_from_last_line_witness :
  exists result,
    extract_fchk_data float_literal id (fun _ _ => Some fchk)
      (lit "job.fchk") (lit "/data") = Return result /\
    result !! "Energy"%string = Some (PFloat (LitDec true 76 0)).
Proof.
  destruct (extract_fchk_data float_literal id (fun _ _ => Some fchk)
              (lit "job.fchk") (lit "/data")) as [result|] eqn:E;
    [|vm_compute in E; discriminate].
  exists result. split; [reflexivity|].
  destruct (energy_from_last_line float_literal id (fun _ _ => Some fchk)
              (lit "job.fchk") (lit "/data") fchk
              [lit ("Number of electrons                        I               10"
                    ++ nl)]
              (lit ("Total Energy                               R     -7.6E+01"
                    ++ nl))
              [lit ("Alpha Orbital Energies                     R   N=           7"
                    ++ nl)]
              result eq_refl)
    as (t & e & Ht & He & Henergy).
  - vm_compute. reflexivity.
  - vm_compute. reflexivity.
  - constructor; [vm_compute; reflexivity|constructor].
  - exact E.
  - rewrite Henergy. vm_compute in Ht. injection Ht as <-.
    vm_compute in He. now injection He as <-.
Defined.
